(** * The multi-day story writer (test_agents/story_writer_openai_agent.py)

    A shallow embedding of the script's functions
    ([load_openai_config], [setup_litellm], [call_llm],
    [write_multi_day_story], [interactive_story_writer]) together with the
    parts of the Python runtime they lean on (text, [hash], [int],
    [datetime]), followed by the properties the design document states
    about them.

    Conventions.
    - A Python [str] is a [string]; one [ascii] stands for one code point
      below 256, which is how CPython stores such text (one byte per
      character).  All literals of the script that reach a model or the
      story file are in that range.
    - A Python [int] is a [Z].
    - Console output ([print]) is left out: nothing printed is read back.
    - What a run cannot decide itself ([.env] file, hash key, clock, the
      two model endpoints) is a field of [world]; the environment and the
      lines waiting at the keyboard are part of the [state] it starts
      from; what it does to the outside (requests, the file written) is
      recorded in the trace of that state. *)

From Stdlib Require Import ZArith Ascii String List Lia Bool.
From stdpp Require Import base gmap strings list.

Local Open Scope Z_scope.

(** ** Python text *)
Module PyStr.

Definition chr (n : Z) : ascii := ascii_of_N (Z.to_N n).
Definition ord (c : ascii) : Z := Z.of_N (N_of_ascii c).

Definition nl : string := String (chr 10) EmptyString.
Definition dquote : string := String (chr 34) EmptyString.

(** [bool(s)] for a string: the empty string is falsy. *)
Definition truthy (s : string) : bool :=
  match s with EmptyString => false | String _ _ => true end.

(** [str.isspace] on one character (code points below 256). *)
Definition isspace (c : ascii) : bool :=
  let n := ord c in
  ((9 <=? n) && (n <=? 13)) || ((28 <=? n) && (n <=? 32))
  || (n =? 133) || (n =? 160).

Fixpoint lstrip (s : string) : string :=
  match s with
  | String c r => if isspace c then lstrip r else s
  | EmptyString => EmptyString
  end.

Definition rev (s : string) : string := String.rev s.

(** [s.strip()] *)
Definition strip (s : string) : string := rev (lstrip (rev (lstrip s))).

(** [str.lower] on one character: A-Z and the accented capitals of
    Latin-1 (all but the multiplication sign) move up by 32. *)
Definition lower_char (c : ascii) : ascii :=
  let n := ord c in
  if ((65 <=? n) && (n <=? 90))
     || ((192 <=? n) && (n <=? 222) && negb (n =? 215))
  then chr (n + 32) else c.

Fixpoint lower (s : string) : string :=
  match s with
  | EmptyString => EmptyString
  | String c r => String (lower_char c) (lower r)
  end.

(** [sub in s] *)
Fixpoint contains (sub s : string) : bool :=
  String.prefix sub s
  || match s with
     | EmptyString => false
     | String _ r => contains sub r
     end.

(** [sep.join(parts)] *)
Fixpoint join (sep : string) (parts : list string) : string :=
  match parts with
  | [] => EmptyString
  | [p] => p
  | p :: rest => p +:+ sep +:+ join sep rest
  end.

(** [EmptyString.join(parts)], the concatenation of the fragments *)
Definition concat (parts : list string) : string :=
  fold_right String.append EmptyString parts.

Definition digit (d : Z) : ascii := chr (48 + d).

(** Decimal digits of a non-negative number, most significant first. *)
Fixpoint digits_pos (fuel : nat) (n : Z) (acc : string) : string :=
  match fuel with
  | O => acc
  | S f =>
      let acc' := String (digit (n mod 10)) acc in
      if n <? 10 then acc' else digits_pos f (n / 10) acc'
  end.

(** [str(n)] for an [int] *)
Definition show (n : Z) : string :=
  if n <? 0
  then String (chr 45) (digits_pos (S (Z.to_nat (Z.log2 (- n)))) (- n) EmptyString)
  else digits_pos (S (Z.to_nat (Z.log2 n))) n EmptyString.

(** A number of at most two digits, zero-filled to two ([%d], [%m], ...) *)
Definition pad2 (n : Z) : string :=
  String (digit (n / 10 mod 10)) (String (digit (n mod 10)) EmptyString).

Definition bytes (s : string) : list Z := map ord (list_ascii_of_string s).

End PyStr.

(** ** [hash(str)]

    CPython (3.11 and later, default build) hashes the characters of a
    string with SipHash-1-3 under a 128-bit key that is drawn when the
    interpreter starts (or derived from [PYTHONHASHSEED]), see
    [Python/pyhash.c]. *)
Module PyHash.

Definition w64 (x : Z) : Z := x mod 2 ^ 64.

Definition rotl (x b : Z) : Z :=
  Z.lor (w64 (Z.shiftl x b)) (Z.shiftr x (64 - b)).

Record sip := Sip { v0 : Z; v1 : Z; v2 : Z; v3 : Z }.

(** [HALF_ROUND(a,b,c,d,s,t)], returning the new [(a,b,c,d)] *)
Definition half_round (a b c d s t : Z) : Z * Z * Z * Z :=
  let a := w64 (a + b) in
  let c := w64 (c + d) in
  let b := Z.lxor (rotl b s) a in
  let d := Z.lxor (rotl d t) c in
  let a := rotl a 32 in
  (a, b, c, d).

(** [SINGLE_ROUND(v0,v1,v2,v3)] *)
Definition single_round (v : sip) : sip :=
  let '(a0, a1, a2, a3) := half_round (v0 v) (v1 v) (v2 v) (v3 v) 13 16 in
  let '(b2, b1, b0, b3) := half_round a2 a1 a0 a3 17 21 in
  Sip b0 b1 b2 b3.

(** Little-endian value of a run of bytes. *)
Fixpoint le_bytes (l : list Z) : Z :=
  match l with
  | [] => 0
  | b :: r => b + 256 * le_bytes r
  end.

Definition absorb (v : sip) (m : Z) : sip :=
  let v := Sip (v0 v) (v1 v) (v2 v) (Z.lxor (v3 v) m) in
  let v := single_round v in
  Sip (Z.lxor (v0 v) m) (v1 v) (v2 v) (v3 v).

(** The [while (src_sz >= 8)] loop; returns the state and the tail of
    fewer than eight bytes. *)
Fixpoint blocks (v : sip) (l : list Z) : sip * list Z :=
  match l with
  | b0 :: b1 :: b2 :: b3 :: b4 :: b5 :: b6 :: b7 :: r =>
      blocks (absorb v (le_bytes [b0; b1; b2; b3; b4; b5; b6; b7])) r
  | tail => (v, tail)
  end.

Definition siphash13 (k0 k1 : Z) (src : list Z) : Z :=
  let b := w64 (Z.shiftl (Z.of_nat (length src)) 56) in
  let v := Sip (Z.lxor k0 0x736f6d6570736575)
               (Z.lxor k1 0x646f72616e646f6d)
               (Z.lxor k0 0x6c7967656e657261)
               (Z.lxor k1 0x7465646279746573) in
  let '(v, tail) := blocks v src in
  let b := Z.lor b (le_bytes tail) in
  let v := absorb v b in
  let v := Sip (v0 v) (v1 v) (Z.lxor (v2 v) 0xff) (v3 v) in
  let v := single_round (single_round (single_round v)) in
  Z.lxor (Z.lxor (v0 v) (v1 v)) (Z.lxor (v2 v) (v3 v)).

(** The key of one interpreter process. *)
Record secret := Secret { k0 : Z; k1 : Z }.

(** [_Py_HashBytes]: the empty text hashes to 0, the result is read as a
    signed 64-bit number and -1 is never returned. *)
Definition hash_bytes (key : secret) (src : list Z) : Z :=
  match src with
  | [] => 0
  | _ =>
      let u := siphash13 (k0 key) (k1 key) src in
      let x := if u <? 2 ^ 63 then u else u - 2 ^ 64 in
      if x =? -1 then -2 else x
  end.

(** [hash(s)] for a string [s] *)
Definition hash (key : secret) (s : string) : Z :=
  hash_bytes key (PyStr.bytes s).

End PyHash.

(** ** Exceptions *)

(** The exceptions a run can end with.  [ValueError] carries the message
    when the script itself raises it; the text of messages produced inside
    the runtime is not modelled ([None]). *)
Inductive exn :=
  | ValueError (msg : option string)
  | OverflowError
  | IndexError
  | EOFError
  | ProviderError (what : string).

Inductive outcome (A : Type) :=
  | Returned (a : A)
  | Raised (e : exn).
Arguments Returned {A} a.
Arguments Raised {A} e.

(** ** [int(text)] *)
Module PyInt.

Definition digit_val (c : ascii) : option Z :=
  let n := PyStr.ord c in
  if (48 <=? n) && (n <=? 57) then Some (n - 48) else None.

(** Digits with single underscores between them; [after_digit] tells
    whether the previous character was a digit.  Returns the value and
    the number of digits read. *)
Fixpoint digits (s : string) (acc count : Z) (after_digit : bool)
  : option (Z * Z) :=
  match s with
  | EmptyString => if after_digit then Some (acc, count) else None
  | String c r =>
      match digit_val c with
      | Some d => digits r (10 * acc + d) (count + 1) true
      | None =>
          if (PyStr.ord c =? 95) && after_digit
          then digits r acc count false
          else None
      end
  end.

(** [sys.get_int_max_str_digits()], the default *)
Definition max_str_digits : Z := 4300.

Definition unsigned (s : string) : option Z :=
  match digits s 0 0 false with
  | Some (v, count) => if count <=? max_str_digits then Some v else None
  | None => None
  end.

(** The white space [int] skips around a number: the ASCII white space
    and, of the other characters below 256, the next-line and no-break
    space characters; the separators 28 to 31, which [str.strip] removes,
    are not among them. *)
Definition isspace (c : ascii) : bool :=
  let n := PyStr.ord c in
  ((9 <=? n) && (n <=? 13)) || (n =? 32) || (n =? 133) || (n =? 160).

Fixpoint lstrip (s : string) : string :=
  match s with
  | String c r => if isspace c then lstrip r else s
  | EmptyString => EmptyString
  end.

Definition strip (s : string) : string :=
  String.rev (lstrip (String.rev (lstrip s))).

(** [int(s)]: surrounding white space, one optional sign, decimal
    digits.  [None] stands for [ValueError]. *)
Definition parse (s : string) : option Z :=
  match strip s with
  | String c r =>
      if PyStr.ord c =? 45 then Z.opp <$> unsigned r
      else if PyStr.ord c =? 43 then unsigned r
      else unsigned (String c r)
  | EmptyString => None
  end.

Definition int (s : string) : outcome Z :=
  match parse s with
  | Some n => Returned n
  | None => Raised (ValueError None)
  end.

End PyInt.

(** ** [datetime]

    A [datetime] is kept as the proleptic Gregorian ordinal of its day
    ([toordinal()], 1 for 0001-01-01) and its time of day.  The calendar
    arithmetic is that of CPython's [_pydatetime]; names and [%Y] are
    those of the C locale on Linux. *)
Module PyDate.

Record datetime := Datetime {
  ordinal : Z;
  hour : Z;
  minute : Z;
  second : Z;
  microsecond : Z
}.

Definition min_ordinal : Z := 1.
Definition max_ordinal : Z := 3652059.   (* 9999-12-31 *)

Definition is_leap (y : Z) : bool :=
  (y mod 4 =? 0) && (negb (y mod 100 =? 0) || (y mod 400 =? 0)).

Definition days_before_year (y : Z) : Z :=
  let p := y - 1 in p * 365 + p / 4 - p / 100 + p / 400.

Definition days_in_month_table : list Z :=
  [31; 28; 31; 30; 31; 30; 31; 31; 30; 31; 30; 31].

Definition days_in_month (y m : Z) : Z :=
  if (m =? 2) && is_leap y then 29
  else nth (Z.to_nat (m - 1)) days_in_month_table 0.

Definition days_before_month_table : list Z :=
  [0; 31; 59; 90; 120; 151; 181; 212; 243; 273; 304; 334].

Definition days_before_month (y m : Z) : Z :=
  nth (Z.to_nat (m - 1)) days_before_month_table 0
  + (if (2 <? m) && is_leap y then 1 else 0).

Definition ymd2ord (y m d : Z) : Z :=
  days_before_year y + days_before_month y m + d.

(** [_ord2ymd] *)
Definition ord2ymd (n : Z) : Z * Z * Z :=
  let n := n - 1 in
  let n400 := n / 146097 in let n := n mod 146097 in
  let year := n400 * 400 + 1 in
  let n100 := n / 36524 in let n := n mod 36524 in
  let n4 := n / 1461 in let n := n mod 1461 in
  let n1 := n / 365 in let n := n mod 365 in
  let year := year + n100 * 100 + n4 * 4 + n1 in
  if (n1 =? 4) || (n100 =? 4) then (year - 1, 12, 31)
  else
    let leapyear := (n1 =? 3) && (negb (n4 =? 24) || (n100 =? 3)) in
    let month := Z.shiftr (n + 50) 5 in
    let preceding :=
      nth (Z.to_nat (month - 1)) days_before_month_table 0
      + (if (2 <? month) && leapyear then 1 else 0) in
    if n <? preceding
    then
      let month := month - 1 in
      let preceding :=
        preceding
        - (nth (Z.to_nat (month - 1)) days_in_month_table 0
           + (if (month =? 2) && leapyear then 1 else 0)) in
      (year, month, n - preceding + 1)
    else (year, month, n - preceding + 1).

(** [weekday()], Monday is 0 *)
Definition weekday (n : Z) : Z := (n + 6) mod 7.

Definition month_names : list string :=
  ["January"; "February"; "March"; "April"; "May"; "June"; "July";
   "August"; "September"; "October"; "November"; "December"].
Definition day_names : list string :=
  ["Monday"; "Tuesday"; "Wednesday"; "Thursday"; "Friday"; "Saturday";
   "Sunday"].

Definition month_name (m : Z) : string :=
  nth (Z.to_nat (m - 1)) month_names EmptyString.
Definition day_name (n : Z) : string :=
  nth (Z.to_nat (weekday n)) day_names EmptyString.

(** [strftime("%B %d, %Y")] *)
Definition strftime_long (t : datetime) : string :=
  let '(y, m, d) := ord2ymd (ordinal t) in
  month_name m +:+ " " +:+ PyStr.pad2 d +:+ ", " +:+ PyStr.show y.

(** [strftime("%B %d, %Y (%A)")] *)
Definition strftime_day (t : datetime) : string :=
  strftime_long t +:+ " (" +:+ day_name (ordinal t) +:+ ")".

(** [strftime("%Y%m%d_%H%M%S")] *)
Definition strftime_stamp (t : datetime) : string :=
  let '(y, m, d) := ord2ymd (ordinal t) in
  PyStr.show y +:+ PyStr.pad2 m +:+ PyStr.pad2 d +:+ "_"
  +:+ PyStr.pad2 (hour t) +:+ PyStr.pad2 (minute t) +:+ PyStr.pad2 (second t).

(** [strftime("%Y-%m-%d %H:%M:%S")] *)
Definition strftime_iso (t : datetime) : string :=
  let '(y, m, d) := ord2ymd (ordinal t) in
  PyStr.show y +:+ "-" +:+ PyStr.pad2 m +:+ "-" +:+ PyStr.pad2 d +:+ " "
  +:+ PyStr.pad2 (hour t) +:+ ":" +:+ PyStr.pad2 (minute t) +:+ ":"
  +:+ PyStr.pad2 (second t).

(** [t + timedelta(days=n)].  A [timedelta] of more than 999999999 days
    cannot be built and a date outside years 1..9999 cannot be reached;
    both are [OverflowError], and the first implies the second. *)
Definition add_days (t : datetime) (n : Z) : outcome datetime :=
  let o := ordinal t + n in
  if (min_ordinal <=? o) && (o <=? max_ordinal)
  then Returned (Datetime o (hour t) (minute t) (second t) (microsecond t))
  else Raised OverflowError.

Definition two_digits (a b : ascii) : option Z :=
  match PyInt.digit_val a, PyInt.digit_val b with
  | Some x, Some y => Some (10 * x + y)
  | _, _ => None
  end.

(** The month field of [strptime]: [1[0-2]|0[1-9]|[1-9]] *)
Definition parse_month (s : string) : option Z :=
  match s with
  | String a (String b EmptyString) =>
      match two_digits a b with
      | Some v => if (1 <=? v) && (v <=? 12) then Some v else None
      | None => None
      end
  | String a EmptyString =>
      match PyInt.digit_val a with
      | Some v => if 1 <=? v then Some v else None
      | None => None
      end
  | _ => None
  end.

(** The day field: [3[0-1]|[1-2]\d|0[1-9]|[1-9]| [1-9]] *)
Definition parse_day (s : string) : option Z :=
  match s with
  | String a (String b EmptyString) =>
      if PyStr.ord a =? 32
      then match PyInt.digit_val b with
           | Some v => if 1 <=? v then Some v else None
           | None => None
           end
      else match two_digits a b with
           | Some v => if (1 <=? v) && (v <=? 31) then Some v else None
           | None => None
           end
  | String a EmptyString =>
      match PyInt.digit_val a with
      | Some v => if 1 <=? v then Some v else None
      | None => None
      end
  | _ => None
  end.

(** Splits at the first hyphen. *)
Fixpoint until_hyphen (s : string) : option (string * string) :=
  match s with
  | EmptyString => None
  | String c r =>
      if PyStr.ord c =? 45 then Some (EmptyString, r)
      else match until_hyphen r with
           | Some (a, b) => Some (String c a, b)
           | None => None
           end
  end.

Definition parse_year (s : string) : option Z :=
  match s with
  | String a (String b (String c (String d EmptyString))) =>
      match two_digits a b, two_digits c d with
      | Some h, Some l => Some (100 * h + l)
      | _, _ => None
      end
  | _ => None
  end.

(** [datetime.strptime(s, "%Y-%m-%d")]: four digits, a month, a day,
    then the calendar check; midnight of that day. *)
Definition strptime_ymd (s : string) : outcome datetime :=
  match until_hyphen s with
  | Some (ys, rest) =>
      match until_hyphen rest with
      | Some (ms, ds) =>
          match parse_year ys, parse_month ms, parse_day ds with
          | Some y, Some m, Some d =>
              if (1 <=? y) && (d <=? days_in_month y m)
              then Returned (Datetime (ymd2ord y m d) 0 0 0 0)
              else Raised (ValueError None)
          | _, _, _ => Raised (ValueError None)
          end
      | None => Raised (ValueError None)
      end
  | None => Raised (ValueError None)
  end.

End PyDate.

(** ** Values exchanged with the model endpoints *)

(** One entry of the transcript, [{"role": ..., "content": ...}]. *)
Module Message.
Record t := Make { role : string; content : string }.
End Message.

(** What [load_openai_config] returns. *)
Module Config.
Record t := Make {
  api_key : string;
  model : string;
  provider : string;
  reasoning_effort : string;
  verbosity : string
}.
End Config.

(** One part of a message item; [text] is [None] when the attribute is
    missing or [None]. *)
Module Part.
Record t := Make { text : option string }.
End Part.

(** One item of [response.output]; a field is [None] when the attribute
    is missing ([type]) or missing or [None] ([content], [text]). *)
Module Item.
Record t := Make {
  type : option string;
  content : option (list Part.t);
  text : option string
}.
End Item.

(** What [client.responses.create] returns: the two attributes
    [call_llm] probes and the text [str(response)] gives. *)
Module Response.
Record t := Make {
  output_text : option string;
  output : option (list Item.t);
  str : string
}.
End Response.

(** ** The outside world and the state of a run *)

Inductive event :=
  | ResponsesCreate (model input effort verbosity : string)
  | Completion (model : string) (messages : list Message.t)
  | WriteText (path content : string).

Definition is_model_call (e : event) : bool :=
  match e with
  | ResponsesCreate _ _ _ _ | Completion _ _ => true
  | WriteText _ _ => false
  end.

Definition is_write (e : event) : bool :=
  match e with
  | WriteText _ _ => true
  | _ => false
  end.

Definition model_calls (tr : list event) : list event :=
  List.filter is_model_call tr.

Definition writes (tr : list event) : list event :=
  List.filter is_write tr.

(** What a run cannot decide itself.  The two endpoints answer (or raise)
    as they please; their first argument is the number of model calls
    issued before, so that the same request may get different answers.
    [completion] yields the [message.content] of each choice. *)
Record world := World {
  dotenv_file : option (gmap string string);
  hash_secret : PyHash.secret;
  clock : nat -> PyDate.datetime;
  responses_create :
    nat -> string -> string -> string -> string -> outcome Response.t;
  completion : nat -> string -> list Message.t -> outcome (list string)
}.

Record state := State {
  environ : gmap string string;
  clock_reads : nat;
  stdin : list string;
  trace : list event
}.

(** A computation: runs from a state, returns or raises, leaves a state. *)
Definition M (A : Type) : Type := state -> outcome A * state.

Definition ret {A} (a : A) : M A := fun st => (Returned a, st).
Definition raise {A} (e : exn) : M A := fun st => (Raised e, st).
Definition bind {A B} (m : M A) (k : A -> M B) : M B :=
  fun st =>
    match m st with
    | (Returned a, st') => k a st'
    | (Raised e, st') => (Raised e, st')
    end.
Definition lift {A} (o : outcome A) : M A := fun st => (o, st).

Declare Scope py_scope.
Delimit Scope py_scope with py.
Notation "x <- m ;; k" := (bind m (fun x => k))
  (at level 100, m at next level, right associativity) : py_scope.
Notation "m ;;; k" := (bind m (fun _ => k))
  (at level 100, right associativity) : py_scope.
Local Open Scope py_scope.

(** The state once one more event has happened. *)
Definition push (st : state) (e : event) : state :=
  State (environ st) (clock_reads st) (stdin st) (trace st ++ [e]).

Definition emit (e : event) : M unit := fun st => (Returned tt, push st e).

(** [try: body / except ValueError: handler] *)
Definition except_ValueError {A} (body handler : M A) : M A :=
  fun st =>
    match body st with
    | (Raised (ValueError _), st') => handler st'
    | other => other
    end.

(** [for x in items: s = body(x, s)] *)
Fixpoint for_each {S : Type} (items : list Z) (body : Z -> S -> M S) (s : S)
  : M S :=
  match items with
  | [] => ret s
  | x :: rest => s' <- body x s ;; for_each rest body s'
  end.

(** [range(a, b)] *)
Definition py_range (a b : Z) : list Z :=
  map (fun i => a + Z.of_nat i) (seq 0 (Z.to_nat (b - a))).

(** The transcript and the document are Python lists grown by [append]. *)
Definition append {A} (l : list A) (x : A) : list A := l ++ [x].

Section Script.

Variable w : world.

(** [datetime.now()] *)
Definition now : M PyDate.datetime :=
  fun st =>
    (Returned (clock w (clock_reads st)),
     State (environ st) (S (clock_reads st)) (stdin st) (trace st)).

(** [input(prompt)] *)
Definition input : M string :=
  fun st =>
    match stdin st with
    | line :: rest =>
        (Returned line,
         State (environ st) (clock_reads st) rest (trace st))
    | [] => (Raised EOFError, st)
    end.

(** [os.getenv(name)] *)
Definition getenv (name : string) : M (option string) :=
  fun st => (Returned (environ st !! name), st).

(** [os.getenv(name, default)] *)
Definition getenv_or (name default : string) : M string :=
  fun st =>
    (Returned (match environ st !! name with
               | Some v => v
               | None => default
               end), st).

(** [os.environ[name] = value] *)
Definition setenv (name value : string) : M unit :=
  fun st =>
    (Returned tt,
     State (<[name := value]> (environ st)) (clock_reads st) (stdin st)
           (trace st)).

(** [if env_path.exists(): load_dotenv(env_path)]: variables of the file
    are added, those already set are kept. *)
Definition load_dotenv : M unit :=
  fun st =>
    match dotenv_file w with
    | Some file =>
        (Returned tt,
         State (environ st ∪ file) (clock_reads st) (stdin st) (trace st))
    | None => (Returned tt, st)
    end.

(** [Path(path).write_text(content, encoding="utf-8")] *)
Definition write_text (path content : string) : M unit :=
  emit (WriteText path content).

(** [client.responses.create(model=, input=, reasoning=, text=)]: the
    request goes out, then the endpoint answers or raises. *)
Definition client_responses_create (model input effort verbosity : string)
  : M Response.t :=
  fun st =>
    (responses_create w (length (model_calls (trace st)))
                      model input effort verbosity,
     push st (ResponsesCreate model input effort verbosity)).

(** [litellm.completion(model=, messages=, stream=False)] *)
Definition litellm_completion (model : string) (messages : list Message.t)
  : M (list string) :=
  fun st =>
    (completion w (length (model_calls (trace st))) model messages,
     push st (Completion model messages)).

(** *** [load_openai_config] (lines 28-91) *)

(** Line 74. *)
Definition key_missing_message : string :=
  "OPENAI_API_KEY not found in environment variables".

Definition load_openai_config : M Config.t :=
  load_dotenv ;;;
  openai_key <- getenv "OPENAI_API_KEY" ;;
  model <- getenv_or "OPENAI_MODEL" "gpt-4o" ;;
  reasoning_effort <- getenv_or "OPENAI_REASONING_EFFORT" "medium" ;;
  verbosity <- getenv_or "OPENAI_VERBOSITY" "medium" ;;
  match openai_key with
  | Some key =>
      if PyStr.truthy key
      then ret (Config.Make key model "OpenAI" reasoning_effort verbosity)
      else raise (ValueError (Some key_missing_message))
  | None => raise (ValueError (Some key_missing_message))
  end.

(** *** [setup_litellm] (lines 94-115)

    The two switches it sets on the [litellm] module ([drop_params],
    [set_verbose]) change nothing the script reads back. *)
Definition setup_litellm (config : Config.t) : M string :=
  setenv "OPENAI_API_KEY" (Config.api_key config) ;;;
  ret (Config.model config).

(** *** [call_llm] (lines 118-212) *)

(** Lines 154-160: the transcript as the one input string of the
    responses API. *)
Definition input_text (messages : list Message.t) : string :=
  match messages with
  | [msg] => Message.content msg
  | _ =>
      PyStr.join (PyStr.nl +:+ PyStr.nl)
        (map (fun msg => Message.role msg +:+ ": " +:+ Message.content msg)
             messages)
  end.

(** Lines 188-190: the inner loop over the parts of a message item. *)
Definition add_parts (output_text : string) (parts : list Part.t) : string :=
  fold_left
    (fun acc content =>
       match Part.text content with
       | Some t => acc +:+ t
       | None => acc
       end)
    parts output_text.

Definition is_message (item : Item.t) : bool :=
  match Item.type item with
  | Some ty => String.eqb ty "message"
  | None => false
  end.

(** Lines 184-193: one round of the loop over [response.output]. *)
Definition add_item (output_text : string) (item : Item.t) : string :=
  if is_message item
  then match Item.content item with
       | Some parts => add_parts output_text parts
       | None => output_text
       end
  else match Item.text item with
       | Some t => output_text +:+ t
       | None => output_text
       end.

(** Lines 171-200: the text taken from a response. *)
Definition extract_text (response : Response.t) : string :=
  let method2 :=
    let output_text :=
      match Response.output response with
      | Some (item :: items) => fold_left add_item (item :: items) EmptyString
      | _ => EmptyString
      end in
    if negb (PyStr.truthy output_text)
    then Response.str response
    else output_text in
  match Response.output_text response with
  | Some t => if PyStr.truthy t then t else method2
  | None => method2
  end.

Definition is_gpt5 (model : string) : bool :=
  PyStr.contains "gpt-5" (PyStr.lower model).

Definition call_llm (model : string) (messages : list Message.t)
           (config : Config.t) : M string :=
  if is_gpt5 model
  then
    response <- client_responses_create model (input_text messages)
                  (Config.reasoning_effort config) (Config.verbosity config) ;;
    ret (extract_text response)
  else
    choices <- litellm_completion model messages ;;
    match choices with
    | first :: _ => ret first
    | [] => raise IndexError
    end.

(** *** [write_multi_day_story] (lines 215-364) *)

(** The local variables that live across the day loop. *)
Record locals := Locals {
  config : Config.t;
  model : string;
  start_date : PyDate.datetime;
  story_start_str : string;
  output_path : string;
  story_content : list string;
  conversation_history : list Message.t
}.

(** Line 245. *)
Definition offset_days (initial_prompt : string) : Z :=
  PyHash.hash (hash_secret w) initial_prompt mod 365 - 180.

(** Lines 241-249. *)
Definition determine_start_date (initial_prompt : string)
           (story_start_date : option string) : M PyDate.datetime :=
  match story_start_date with
  | None =>
      base_date <- now ;;
      lift (PyDate.add_days base_date (offset_days initial_prompt))
  | Some text => lift (PyDate.strptime_ymd text)
  end.

(** Lines 273-293. *)
Definition storyboard_prompt (initial_prompt : string) (num_days : Z)
           (story_start_str : string) : string :=
  PyStr.join PyStr.nl
    [ "Based on this story premise: " +:+ PyStr.dquote +:+ initial_prompt
        +:+ PyStr.dquote;
      EmptyString;
      "Create a detailed storyboard and character profiles for a "
        +:+ PyStr.show num_days +:+ "-day story starting on "
        +:+ story_start_str +:+ ".";
      EmptyString;
      "Please provide:";
      EmptyString;
      "1. **Character Profiles**: For each main character, include:";
      "   - Full name";
      "   - Age";
      "   - Birthday (specific date, make it realistic relative to their age)";
      "   - Brief backstory (2-3 sentences covering their background, personality, and what led them to this point)";
      "   - Key personality traits";
      EmptyString;
      "2. **Story Storyboard**: Create a high-level outline of what will happen across all "
        +:+ PyStr.show num_days +:+ " days:";
      "   - Major plot points and events for each day";
      "   - Character development arcs";
      "   - Key conflicts and resolutions";
      "   - How the story builds and progresses day by day";
      "   - Emotional beats and turning points";
      EmptyString;
      "Format this as a structured plan that we'll follow when writing the full story. Be specific about what happens on which day, using actual dates starting from "
        +:+ story_start_str +:+ "." ].

(** Lines 329-338. *)
Definition day_prompt (day_num : Z) (date_str : string) : string :=
  PyStr.join PyStr.nl
    [ "Now write the full narrative for Day " +:+ PyStr.show day_num
        +:+ " (" +:+ date_str +:+ ") following the storyboard plan.";
      EmptyString;
      "Include:";
      "- Rich, detailed prose with character thoughts and emotions";
      "- Specific times and activities throughout the day (morning, afternoon, evening, night)";
      "- Dialogue that reveals character personalities";
      "- Sensory details and atmospheric descriptions";
      "- How events align with the character backstories and the overall storyboard";
      EmptyString;
      "Make this engaging literary fiction, not just a summary. Write it as a complete narrative section." ].

(** Line 341. *)
Definition day_header (day_num : Z) (date_str : string) : string :=
  "### Day " +:+ PyStr.show day_num +:+ ": " +:+ date_str
  +:+ PyStr.nl +:+ PyStr.nl.

(** Lines 307-318: the head of the document, up to the first day. *)
Definition document_head (initial_prompt : string) (num_days : Z)
           (generated : PyDate.datetime) (story_start_str : string)
           (config : Config.t) (storyboard_text : string) : list string :=
  [ "# " +:+ initial_prompt +:+ PyStr.nl +:+ PyStr.nl;
    "*Generated on " +:+ PyDate.strftime_iso generated +:+ "*  " +:+ PyStr.nl;
    "*Story Duration: " +:+ PyStr.show num_days +:+ " days*  " +:+ PyStr.nl;
    "*Story Start Date: " +:+ story_start_str +:+ "*  " +:+ PyStr.nl;
    "*Provider: " +:+ Config.provider config +:+ " | Model: "
      +:+ Config.model config +:+ "*" +:+ PyStr.nl +:+ PyStr.nl;
    "---" +:+ PyStr.nl +:+ PyStr.nl;
    "## Story Planning" +:+ PyStr.nl +:+ PyStr.nl;
    storyboard_text +:+ PyStr.nl +:+ PyStr.nl;
    "---" +:+ PyStr.nl +:+ PyStr.nl;
    "## The Story" +:+ PyStr.nl +:+ PyStr.nl ].

(** Lines 230-318: everything before the day loop. *)
Definition story_setup (initial_prompt : string) (num_days : Z)
           (output_file story_start_date : option string) : M locals :=
  config <- load_openai_config ;;
  model <- setup_litellm config ;;
  start_date <- determine_start_date initial_prompt story_start_date ;;
  let story_start_str := PyDate.strftime_long start_date in
  output_file <-
    match output_file with
    | None =>
        timestamp <- now ;;
        ret ("story_openai_" +:+ PyDate.strftime_stamp timestamp +:+ ".md")
    | Some name => ret name
    end ;;
  let output_path := output_file in
  let story_content := [] in
  let conversation_history := [] in
  let prompt := storyboard_prompt initial_prompt num_days story_start_str in
  let conversation_history :=
    append conversation_history (Message.Make "user" prompt) in
  storyboard_text <- call_llm model conversation_history config ;;
  let conversation_history :=
    append conversation_history (Message.Make "assistant" storyboard_text) in
  generated <- now ;;
  let story_content :=
    story_content
    ++ document_head initial_prompt num_days generated story_start_str
         config storyboard_text in
  ret (Locals config model start_date story_start_str output_path
              story_content conversation_history).

(** Lines 322-356: the body of [for day_num in range(1, num_days + 1)]. *)
Definition story_day (day_num : Z) (l : locals) : M locals :=
  current_date <- lift (PyDate.add_days (start_date l) (day_num - 1)) ;;
  let date_str := PyDate.strftime_day current_date in
  let prompt := day_prompt day_num date_str in
  let story_content :=
    append (story_content l) (day_header day_num date_str) in
  let conversation_history :=
    append (conversation_history l) (Message.Make "user" prompt) in
  day_text <- call_llm (model l) conversation_history (config l) ;;
  let conversation_history :=
    append conversation_history (Message.Make "assistant" day_text) in
  let story_content :=
    append story_content (day_text +:+ PyStr.nl +:+ PyStr.nl) in
  ret (Locals (config l) (model l) (start_date l) (story_start_str l)
              (output_path l) story_content conversation_history).

(** Lines 358-364: the file is written, then the end date is formatted
    for the closing message. *)
Definition story_finish (num_days : Z) (l : locals) : M unit :=
  write_text (output_path l) (PyStr.concat (story_content l)) ;;;
  end_date <- lift (PyDate.add_days (start_date l) (num_days - 1)) ;;
  let end_date_str := PyDate.strftime_long end_date in
  ret tt.

Definition write_multi_day_story (initial_prompt : string) (num_days : Z)
           (output_file story_start_date : option string) : M unit :=
  l <- story_setup initial_prompt num_days output_file story_start_date ;;
  l <- for_each (py_range 1 (num_days + 1)) story_day l ;;
  story_finish num_days l.

(** *** [interactive_story_writer] (lines 367-399) *)

Definition default_premise : string :=
  "A software developer discovers a mysterious bug that seems to change reality".

Definition interactive_story_writer : M unit :=
  line <- input ;;
  let initial_prompt := PyStr.strip line in
  let initial_prompt :=
    if negb (PyStr.truthy initial_prompt) then default_premise
    else initial_prompt in
  num_days <-
    except_ValueError
      (line <- input ;; lift (PyInt.int (PyStr.strip line)))
      (ret 3) ;;
  write_multi_day_story initial_prompt num_days None None.

End Script.

(** ** Vocabulary of the properties *)

(** The events a run added to the trace it started from. *)
Definition issued (before after : state) : list event :=
  drop (length (trace before)) (trace after).

(** How many model calls had been issued when the state was reached. *)
Definition calls_so_far (st : state) : nat := length (model_calls (trace st)).

Section Vocabulary.

Variable w : world.

(** The request [call_llm] sends for a transcript. *)
Definition request (model : string) (messages : list Message.t)
           (config : Config.t) : event :=
  if is_gpt5 model
  then ResponsesCreate model (input_text messages)
         (Config.reasoning_effort config) (Config.verbosity config)
  else Completion model messages.

(** What [call_llm] gets back for it when [i] calls went before. *)
Definition answer (i : nat) (model : string) (messages : list Message.t)
           (config : Config.t) : outcome string :=
  if is_gpt5 model
  then match responses_create w i model (input_text messages)
               (Config.reasoning_effort config) (Config.verbosity config) with
       | Returned response => Returned (extract_text response)
       | Raised e => Raised e
       end
  else match completion w i model messages with
       | Returned (first :: _) => Returned first
       | Returned [] => Raised IndexError
       | Raised e => Raised e
       end.

(** The run of [write_multi_day_story] up to the end of day [k]: the
    setup and the first [k] rounds of the loop. *)
Definition story_after_day (initial_prompt : string) (num_days : Z)
           (output_file story_start_date : option string) (k : Z)
  : M locals :=
  l <- story_setup w initial_prompt num_days output_file story_start_date ;;
  for_each (py_range 1 (k + 1)) (story_day w) l.

End Vocabulary.

(** The day [day_num] of a story that starts at [start]. *)
Definition story_date (start : PyDate.datetime) (day_num : Z)
  : PyDate.datetime :=
  PyDate.Datetime (PyDate.ordinal start + (day_num - 1)) (PyDate.hour start)
    (PyDate.minute start) (PyDate.second start) (PyDate.microsecond start).

(** The two fragments day [day_num] adds to the document. *)
Definition day_section (start : PyDate.datetime) (day : Z * string)
  : list string :=
  [ day_header (fst day) (PyDate.strftime_day (story_date start (fst day)));
    snd day +:+ PyStr.nl +:+ PyStr.nl ].

(** The two entries day [day_num] adds to the transcript. *)
Definition day_exchange (start : PyDate.datetime) (day : Z * string)
  : list Message.t :=
  [ Message.Make "user"
      (day_prompt (fst day) (PyDate.strftime_day (story_date start (fst day))));
    Message.Make "assistant" (snd day) ].

Fixpoint whitespace_only (s : string) : bool :=
  match s with
  | EmptyString => true
  | String c r => PyStr.isspace c && whitespace_only r
  end.

(** *** The dispatcher as the design document words it *)

(** "joining role-prefixed lines", one per entry. *)
Definition input_text_claimed (messages : list Message.t) : string :=
  PyStr.join (PyStr.nl +:+ PyStr.nl)
    (map (fun msg => Message.role msg +:+ ": " +:+ Message.content msg)
         messages).

Definition part_texts (parts : list Part.t) : list string :=
  omap Part.text parts.

(** "filtered to message-type items": the text parts of the message items. *)
Definition message_item_texts (item : Item.t) : list string :=
  if is_message item
  then match Item.content item with
       | Some parts => part_texts parts
       | None => []
       end
  else [].

(** What an item contributes in the script: a message item its text
    parts, any other item its own text. *)
Definition item_texts (item : Item.t) : list string :=
  if is_message item
  then match Item.content item with
       | Some parts => part_texts parts
       | None => []
       end
  else match Item.text item with
       | Some t => [t]
       | None => []
       end.

(** "trying, in order": the first of the candidates that is not empty,
    else the fallback. *)
Fixpoint first_nonempty (candidates : list string) (fallback : string)
  : string :=
  match candidates with
  | [] => fallback
  | c :: rest => if PyStr.truthy c then c else first_nonempty rest fallback
  end.

Definition three_step (per_item : Item.t -> list string)
           (response : Response.t) : string :=
  first_nonempty
    [ match Response.output_text response with
      | Some t => t
      | None => EmptyString
      end;
      PyStr.concat
        (flat_map per_item
           (match Response.output response with
            | Some items => items
            | None => []
            end)) ]
    (Response.str response).

Definition extract_text_claimed : Response.t -> string :=
  three_step message_item_texts.

(** The transcript sent by the call of index [j] of a loop that started
    with [before] entries, read off the transcript [history] at the end. *)
Definition sent_in (before : nat) (history : list Message.t) (j : nat)
  : list Message.t :=
  take (before + 2 * j + 1) history.

(** ** Sample worlds and inputs *)

Definition noon_2025_07_21 : PyDate.datetime :=
  PyDate.Datetime 739453 12 0 0 0.

(** The key of a process started with [PYTHONHASHSEED=0], [=1], [=2]. *)
Definition secret_seed_0 : PyHash.secret := PyHash.Secret 0 0.
Definition secret_seed_1 : PyHash.secret :=
  PyHash.Secret 12598376723466036009 16999324916296290386.
Definition secret_seed_2 : PyHash.secret :=
  PyHash.Secret 4611336564914921517 11932672506142756049.

(** No [.env] file, a clock stuck at noon, endpoints that always answer
    and say which call they answer. *)
Definition sample_world (key : PyHash.secret) : world :=
  World None key (fun _ => noon_2025_07_21)
    (fun i _ _ _ _ =>
       Returned (Response.Make (Some ("reply " +:+ PyStr.show (Z.of_nat i)))
                   None "<Response>"))
    (fun i _ _ => Returned ["reply " +:+ PyStr.show (Z.of_nat i)]).

(** A process with an API key, the given model and the given lines typed
    at the keyboard. *)
Definition sample_state (model : string) (lines : list string) : state :=
  State (<["OPENAI_MODEL" := model]> {["OPENAI_API_KEY" := "sk-sample"]})
        0 lines [].

(** A process with an empty environment. *)
Definition bare_state : state := State ∅ 0 [] [].

(** A response without [output_text] whose only item is not a message but
    has a text of its own. *)
Definition reasoning_only : Response.t :=
  Response.Make None
    (Some [Item.Make (Some "reasoning") None (Some "thinking aloud")])
    "<Response>".

Definition reasoning_world : world :=
  World None secret_seed_0 (fun _ => noon_2025_07_21)
    (fun _ _ _ _ _ => Returned reasoning_only)
    (fun _ _ _ => Returned []).

Definition sample_config : Config.t :=
  Config.Make "sk-sample" "gpt-5" "OpenAI" "medium" "medium".

(** ** More vocabulary: configuration *)

(** The value a variable has for the script: the one of the process
    environment, else the one of the [.env] file. *)
Definition setting (w : world) (st : state) (name : string) : option string :=
  match environ st !! name with
  | Some v => Some v
  | None =>
      match dotenv_file w with
      | Some file => file !! name
      | None => None
      end
  end.

(** A world like [sample_world] with a [.env] file that sets a key and a
    model. *)
Definition dotenv_world : world :=
  World (Some (<["OPENAI_MODEL" := "gpt-5"]> {["OPENAI_API_KEY" := "sk-file"]}))
    secret_seed_0 (fun _ => noon_2025_07_21)
    (fun i _ _ _ _ =>
       Returned (Response.Make (Some ("reply " +:+ PyStr.show (Z.of_nat i)))
                   None "<Response>"))
    (fun i _ _ => Returned ["reply " +:+ PyStr.show (Z.of_nat i)]).

(** A process whose environment holds an empty API key. *)
Definition empty_key_state : state :=
  State {["OPENAI_API_KEY" := EmptyString]} 0 [] [].

(** A computation that leaves the environment of the process alone. *)
Definition env_stable {A} (m : M A) : Prop :=
  forall st, environ (snd (m st)) = environ st.

(** Local variables as they could stand before the first day. *)
Definition sample_locals : locals :=
  Locals (Config.Make "sk-sample" "gpt-4o" "OpenAI" "medium" "medium")
    "gpt-4o" (PyDate.Datetime 739453 0 0 0 0) "July 21, 2025" "cat.md"
    ["# A cat"] [Message.Make "user" "plan"; Message.Make "assistant" "ok"].

(** Endpoints that answer the first call and fail ever after. *)
Definition flaky_world : world :=
  World None secret_seed_0 (fun _ => noon_2025_07_21)
    (fun i _ _ _ _ =>
       match i with
       | O => Returned (Response.Make (Some "plan") None "<Response>")
       | S _ => Raised (ProviderError "overloaded")
       end)
    (fun i _ _ =>
       match i with
       | O => Returned ["plan"]
       | S _ => Raised (ProviderError "overloaded")
       end).

(** * The security hook (test_agents/hooks_agent.py) *)
Module Hooks.

(** The [input_data] of a hook: the two keys the validator reads.  A key
    that is absent is [None]; the tool input is a dictionary of texts. *)
Record input_data := Input {
  tool_name : option string;
  tool_input : option (gmap string string)
}.

(** The [hookSpecificOutput] of a refusal. *)
Record hook_specific_output := Output {
  hookEventName : string;
  permissionDecision : string;
  permissionDecisionReason : string
}.

(** Line 24. *)
Definition dangerous_patterns : list string :=
  ["rm -rf /"; "del /f"; "format"; "dd if="].

(** Lines 26-35: the loop over the patterns; the first one found in the
    command decides. *)
Fixpoint first_found (patterns : list string) (command : string)
  : option hook_specific_output :=
  match patterns with
  | [] => None
  | pattern :: rest =>
      if PyStr.contains pattern command
      then Some (Output "PreToolUse" "deny"
                   ("Dangerous command blocked: contains " +:+ PyStr.dquote
                    +:+ pattern +:+ PyStr.dquote))
      else first_found rest command
  end.

(** [input_data.get('tool_input', {}).get('command', '')] *)
Definition command_of (input : input_data) : string :=
  match tool_input input with
  | Some fields => default EmptyString (fields !! "command")
  | None => EmptyString
  end.

(** [security_validator] (lines 17-36); [None] is the empty dictionary
    that lets the tool run. *)
Definition security_validator (input : input_data)
  : option hook_specific_output :=
  match tool_name input with
  | Some name =>
      if String.eqb name "Bash"
      then first_found dangerous_patterns (command_of input)
      else None
  | None => None
  end.

(** A call of the Bash tool with the given command. *)
Definition bash (command : string) : input_data :=
  Input (Some "Bash") (Some {["command" := command]}).

End Hooks.

(** * Provider selection (test_agents/multi_provider_agent.py) *)
Module Providers.

(** [if not os.getenv(name)] *)
Definition key_set (env : gmap string string) (name : string) : bool :=
  match env !! name with
  | Some v => PyStr.truthy v
  | None => false
  end.

(** [MultiProviderConfig.get_provider_config] (lines 26-61), on the
    environment of the process; it returns the variables to hand to the
    client and the model name. *)
Definition get_provider_config (env : gmap string string) (provider : string)
  : outcome (gmap string string * string) :=
  if String.eqb provider "claude" then
    match env !! "ANTHROPIC_API_KEY" with
    | Some api_key =>
        if PyStr.truthy api_key
        then Returned (∅, "claude-sonnet-4-5-20250929")
        else Raised (ValueError (Some "ANTHROPIC_API_KEY not set in .env file"))
    | None => Raised (ValueError (Some "ANTHROPIC_API_KEY not set in .env file"))
    end
  else if String.eqb provider "glm" then
    match env !! "GLM_API_KEY" with
    | Some api_key =>
        if PyStr.truthy api_key
        then Returned
               (<["ANTHROPIC_AUTH_TOKEN" := api_key]>
                  {["ANTHROPIC_BASE_URL" := "https://api.z.ai/api/anthropic"]},
                "glm-4.6")
        else Raised (ValueError (Some "GLM_API_KEY not set in .env file"))
    | None => Raised (ValueError (Some "GLM_API_KEY not set in .env file"))
    end
  else if String.eqb provider "deepseek" then
    match env !! "DEEPSEEK_API_KEY" with
    | Some api_key =>
        if PyStr.truthy api_key
        then Returned
               (<["ANTHROPIC_AUTH_TOKEN" := api_key]>
                  {["ANTHROPIC_BASE_URL" := "https://api.deepseek.com"]},
                "deepseek-chat")
        else Raised (ValueError (Some "DEEPSEEK_API_KEY not set in .env file"))
    | None => Raised (ValueError (Some "DEEPSEEK_API_KEY not set in .env file"))
    end
  else Raised (ValueError (Some ("Unknown provider: " +:+ provider))).

(** Lines 101-109 of [run_comparison_test] and 148-155 of
    [interactive_mode]: the providers that have a key, in this order. *)
Definition available_providers (env : gmap string string) : list string :=
  (if key_set env "ANTHROPIC_API_KEY" then ["claude"] else [])
  ++ (if key_set env "GLM_API_KEY" then ["glm"] else [])
  ++ (if key_set env "DEEPSEEK_API_KEY" then ["deepseek"] else []).

(** An environment with keys for two of the three providers. *)
Definition two_keys : gmap string string :=
  <["DEEPSEEK_API_KEY" := "ds-key"]> {["ANTHROPIC_API_KEY" := "sk-ant"]}.

End Providers.

(** ** The interactive mode of the provider script *)
Module Interactive.

(** [parts[0]] of [s.split(maxsplit=1)], for a text that starts with a
    character that is no white space *)
Fixpoint first_word (s : string) : string :=
  match s with
  | EmptyString => EmptyString
  | String c r =>
      if PyStr.isspace c then EmptyString else String c (first_word r)
  end.

(** [parts[1] if len(parts) > 1 else ''] for the same split *)
Fixpoint after_word (s : string) : string :=
  match s with
  | EmptyString => EmptyString
  | String c r => if PyStr.isspace c then PyStr.lstrip r else after_word r
  end.

(** [x in available_providers] *)
Definition member (x : string) (l : list string) : bool :=
  existsb (String.eqb x) l.

(** What one round of the loop does: nothing, leave the loop, print a
    complaint, or call [query_with_provider] with these prompts and
    providers in turn. *)
Inductive round :=
  | Again
  | Goodbye
  | Complaint (text : string)
  | Queries (sent : list (string * string)).

(** One round of the loop of [interactive_mode] (lines 179-220) for a
    line that [input] returned. *)
Definition interactive_mode_round (available_providers : list string)
           (current_provider : string) (line : string) : round :=
  let user_input := PyStr.strip line in
  if negb (PyStr.truthy user_input) then Again
  else if String.eqb user_input "/quit" then Goodbye
  else if String.prefix "/" user_input then
    let command := PyStr.lower (first_word user_input) in
    let prompt := after_word user_input in
    if negb (PyStr.truthy prompt) && negb (String.eqb command "/quit")
    then Complaint "Error: Please provide a prompt"
    else if String.eqb command "/claude" && member "claude" available_providers
    then Queries [(prompt, "claude")]
    else if String.eqb command "/glm" && member "glm" available_providers
    then Queries [(prompt, "glm")]
    else if String.eqb command "/deepseek"
            && member "deepseek" available_providers
    then Queries [(prompt, "deepseek")]
    else if String.eqb command "/all"
    then Queries (map (fun provider => (prompt, provider)) available_providers)
    else Complaint ("Error: Unknown or unavailable command '" +:+ command
                    +:+ "'")
  else Queries [(user_input, current_provider)].

(** The loop (lines 177-226) over the lines typed: the calls of
    [query_with_provider] made until the loop is left or the lines are
    used up. *)
Fixpoint rounds (available_providers : list string)
         (current_provider : string) (lines : list string)
  : list (string * string) :=
  match lines with
  | [] => []
  | line :: rest =>
      match interactive_mode_round available_providers current_provider line with
      | Goodbye => []
      | Queries sent =>
          sent ++ rounds available_providers current_provider rest
      | Again | Complaint _ =>
          rounds available_providers current_provider rest
      end
  end.

(** [interactive_mode] (lines 146-226), on the environment of the
    process and the lines typed. *)
Definition interactive_mode (env : gmap string string) (lines : list string)
  : list (string * string) :=
  match Providers.available_providers env with
  | [] => []
  | current_provider :: _ =>
      rounds (Providers.available_providers env) current_provider lines
  end.

End Interactive.

(** * The query tool (test_agents/interactive_agent.py) *)
Module Sql.

(** [str.upper] on one character, as code points: upper-casing leaves the
    range below 256 for the micro sign and for y with diaeresis, and turns
    the sharp s into two letters. *)
Definition upper_char (c : ascii) : list Z :=
  let n := PyStr.ord c in
  if (97 <=? n) && (n <=? 122) then [n - 32]
  else if n =? 181 then [924]
  else if n =? 223 then [83; 83]
  else if n =? 255 then [376]
  else if (224 <=? n) && (n <=? 254) && negb (n =? 247) then [n - 32]
  else [n].

(** [s.upper()], as code points *)
Fixpoint upper (s : string) : list Z :=
  match s with
  | EmptyString => []
  | String c r => upper_char c ++ upper r
  end.

(** The code points of a text. *)
Definition points (s : string) : list Z := PyStr.bytes s.

(** [text.startswith(word)], on code points *)
Fixpoint startswith (word text : list Z) : bool :=
  match word, text with
  | [], _ => true
  | _ :: _, [] => false
  | a :: word', b :: text' => (a =? b) && startswith word' text'
  end.

(** [word in text], on code points *)
Fixpoint occurs (word text : list Z) : bool :=
  startswith word text
  || match text with
     | [] => false
     | _ :: text' => occurs word text'
     end.

(** The text without its first [n] characters. *)
Fixpoint skip (n : nat) (s : string) : string :=
  match n, s with
  | O, _ => s
  | S _, EmptyString => EmptyString
  | S n', String _ r => skip n' r
  end.

(** [s.replace(old, new, 1)] for a non-empty [old] *)
Fixpoint replace_first (old new s : string) : string :=
  if String.prefix old s
  then new +:+ skip (String.length old) s
  else match s with
       | EmptyString => EmptyString
       | String c r => String c (replace_first old new r)
       end.

(** [c * n] for a one-character text *)
Fixpoint times (c : ascii) (n : nat) : string :=
  match n with
  | O => EmptyString
  | S n' => String c (times c n')
  end.

(** What the database side does: whether [pyodbc] could be imported, the
    text of the [Exception] that connecting or opening the cursor raises
    for a connection string (if one is raised), and for a statement the
    text of the [Exception] raised while executing, reading the columns,
    fetching or closing, or else the column names and the rows, each value
    as [str] shows it, [None] for a null. *)
Record database := Database {
  installed : bool;
  connect_error : string -> option string;
  execute : string -> string -> string + (list string * list (list (option string)))
}.

(** The dictionary a tool returns, or the [KeyError] for a missing
    argument. *)
Inductive reply :=
  | Reply (text : string) (is_error : bool)
  | KeyError (key : string).

(** Line 200. *)
Definition connection_string (server database : string) : string :=
  "DRIVER={ODBC Driver 17 for SQL Server};SERVER=" +:+ server
  +:+ ";DATABASE=" +:+ database +:+ ";Trusted_Connection=yes;".

(** Line 190: only [SELECT] statements are let through. *)
Definition is_select (query : string) : bool :=
  startswith (points "SELECT") (upper (PyStr.strip query)).

(** Lines 204-206: the row limit. *)
Definition with_row_limit (query : string) : string :=
  if negb (occurs (points "TOP") (upper query))
  then replace_first "SELECT" "SELECT TOP 100" query
  else query.

(** Lines 218-224. *)
Definition format_rows (columns : list string)
           (rows : list (list (option string))) : string :=
  let header := PyStr.join " | " columns in
  "Query results (" +:+ PyStr.show (Z.of_nat (length rows)) +:+ " rows):"
  +:+ PyStr.nl +:+ PyStr.nl
  +:+ header +:+ PyStr.nl
  +:+ times (PyStr.chr 45) (String.length header) +:+ PyStr.nl
  +:+ PyStr.concat
        (map (fun row =>
                PyStr.join " | " (map (fun val => default "NULL" val) row)
                +:+ PyStr.nl)
             (take 100 rows)).

(** [query_table] (lines 172-239): the reply, and the statements that
    were given to [cursor.execute], each with its connection string. *)
Definition query_table (db : database) (args : gmap string string)
  : reply * list (string * string) :=
  if negb (installed db)
  then (Reply "Error: pyodbc not installed. Install with: pip install pyodbc"
          true, [])
  else
    let server := default "localhost" (args !! "server") in
    match args !! "database" with
    | None => (KeyError "database", [])
    | Some database =>
        match args !! "query" with
        | None => (KeyError "query", [])
        | Some query =>
            if negb (is_select query)
            then (Reply "Error: Only SELECT queries are allowed for security reasons"
                    true, [])
            else
              let conn_str := connection_string server database in
              match connect_error db conn_str with
              | Some e => (Reply ("Error executing query: " +:+ e) true, [])
              | None =>
                  let query := with_row_limit query in
                  match execute db conn_str query with
                  | inl e =>
                      (Reply ("Error executing query: " +:+ e) true,
                       [(conn_str, query)])
                  | inr (columns, rows) =>
                      (Reply (format_rows columns rows) false,
                       [(conn_str, query)])
                  end
              end
        end
    end.

(** A database that takes every statement and has one row for it. *)
Definition obliging : database :=
  Database true (fun _ => None) (fun _ _ => inr (["n"], [[Some "1"]])).

Definition arguments (query : string) : gmap string string :=
  <["query" := query]> {["database" := "shop"]}.

End Sql.

(** * The test runner (test_agents/run_all_tests.py) *)
Module RunAll.

(** What awaiting a function does: it completes, it raises an
    [Exception], or it raises something that is no [Exception]
    ([KeyboardInterrupt], [SystemExit], a cancellation). *)
Inductive behaviour := Completes | Fails | Aborts.

(** An attribute of a module: a callable with what calling and awaiting
    it does, or anything else. *)
Inductive attribute := Callable (b : behaviour) | Plain.

(** What [__import__] gives: the attributes in the order of [dir()], or
    one of the two kinds of failure. *)
Inductive imported :=
  | Imported (attributes : list (string * attribute))
  | ImportFails
  | ImportAborts.

(** What a [try] block around a call yields: [True], [False], or the
    exception that [except Exception] does not catch. *)
Inductive verdict := Passed | Failed | Interrupted.

Definition of_behaviour (b : behaviour) : verdict :=
  match b with
  | Completes => Passed
  | Fails => Failed
  | Aborts => Interrupted
  end.

(** [getattr(module, name)] when [hasattr(module, name)] *)
Fixpoint attribute_named (name : string) (attributes : list (string * attribute))
  : option attribute :=
  match attributes with
  | [] => None
  | (n, a) :: rest =>
      if String.eqb n name then Some a else attribute_named name rest
  end.

(** Lines 23-27: the first callable whose name starts with [test_]. *)
Fixpoint first_test (attributes : list (string * attribute))
  : option behaviour :=
  match attributes with
  | [] => None
  | (n, Callable b) :: rest =>
      if String.prefix "test_" n then Some b else first_test rest
  | (_, Plain) :: rest => first_test rest
  end.

(** [run_test] (lines 10-33) *)
Definition run_test (import : string -> imported) (test_module : string)
  : verdict :=
  match import test_module with
  | ImportFails => Failed
  | ImportAborts => Interrupted
  | Imported attributes =>
      match attribute_named "main" attributes with
      | Some (Callable b) => of_behaviour b
      | Some Plain => Failed
      | None =>
          match first_test attributes with
          | Some b => of_behaviour b
          | None => Passed
          end
      end
  end.

(** Lines 42-49. *)
Definition tests : list (string * string) :=
  [ ("Simple Query Agent", "simple_query_agent");
    ("Conversation Agent", "conversation_agent");
    ("Custom Tools Agent", "custom_tools_agent");
    ("Hooks Agent", "hooks_agent");
    ("File Processor Agent", "file_processor_agent");
    ("Error Handling Agent", "error_handling_agent") ].

(** Lines 51-55: the loop over the tests; [None] when a test was
    interrupted, which ends [main] too. *)
Fixpoint run_tests (import : string -> imported) (todo : list (string * string))
  : option (list (string * bool)) :=
  match todo with
  | [] => Some []
  | (test_name, test_module) :: rest =>
      match run_test import test_module with
      | Interrupted => None
      | Passed => cons (test_name, true) <$> run_tests import rest
      | Failed => cons (test_name, false) <$> run_tests import rest
      end
  end.

(** [main] (lines 36-72): the exit code. *)
Definition main (import : string -> imported) : option Z :=
  match run_tests import tests with
  | None => None
  | Some results =>
      let passed := length (List.filter snd results) in
      let total := length results in
      Some (if Nat.eqb passed total then 0 else 1)
  end.

(** Modules shaped as those of the repository: no [main], other
    functions that cannot be called without arguments, and one [test_]
    function, which completes. *)
Definition healthy (name : string) : imported :=
  Imported [ ("asyncio", Plain);
           ("security_validator", Callable Fails);
           ("test_" +:+ name, Callable Completes);
           ("tool_logger", Callable Fails) ].

(** The same, except that the named module cannot be imported. *)
Definition one_broken (broken name : string) : imported :=
  if String.eqb name broken then ImportFails else healthy name.

End RunAll.

(** * Properties *)

(** ** The runtime model on values observed in CPython 3.11 *)

Example hash_seed_0 :
  PyHash.hash secret_seed_0 "a" = 4644417185603328019
  /\ PyHash.hash secret_seed_0 "abcdefghi" = -532774252720507163.
Proof. split; vm_compute; reflexivity. Qed.

Example hash_seed_1 : PyHash.hash secret_seed_1 "a" = -3012895188637184397.
Proof. vm_compute. reflexivity. Qed.

Example hash_seed_2 :
  PyHash.hash secret_seed_2 "abcdefgh" = -8070226647845373566.
Proof. vm_compute. reflexivity. Qed.

Example strptime_then_strftime :
  PyDate.strptime_ymd "2025-07-21" = Returned (PyDate.Datetime 739453 0 0 0 0)
  /\ PyDate.strftime_day (PyDate.Datetime 739453 0 0 0 0)
     = "July 21, 2025 (Monday)"
  /\ PyDate.strptime_ymd "2025-02-30" = Raised (ValueError None)
  /\ PyDate.strptime_ymd "21/07/2025" = Raised (ValueError None).
Proof. repeat split; vm_compute; reflexivity. Qed.

Example last_day_of_the_calendar :
  PyDate.strptime_ymd "9999-12-31"
  = Returned (PyDate.Datetime PyDate.max_ordinal 0 0 0 0)
  /\ PyDate.add_days (PyDate.Datetime PyDate.max_ordinal 0 0 0 0) 1
     = Raised OverflowError.
Proof. split; vm_compute; reflexivity. Qed.

Example int_of_text :
  map PyInt.parse [" 12 "; "-12"; "1_000"; "007"; "1__0"; "three"; "1.0"; "+"]
  = [Some 12; Some (-12); Some 1000; Some 7; None; None; None; None].
Proof. vm_compute. reflexivity. Qed.

(** [int] takes the no-break space as white space but not the unit
    separator, which [str.strip] removes. *)
Example int_white_space :
  PyInt.parse (String (PyStr.chr 160) "2") = Some 2
  /\ PyInt.parse (String (PyStr.chr 31) "2") = None
  /\ PyStr.strip (String (PyStr.chr 31) "2") = "2".
Proof. repeat split; vm_compute; reflexivity. Qed.

Example strip_and_lower :
  PyStr.strip "  a b  " = "a b"
  /\ PyStr.lower "GPT-5-Mini" = "gpt-5-mini"
  /\ is_gpt5 "openai/GPT-5-mini" = true
  /\ is_gpt5 "gpt-4o" = false.
Proof. repeat split; vm_compute; reflexivity. Qed.

(** ** The monad and the trace *)

Lemma bind_returned {A B} (m : M A) (k : A -> M B) st b st2 :
  bind m k st = (Returned b, st2) ->
  exists a st1, m st = (Returned a, st1) /\ k a st1 = (Returned b, st2).
Proof.
  unfold bind. destruct (m st) as [[a | e] st1]; intros H.
  - exists a, st1. split; [reflexivity | exact H].
  - discriminate H.
Qed.

Lemma bind_raised {A B} (m : M A) (k : A -> M B) st e st2 :
  bind m k st = (Raised e, st2) ->
  m st = (Raised e, st2)
  \/ exists a st1, m st = (Returned a, st1) /\ k a st1 = (Raised e, st2).
Proof.
  unfold bind. destruct (m st) as [[a | e'] st1]; intros H.
  - right. exists a, st1. split; [reflexivity | exact H].
  - left. inversion H; subst. reflexivity.
Qed.

Lemma model_calls_app tr1 tr2 :
  model_calls (tr1 ++ tr2) = model_calls tr1 ++ model_calls tr2.
Proof. unfold model_calls. apply List.filter_app. Qed.

Lemma writes_app tr1 tr2 : writes (tr1 ++ tr2) = writes tr1 ++ writes tr2.
Proof. unfold writes. apply List.filter_app. Qed.

Lemma model_calls_all tr :
  Forall (fun e => is_model_call e = true) tr -> model_calls tr = tr.
Proof.
  induction 1 as [| e tr He _ IH]; [reflexivity |].
  unfold model_calls in *. simpl. rewrite He, IH. reflexivity.
Qed.

Lemma writes_of_calls tr :
  Forall (fun e => is_model_call e = true) tr -> writes tr = [].
Proof.
  induction 1 as [| e tr He _ IH]; [reflexivity |].
  unfold writes in *. simpl. rewrite IH.
  destruct e; simpl in *; congruence.
Qed.

Lemma issued_app st st' new :
  trace st' = trace st ++ new -> issued st st' = new.
Proof. intros H. unfold issued. rewrite H. apply drop_app_length. Qed.

Lemma request_is_model_call model messages config :
  is_model_call (request model messages config) = true.
Proof. unfold request. destruct (is_gpt5 model); reflexivity. Qed.

Lemma calls_so_far_push_request st model messages config :
  calls_so_far (push st (request model messages config)) = S (calls_so_far st).
Proof.
  unfold calls_so_far, push. simpl. rewrite model_calls_app, length_app.
  unfold model_calls at 2. simpl. rewrite request_is_model_call. simpl. lia.
Qed.

Lemma calls_so_far_after st st' e :
  trace st' = trace st ++ [e] -> is_model_call e = true ->
  calls_so_far st' = S (calls_so_far st).
Proof.
  intros Htr He. unfold calls_so_far. rewrite Htr, model_calls_app, length_app.
  unfold model_calls at 2. simpl. rewrite He. simpl. lia.
Qed.

(** ** [call_llm]: one request out, one answer back *)

Lemma call_llm_run w model messages config st :
  call_llm w model messages config st
  = (answer w (calls_so_far st) model messages config,
     push st (request model messages config)).
Proof.
  unfold call_llm, answer, request, calls_so_far.
  destruct (is_gpt5 model).
  - unfold bind, client_responses_create.
    destruct (responses_create w _ _ _ _ _); reflexivity.
  - unfold bind, litellm_completion.
    destruct (completion w _ _ _) as [[| first rest] | e]; reflexivity.
Qed.

(** ** [load_openai_config] *)

(** The environment as [load_openai_config] reads it, after the [.env]
    file was taken in. *)
Lemma load_dotenv_run w st :
  exists st1,
    load_dotenv w st = (Returned tt, st1)
    /\ trace st1 = trace st /\ clock_reads st1 = clock_reads st
    /\ stdin st1 = stdin st
    /\ environ st1 = match dotenv_file w with
                     | Some file => environ st ∪ file
                     | None => environ st
                     end.
Proof.
  unfold load_dotenv. destruct (dotenv_file w); eexists; repeat split.
Qed.

Lemma load_openai_config_run w st :
  exists st1,
    trace st1 = trace st /\ clock_reads st1 = clock_reads st
    /\ stdin st1 = stdin st
    /\ environ st1 = match dotenv_file w with
                     | Some file => environ st ∪ file
                     | None => environ st
                     end
    /\ load_openai_config w st
       = (match environ st1 !! "OPENAI_API_KEY" with
          | Some key =>
              if PyStr.truthy key
              then Returned
                     (Config.Make key
                        (default "gpt-4o" (environ st1 !! "OPENAI_MODEL"))
                        "OpenAI"
                        (default "medium"
                           (environ st1 !! "OPENAI_REASONING_EFFORT"))
                        (default "medium" (environ st1 !! "OPENAI_VERBOSITY")))
              else Raised (ValueError (Some key_missing_message))
          | None => Raised (ValueError (Some key_missing_message))
          end, st1).
Proof.
  destruct (load_dotenv_run w st) as (st1 & Hrun & Htr & Hck & Hin & Henv).
  exists st1. repeat split; try assumption.
  unfold load_openai_config, bind. rewrite Hrun.
  unfold getenv, getenv_or, ret, raise, default.
  destruct (environ st1 !! "OPENAI_API_KEY") as [key |]; [| reflexivity].
  destruct (PyStr.truthy key);
    destruct (environ st1 !! "OPENAI_MODEL"),
             (environ st1 !! "OPENAI_REASONING_EFFORT"),
             (environ st1 !! "OPENAI_VERBOSITY"); reflexivity.
Qed.

(** ** The setup of a story (lines 230-318) *)

Lemma setup_litellm_run config st :
  exists st1,
    setup_litellm config st = (Returned (Config.model config), st1)
    /\ trace st1 = trace st /\ clock_reads st1 = clock_reads st
    /\ stdin st1 = stdin st.
Proof. eexists. repeat split. Qed.

Lemma determine_start_date_run w initial_prompt story_start_date st :
  exists st',
    determine_start_date w initial_prompt story_start_date st
    = (match story_start_date with
       | Some text => PyDate.strptime_ymd text
       | None =>
           PyDate.add_days (clock w (clock_reads st))
             (offset_days w initial_prompt)
       end, st')
    /\ trace st' = trace st.
Proof.
  unfold determine_start_date, bind, now, lift.
  destruct story_start_date; eexists; split; reflexivity.
Qed.

(** Either nothing was sent (the configuration or the start date failed),
    or exactly the storyboard request was, and the run goes on exactly when
    it was answered. *)
Lemma story_setup_run w initial_prompt num_days output_file story_start_date
      st r st' :
  story_setup w initial_prompt num_days output_file story_start_date st
  = (r, st') ->
  (trace st' = trace st /\ exists e, r = Raised e)
  \/ exists config start,
       (exists st1, load_openai_config w st = (Returned config, st1))
       /\ match story_start_date with
          | Some text => PyDate.strptime_ymd text
          | None =>
              PyDate.add_days (clock w (clock_reads st))
                (offset_days w initial_prompt)
          end = Returned start
       /\ let first :=
         [Message.Make "user"
            (storyboard_prompt initial_prompt num_days
               (PyDate.strftime_long start))] in
       trace st' = trace st ++ [request (Config.model config) first config]
       /\ match r with
          | Raised e =>
              answer w (calls_so_far st) (Config.model config) first config
              = Raised e
          | Returned l =>
              exists text generated path,
                answer w (calls_so_far st) (Config.model config) first config
                = Returned text
                /\ l = Locals config (Config.model config) start
                         (PyDate.strftime_long start) path
                         (document_head initial_prompt num_days generated
                            (PyDate.strftime_long start) config text)
                         (first ++ [Message.Make "assistant" text])
          end.
Proof.
  unfold story_setup. intros H.
  destruct (load_openai_config_run w st) as (st1 & Htr1 & Hck1 & _ & _ & Hcfg).
  unfold bind at 1 in H. rewrite Hcfg in H.
  destruct (match environ st1 !! "OPENAI_API_KEY" with
            | Some key => _ | None => _ end) as [config | e];
    [| left; inversion H; subst; eauto].
  destruct (setup_litellm_run config st1) as (st2 & Hsetup & Htr2 & Hck2 & _).
  unfold bind at 1 in H. rewrite Hsetup in H. clear Hsetup.
  unfold bind at 1 in H.
  destruct (determine_start_date_run w initial_prompt story_start_date st2)
    as (st3 & Hstart & Htr3).
  rewrite Hstart in H. clear Hstart. rewrite Hck2, Hck1 in H.
  destruct (match story_start_date with
            | Some text => _ | None => _ end) as [start | e] eqn:Hstart;
    [| left; inversion H; subst; split; [congruence | eauto]].
  right. exists config, start. split; [eauto |]. split; [reflexivity |].
  cbv zeta.
  assert (Hcalls : forall st4, trace st4 = trace st3 ->
                               calls_so_far st4 = calls_so_far st).
  { intros st4 E. unfold calls_so_far. congruence. }
  assert (Hout : exists path st4,
             trace st4 = trace st3 /\
             (match output_file with
              | Some name => ret name
              | None =>
                  timestamp <- now w ;;
                  ret ("story_openai_" +:+ PyDate.strftime_stamp timestamp
                       +:+ ".md")
              end) st3 = (Returned path, st4)).
  { destruct output_file; eexists; eexists;
      (split; [| unfold bind, now, ret; reflexivity]); reflexivity. }
  destruct Hout as (path & st4 & Htr4 & Hout).
  unfold bind at 1 in H. rewrite Hout in H. clear Hout.
  unfold bind at 1 in H. unfold append in H. simpl app in H.
  rewrite call_llm_run in H. rewrite (Hcalls st4 Htr4) in H.
  destruct (answer w (calls_so_far st) (Config.model config) _ config)
    as [text | e] eqn:Hans.
  - unfold bind, now, ret in H. inversion H; subst. simpl.
    split; [congruence |]. eauto 7.
  - inversion H; subst. simpl. split; [congruence | reflexivity].
Qed.

(** ** One day (lines 322-356) *)

Lemma add_days_returned t n t' :
  PyDate.add_days t n = Returned t' ->
  PyDate.min_ordinal <= PyDate.ordinal t + n <= PyDate.max_ordinal
  /\ t' = PyDate.Datetime (PyDate.ordinal t + n) (PyDate.hour t)
            (PyDate.minute t) (PyDate.second t) (PyDate.microsecond t).
Proof.
  unfold PyDate.add_days.
  destruct (_ && _) eqn:E; intros H; inversion H; subst.
  apply andb_prop in E. destruct E as [E1 E2].
  apply Z.leb_le in E1. apply Z.leb_le in E2. auto.
Qed.

Lemma add_days_in_range t n :
  PyDate.min_ordinal <= PyDate.ordinal t + n <= PyDate.max_ordinal ->
  PyDate.add_days t n
  = Returned (PyDate.Datetime (PyDate.ordinal t + n) (PyDate.hour t)
                (PyDate.minute t) (PyDate.second t) (PyDate.microsecond t)).
Proof.
  intros [H1 H2]. unfold PyDate.add_days.
  apply Z.leb_le in H1. apply Z.leb_le in H2. rewrite H1, H2. reflexivity.
Qed.

(** A day either stops at its date, or sends its request and goes on
    exactly when that is answered. *)
Lemma story_day_run w day_num l st r st' :
  story_day w day_num l st = (r, st') ->
  match PyDate.add_days (start_date l) (day_num - 1) with
  | Raised e => r = Raised e /\ st' = st
  | Returned _ =>
      let date_str :=
        PyDate.strftime_day (story_date (start_date l) day_num) in
      let sent :=
        conversation_history l
        ++ [Message.Make "user" (day_prompt day_num date_str)] in
      st' = push st (request (model l) sent (config l))
      /\ match answer w (calls_so_far st) (model l) sent (config l) with
         | Raised e => r = Raised e
         | Returned day_text =>
             r = Returned
                   (Locals (config l) (model l) (start_date l)
                      (story_start_str l) (output_path l)
                      (story_content l
                       ++ day_section (start_date l) (day_num, day_text))
                      (conversation_history l
                       ++ day_exchange (start_date l) (day_num, day_text)))
         end
  end.
Proof.
  unfold story_day, bind at 1, lift. intros H.
  destruct (PyDate.add_days (start_date l) (day_num - 1))
    as [current | e] eqn:Hdate.
  - apply add_days_returned in Hdate. destruct Hdate as [_ ->].
    fold (story_date (start_date l) day_num) in H.
    unfold bind, append in H. rewrite call_llm_run in H. cbv zeta.
    destruct (answer w _ _ _ _) as [day_text | e];
      inversion H; subst; split; try reflexivity.
    unfold ret. unfold day_section, day_exchange. simpl.
    rewrite <- !app_assoc. reflexivity.
  - inversion H; subst. split; reflexivity.
Qed.

(** ** The day loop *)

Lemma for_each_app {S : Type} (a b : list Z) (body : Z -> S -> M S) s st :
  for_each (a ++ b) body s st
  = bind (for_each a body s) (for_each b body) st.
Proof.
  revert s st. induction a as [| x a IH]; intros s st.
  - reflexivity.
  - simpl. unfold bind.
    destruct (body x s st) as [[s' | e] st1]; [| reflexivity].
    rewrite IH. reflexivity.
Qed.

Lemma py_range_length a b : 0 <= b - a -> Z.of_nat (length (py_range a b)) = b - a.
Proof. intros H. unfold py_range. rewrite length_map, length_seq. lia. Qed.

Lemma py_range_empty a b : b <= a -> py_range a b = [].
Proof.
  intros H. unfold py_range. replace (Z.to_nat (b - a)) with 0%nat by lia.
  reflexivity.
Qed.

Lemma map_seq_from {A} (f : nat -> A) (s n : nat) :
  map f (seq s n) = map (fun i => f (s + i)%nat) (seq 0 n).
Proof.
  revert f s. induction n as [| n IH]; intros f s; [reflexivity |].
  simpl. f_equal; [f_equal; lia |].
  rewrite (IH f (S s)), (IH (fun i => f (s + i)%nat) 1%nat).
  apply map_ext. intros i. f_equal. lia.
Qed.

Lemma py_range_split a k b :
  a <= k <= b -> py_range a b = py_range a k ++ py_range k b.
Proof.
  intros H. unfold py_range.
  replace (Z.to_nat (b - a)) with (Z.to_nat (k - a) + Z.to_nat (b - k))%nat
    by lia.
  rewrite seq_app, map_app. f_equal.
  rewrite map_seq_from. apply map_ext. intros i. lia.
Qed.

Lemma take_one_more {A} (h : list A) (x : A) (rest : list A) :
  take (length h + 1) (h ++ x :: rest) = h ++ [x].
Proof.
  induction h as [| y h IH]; simpl; [reflexivity | f_equal; exact IH].
Qed.

Lemma take_two_more {A} (h : list A) (x y : A) (rest : list A) :
  take (length h + 2) (h ++ x :: y :: rest) = h ++ [x; y].
Proof.
  induction h as [| z h IH]; simpl; [reflexivity | f_equal; exact IH].
Qed.

Lemma sent_in_first before (h : list Message.t) x rest :
  before = length h -> sent_in before (h ++ x :: rest) 0 = h ++ [x].
Proof.
  intros ->. unfold sent_in.
  replace (length h + 2 * 0 + 1)%nat with (length h + 1)%nat by lia.
  apply take_one_more.
Qed.

Lemma sent_in_next before history j :
  sent_in before history (S j) = sent_in (before + 2) history j.
Proof. unfold sent_in. f_equal. lia. Qed.

(** What a loop that came to its end has done: one answered request per
    day, each sending the whole transcript so far and getting the next
    entry back; one section per day in the document. *)
Lemma day_loop_returned w days :
  forall l st l' st',
    for_each days (story_day w) l st = (Returned l', st') ->
    exists texts,
      length texts = length days
      /\ l' = Locals (config l) (model l) (start_date l) (story_start_str l)
                (output_path l)
                (story_content l
                 ++ flat_map (day_section (start_date l)) (combine days texts))
                (conversation_history l
                 ++ flat_map (day_exchange (start_date l)) (combine days texts))
      /\ trace st'
         = trace st
           ++ map (fun j =>
                     request (model l)
                       (sent_in (length (conversation_history l))
                          (conversation_history l') j)
                       (config l))
                  (seq 0 (length days))
      /\ (forall j, (j < length days)%nat ->
            exists reply,
              answer w (calls_so_far st + j) (model l)
                (sent_in (length (conversation_history l))
                   (conversation_history l') j)
                (config l)
              = Returned reply
              /\ take (length (conversation_history l) + 2 * j + 2)
                   (conversation_history l')
                 = sent_in (length (conversation_history l))
                     (conversation_history l') j
                   ++ [Message.Make "assistant" reply])
      /\ Forall (fun d =>
                   PyDate.min_ordinal
                   <= PyDate.ordinal (story_date (start_date l) d)
                   <= PyDate.max_ordinal) days.
Proof.
  induction days as [| d rest IH]; intros l st l' st' H.
  - inversion H; subst. exists []. destruct l'; simpl.
    rewrite !app_nil_r. repeat split; try reflexivity; [lia | constructor].
  - simpl in H. apply bind_returned in H.
    destruct H as (l1 & st1 & Hday & Hrest).
    apply story_day_run in Hday.
    destruct (PyDate.add_days (start_date l) (d - 1)) as [cur | e] eqn:Hdate;
      [| destruct Hday; discriminate].
    cbv zeta in Hday. destruct Hday as [-> Hday].
    destruct (answer w (calls_so_far st) (model l) _ (config l))
      as [text | e] eqn:Hans; [| discriminate].
    inversion Hday; subst l1; clear Hday.
    apply IH in Hrest.
    destruct Hrest as (texts & Hlen & -> & Htrace & Hreplies & Hdates).
    simpl in *.
    exists (text :: texts). simpl.
    set (h := conversation_history l) in *.
    set (start := start_date l) in *.
    assert (Hh : (h ++ day_exchange start (d, text))
                 ++ flat_map (day_exchange start) (combine rest texts)
                 = h ++ Message.Make "user"
                          (day_prompt d
                             (PyDate.strftime_day (story_date start d)))
                     :: Message.Make "assistant" text
                     :: flat_map (day_exchange start) (combine rest texts)).
    { rewrite <- app_assoc. reflexivity. }
    assert (Hlenh : length (h ++ day_exchange start (d, text))
                    = (length h + 2)%nat).
    { rewrite length_app. reflexivity. }
    rewrite Hlenh in *.
    split; [congruence |]. split; [rewrite <- !app_assoc; reflexivity |].
    split; [| split].
    + rewrite Htrace. rewrite <- app_assoc. f_equal. simpl. f_equal.
      * f_equal. rewrite Hh.
        symmetry. apply sent_in_first. reflexivity.
      * rewrite (map_seq_from _ 1). apply map_ext. intros j.
        f_equal. simpl. rewrite sent_in_next, <- app_assoc. reflexivity.
    + intros [| j] Hj.
      * exists text. split.
        -- rewrite Nat.add_0_r, Hh, sent_in_first by reflexivity. exact Hans.
        -- rewrite Hh, sent_in_first by reflexivity.
           match goal with
           | |- take ?n _ = _ => replace n with (length h + 2)%nat by lia
           end.
           rewrite take_two_more, <- app_assoc. reflexivity.
      * destruct (Hreplies j) as (reply & Hreply & Htake); [lia |].
        exists reply. rewrite calls_so_far_push_request in Hreply.
        rewrite sent_in_next. split.
        -- replace (calls_so_far st + S j)%nat
             with (S (calls_so_far st) + j)%nat by lia.
           rewrite <- app_assoc. rewrite <- app_assoc in Hreply. exact Hreply.
        -- rewrite <- app_assoc. rewrite <- app_assoc in Htake.
           rewrite <- Htake. f_equal. lia.
    + constructor; [| exact Hdates].
      apply add_days_returned in Hdate. simpl. lia.
Qed.

(** A loop that was cut short sent at most one request per day, and
    nothing else. *)
Lemma day_loop_raised w days :
  forall l st e st',
    for_each days (story_day w) l st = (Raised e, st') ->
    exists calls,
      Forall (fun ev => is_model_call ev = true) calls
      /\ (length calls <= length days)%nat
      /\ trace st' = trace st ++ calls.
Proof.
  induction days as [| d rest IH]; intros l st e st' H; [discriminate H |].
  simpl in H. apply bind_raised in H.
  destruct H as [Hday | (l1 & st1 & Hday & Hrest)];
    apply story_day_run in Hday;
    destruct (PyDate.add_days (start_date l) (d - 1)) as [cur | e'].
  - cbv zeta in Hday. destruct Hday as [-> _].
    eexists [_]. split; [| split; [simpl; lia | reflexivity]].
    repeat constructor. apply request_is_model_call.
  - destruct Hday as [_ ->]. exists []. rewrite app_nil_r.
    split; [constructor | split; [simpl; lia | reflexivity]].
  - cbv zeta in Hday. destruct Hday as [-> _].
    apply IH in Hrest. destruct Hrest as (calls & Hall & Hlen & Htrace).
    eexists (_ :: calls). split; [| split].
    + constructor; [apply request_is_model_call | exact Hall].
    + simpl. lia.
    + rewrite Htrace. simpl. rewrite <- app_assoc. reflexivity.
  - destruct Hday as [Hday _]. discriminate Hday.
Qed.

(** ** The end of a run (lines 358-364) *)

Lemma story_finish_run num_days l st :
  story_finish num_days l st
  = (match PyDate.add_days (start_date l) (num_days - 1) with
     | Returned _ => Returned tt
     | Raised e => Raised e
     end,
     push st (WriteText (output_path l) (PyStr.concat (story_content l)))).
Proof.
  unfold story_finish, bind, write_text, emit, lift, ret.
  destruct (PyDate.add_days (start_date l) (num_days - 1)); reflexivity.
Qed.

(** ** The shape of every run of [write_multi_day_story]

    Either the run was cut short before the file was written, having sent
    no more than its requests; or it sent the storyboard request and one
    request per day, all answered, and then wrote the file.  [history] is
    the transcript at the end: the request of index [j] carried its first
    [2 j + 1] entries and the answer became the next one. *)
Lemma write_multi_day_story_run w initial_prompt num_days output_file
      story_start_date st r st' :
  write_multi_day_story w initial_prompt num_days output_file story_start_date
    st = (r, st') ->
  let days := py_range 1 (num_days + 1) in
  (exists e calls,
      r = Raised e
      /\ Forall (fun ev => is_model_call ev = true) calls
      /\ (length calls <= 1 + length days)%nat
      /\ trace st' = trace st ++ calls)
  \/ exists cfg start generated path storyboard_text texts,
       let history :=
         [ Message.Make "user"
             (storyboard_prompt initial_prompt num_days
                (PyDate.strftime_long start));
           Message.Make "assistant" storyboard_text ]
         ++ flat_map (day_exchange start) (combine days texts) in
       let fragments :=
         document_head initial_prompt num_days generated
           (PyDate.strftime_long start) cfg storyboard_text
         ++ flat_map (day_section start) (combine days texts) in
       (r = Returned tt \/ r = Raised OverflowError)
       /\ (exists st1, load_openai_config w st = (Returned cfg, st1))
       /\ match story_start_date with
          | Some text => PyDate.strptime_ymd text
          | None =>
              PyDate.add_days (clock w (clock_reads st))
                (offset_days w initial_prompt)
          end = Returned start
       /\ length texts = length days
       /\ Forall (fun d =>
                    PyDate.min_ordinal
                    <= PyDate.ordinal (story_date start d)
                    <= PyDate.max_ordinal) days
       /\ trace st'
          = trace st
            ++ map (fun j =>
                      request (Config.model cfg) (sent_in 0 history j) cfg)
                   (seq 0 (S (length days)))
            ++ [WriteText path (PyStr.concat fragments)]
       /\ forall j, (j < S (length days))%nat ->
            exists reply,
              answer w (calls_so_far st + j) (Config.model cfg)
                (sent_in 0 history j) cfg
              = Returned reply
              /\ take (2 * j + 2) history
                 = sent_in 0 history j ++ [Message.Make "assistant" reply].
Proof.
  intros H days. unfold write_multi_day_story in H. fold days in H.
  unfold bind at 1 in H.
  destruct (story_setup w initial_prompt num_days output_file
              story_start_date st) as [[l | e] st1] eqn:Hsetup;
    apply story_setup_run in Hsetup;
    destruct Hsetup as [[Htr [e' He']] | (cfg & start & Hcfg & Hstart & Hsetup)];
    try discriminate He'; try (cbv zeta in Hsetup).
  2: { left. inversion H; subst. exists e, []. rewrite app_nil_r.
       repeat split; [constructor | simpl; lia | exact Htr]. }
  2: { left. inversion H; subst. destruct Hsetup as [Htr _].
       exists e. eexists [_]. repeat split; [| simpl; lia | exact Htr].
       repeat constructor. apply request_is_model_call. }
  destruct Hsetup as (Htr1 & text0 & generated & path & Hans0 & ->).
  unfold bind at 1 in H.
  destruct (for_each days (story_day w) _ st1) as [[l' | e] st2] eqn:Hloop.
  - apply day_loop_returned in Hloop.
    destruct Hloop as (texts & Hlen & -> & Htr2 & Hreplies & Hdates).
    cbn [config model start_date story_start_str output_path story_content
         conversation_history] in *.
    rewrite story_finish_run in H.
    cbn [config model start_date story_start_str output_path story_content
         conversation_history] in H.
    right. exists cfg, start, generated, path, text0, texts. cbv zeta.
    set (history := _ ++ flat_map (day_exchange start) (combine days texts))
      in *.
    split.
    { destruct (PyDate.add_days start (num_days - 1)) as [? | e] eqn:Hend;
        inversion H; subst.
      - left. reflexivity.
      - right. unfold PyDate.add_days in Hend.
        destruct (_ && _); inversion Hend. reflexivity. }
    split; [exact Hcfg |]. split; [exact Hstart |]. split; [exact Hlen |].
    split; [exact Hdates |]. split.
    + inversion H; subst st'. unfold push. cbn [trace].
      rewrite Htr2, Htr1, <- !app_assoc. f_equal.
      cbn [seq map app]. f_equal; try reflexivity. f_equal; try reflexivity.
      rewrite (map_seq_from _ 1). apply map_ext. intros j.
      f_equal. cbn [length]. rewrite sent_in_next. reflexivity.
    + intros [| j] Hj.
      * exists text0. split; [| reflexivity].
        rewrite Nat.add_0_r. exact Hans0.
      * destruct (Hreplies j) as (reply & Hreply & Htake); [lia |].
        exists reply. cbn [length] in Hreply, Htake.
        rewrite sent_in_next. split.
        -- rewrite <- Hreply. f_equal.
           rewrite (calls_so_far_after _ _ _ Htr1)
             by apply request_is_model_call.
           lia.
        -- etransitivity; [| exact Htake]. f_equal. simpl. lia.
  - left. inversion H; subst. apply day_loop_raised in Hloop.
    destruct Hloop as (calls & Hall & Hlen & Htr2).
    exists e. eexists (_ :: calls). split; [reflexivity |]. split; [| split].
    + constructor; [apply request_is_model_call | exact Hall].
    + simpl. lia.
    + rewrite Htr2, Htr1, <- app_assoc. reflexivity.
Qed.

(** ** The number and order of model calls *)

Lemma py_range_days_length num_days :
  0 <= num_days ->
  length (py_range 1 (num_days + 1)) = Z.to_nat num_days.
Proof.
  intros H. unfold py_range. rewrite length_map, length_seq. f_equal. lia.
Qed.

Lemma requests_are_model_calls (f : nat -> event) (l : list nat) :
  (forall j, is_model_call (f j) = true) ->
  Forall (fun ev => is_model_call ev = true) (map f l).
Proof.
  intros Hf. induction l as [| j l IH]; simpl; constructor; auto.
Qed.

(** C1: a run of [write_multi_day_story] for [num_days] = N days never
    issues more than N+1 model calls, and a run that returns has issued
    exactly N+1: the storyboard request and one per day, one after the
    other, the request of index j carrying the first 2j+1 entries of the
    transcript, hence every earlier request and answer, and its own
    answer becoming the next entry. *)
Theorem model_invocations w initial_prompt num_days output_file
        story_start_date st r st' :
  write_multi_day_story w initial_prompt num_days output_file story_start_date
    st = (r, st') ->
  0 <= num_days ->
  Z.of_nat (length (model_calls (issued st st'))) <= num_days + 1
  /\ (r = Returned tt ->
      Z.of_nat (length (model_calls (issued st st'))) = num_days + 1
      /\ exists cfg history,
           model_calls (issued st st')
           = map (fun j =>
                    request (Config.model cfg) (sent_in 0 history j) cfg)
                 (seq 0 (Z.to_nat (num_days + 1)))
           /\ forall j, (j < Z.to_nat (num_days + 1))%nat ->
                exists reply,
                  answer w (calls_so_far st + j) (Config.model cfg)
                    (sent_in 0 history j) cfg
                  = Returned reply
                  /\ take (2 * j + 2) history
                     = sent_in 0 history j
                       ++ [Message.Make "assistant" reply]).
Proof.
  intros Hrun HN. apply write_multi_day_story_run in Hrun. cbv zeta in Hrun.
  pose proof (py_range_days_length num_days HN) as Hdays.
  destruct Hrun as [(e & calls & -> & Hall & Hlen & Htr)
                   | (cfg & start & generated & path & text0 & texts & Hrun)].
  - rewrite (issued_app _ _ _ Htr), (model_calls_all _ Hall).
    rewrite Hdays in Hlen. split; [lia | discriminate].
  - destruct Hrun as (_ & _ & _ & _ & _ & Htr & Hreplies).
    rewrite Hdays in Htr, Hreplies.
    replace (S (Z.to_nat num_days)) with (Z.to_nat (num_days + 1))
      in Htr, Hreplies by lia.
    match type of Htr with
    | _ = _ ++ ?requests ++ _ =>
        assert (Hcalls : model_calls (issued st st') = requests)
    end.
    { rewrite (issued_app _ _ _ Htr), model_calls_app.
      rewrite model_calls_all
        by (apply requests_are_model_calls; intros;
            apply request_is_model_call).
      apply app_nil_r. }
    rewrite Hcalls, length_map, length_seq.
    split; [lia |]. intros _. split; [lia |].
    eexists cfg, _. split; [reflexivity | exact Hreplies].
Qed.

(** C9: in every run of [write_multi_day_story] the events are model
    calls followed by at most one write, and the write, when there is one,
    comes last and after all N+1 model calls; a run that returns has
    written the file exactly once. *)
Theorem story_written_once_at_the_end w initial_prompt num_days output_file
        story_start_date st r st' :
  write_multi_day_story w initial_prompt num_days output_file story_start_date
    st = (r, st') ->
  0 <= num_days ->
  exists calls,
    Forall (fun ev => is_model_call ev = true) calls
    /\ ((issued st st' = calls /\ writes (issued st st') = []
         /\ r <> Returned tt)
        \/ exists path document,
             issued st st' = calls ++ [WriteText path document]
             /\ writes (issued st st') = [WriteText path document]
             /\ Z.of_nat (length calls) = num_days + 1).
Proof.
  intros Hrun HN. apply write_multi_day_story_run in Hrun. cbv zeta in Hrun.
  pose proof (py_range_days_length num_days HN) as Hdays.
  destruct Hrun as [(e & calls & -> & Hall & Hlen & Htr)
                   | (cfg & start & generated & path & text0 & texts & Hrun)].
  - exists calls. split; [exact Hall |]. left.
    rewrite (issued_app _ _ _ Htr).
    split; [reflexivity |]. split; [apply writes_of_calls, Hall | discriminate].
  - destruct Hrun as (_ & _ & _ & _ & _ & Htr & _).
    eexists. split;
      [apply requests_are_model_calls; intros; apply request_is_model_call |].
    right. eexists path, _. rewrite (issued_app _ _ _ Htr).
    split; [reflexivity |]. split.
    + rewrite writes_app, writes_of_calls
        by (apply requests_are_model_calls; intros;
            apply request_is_model_call).
      reflexivity.
    + rewrite length_map, length_seq, Hdays. lia.
Qed.

Lemma model_invocations_witness :
  exists st',
    write_multi_day_story (sample_world secret_seed_0) "A cat" 2 None None
      (sample_state "gpt-4o" []) = (Returned tt, st')
    /\ Z.of_nat (length (model_calls (issued (sample_state "gpt-4o" []) st')))
       = 2 + 1.
Proof.
  pose (run := write_multi_day_story (sample_world secret_seed_0) "A cat" 2
                 None None (sample_state "gpt-4o" [])).
  assert (Hrun : run = (Returned tt, snd run)) by (vm_compute; reflexivity).
  exists (snd run). split; [exact Hrun |].
  destruct (model_invocations _ _ _ _ _ _ _ _ Hrun ltac:(lia)) as [_ Hdone].
  exact (proj1 (Hdone eq_refl)).
Defined.

Lemma story_written_once_at_the_end_witness :
  exists st' calls path document,
    write_multi_day_story (sample_world secret_seed_0) "A cat" 2
      (Some "cat.md") (Some "2025-07-21") (sample_state "gpt-5-mini" [])
    = (Returned tt, st')
    /\ issued (sample_state "gpt-5-mini" []) st'
       = calls ++ [WriteText path document]
    /\ Forall (fun ev => is_model_call ev = true) calls
    /\ Z.of_nat (length calls) = 2 + 1.
Proof.
  pose (run := write_multi_day_story (sample_world secret_seed_0) "A cat" 2
                 (Some "cat.md") (Some "2025-07-21")
                 (sample_state "gpt-5-mini" [])).
  assert (Hrun : run = (Returned tt, snd run)) by (vm_compute; reflexivity).
  destruct (story_written_once_at_the_end _ _ _ _ _ _ _ _ Hrun ltac:(lia))
    as (calls & Hall & [(_ & _ & Hno) | (path & document & Hev & _ & Hlen)]).
  - destruct (Hno eq_refl).
  - exists (snd run), calls, path, document. auto.
Defined.

(** A day count below zero is not refused: [range(1, num_days + 1)] is
    empty, so a run that returns has sent the storyboard request alone and
    has written a document without day sections. *)
Lemma negative_day_count w initial_prompt num_days output_file
      story_start_date st st' :
  write_multi_day_story w initial_prompt num_days output_file story_start_date
    st = (Returned tt, st') ->
  num_days < 0 ->
  exists call path document,
    is_model_call call = true
    /\ issued st st' = [call; WriteText path document].
Proof.
  intros Hrun HN. apply write_multi_day_story_run in Hrun. cbv zeta in Hrun.
  rewrite (py_range_empty 1 (num_days + 1)) in Hrun by lia.
  destruct Hrun as [(e & calls & He & _) | Hrun]; [discriminate He |].
  destruct Hrun as (cfg & start & generated & path & text0 & texts & Hrun).
  destruct Hrun as (_ & _ & _ & _ & _ & Htr & _).
  cbn [length seq map app] in Htr.
  eexists. exists path. eexists. split; [| exact (issued_app _ _ _ Htr)].
  apply request_is_model_call.
Qed.

(** ** The transcript after each day *)

Lemma flat_map_pairs_length {A B} (f : A -> list B) (l : list A) :
  (forall x, length (f x) = 2%nat) ->
  length (flat_map f l) = (2 * length l)%nat.
Proof.
  intros Hf. induction l as [| x l IH]; [reflexivity |].
  cbn [flat_map]. rewrite length_app, Hf, IH. simpl. lia.
Qed.

(** The run of [write_multi_day_story] goes through the end of every day
    [k] of 1..N: it is the run up to that point, then the days left, then
    the end. *)
Lemma write_multi_day_story_through_day w initial_prompt num_days output_file
      story_start_date k st :
  1 <= k <= num_days ->
  write_multi_day_story w initial_prompt num_days output_file story_start_date
    st
  = bind (story_after_day w initial_prompt num_days output_file
            story_start_date k)
         (fun l =>
            bind (for_each (py_range (k + 1) (num_days + 1)) (story_day w) l)
                 (story_finish num_days))
         st.
Proof.
  intros Hk. unfold write_multi_day_story, story_after_day.
  rewrite (py_range_split 1 (k + 1) (num_days + 1)) by lia.
  unfold bind at 1 3 4.
  destruct (story_setup _ _ _ _ _ _) as [[l | e] st1]; [| reflexivity].
  unfold bind at 1. rewrite for_each_app. unfold bind.
  destruct (for_each (py_range 1 (k + 1)) _ _ _) as [[l' | e] st2];
    reflexivity.
Qed.

(** C2: when day [k] of 1..N is done, the transcript
    ([conversation_history]) has exactly 2k+2 entries. *)
Theorem transcript_length_after_day w initial_prompt num_days output_file
        story_start_date k st l st' :
  1 <= k <= num_days ->
  story_after_day w initial_prompt num_days output_file story_start_date k st
  = (Returned l, st') ->
  Z.of_nat (length (conversation_history l)) = 2 * k + 2.
Proof.
  intros Hk Hrun. unfold story_after_day in Hrun.
  apply bind_returned in Hrun. destruct Hrun as (l0 & st1 & Hsetup & Hloop).
  apply story_setup_run in Hsetup.
  destruct Hsetup as [[_ [e He]] | (cfg & start & _ & _ & Hsetup)];
    [discriminate He |].
  cbv zeta in Hsetup.
  destruct Hsetup as (_ & text0 & generated & path & _ & ->).
  apply day_loop_returned in Hloop.
  destruct Hloop as (texts & Hlen & -> & _).
  cbn [conversation_history start_date].
  rewrite !length_app, flat_map_pairs_length by reflexivity.
  rewrite length_combine, Hlen, Nat.min_id.
  unfold py_range. rewrite length_map, length_seq. simpl length. lia.
Qed.

Lemma transcript_length_after_day_witness :
  exists l st',
    story_after_day (sample_world secret_seed_0) "A cat" 3 None None 2
      (sample_state "gpt-4o" []) = (Returned l, st')
    /\ Z.of_nat (length (conversation_history l)) = 2 * 2 + 2.
Proof.
  pose (run := story_after_day (sample_world secret_seed_0) "A cat" 3 None
                 None 2 (sample_state "gpt-4o" [])).
  assert (Hrun : exists l, run = (Returned l, snd run)).
  { destruct run as [[l | e] st'] eqn:E.
    - exists l. reflexivity.
    - exfalso.
      assert (H : match fst run with Returned _ => False | Raised _ => True end)
        by (rewrite E; exact I).
      vm_compute in H. exact H. }
  destruct Hrun as [l Hrun]. exists l, (snd run). split; [exact Hrun |].
  exact (transcript_length_after_day _ _ 3 _ _ 2 _ _ _ ltac:(lia) Hrun).
Defined.

(** ** The document *)

Lemma py_range_days num_days :
  0 <= num_days ->
  py_range 1 (num_days + 1) = map Z.of_nat (seq 1 (Z.to_nat num_days)).
Proof.
  intros H. unfold py_range.
  replace (num_days + 1 - 1) with num_days by lia.
  rewrite (map_seq_from Z.of_nat 1). apply map_ext. intros i. lia.
Qed.

Lemma prefix_append (a b : string) : String.prefix a (a +:+ b) = true.
Proof.
  induction a as [| c a IH]; simpl; [destruct b; reflexivity |].
  destruct (ascii_dec c c) as [_ | Hne]; [exact IH | destruct (Hne eq_refl)].
Qed.

(** C3: the document a run writes starts with the premise heading
    [# <premise>] and, after the ten fragments of its head (heading, four
    lines on the run, the planning section with the storyboard, the title
    of the story), consists of exactly N day sections, for the days 1, 2,
    ..., N in this order; the section of day k opens with the header
    [### Day k: <date>], where the date is the start date plus k-1 days
    written as month, day, year and week day, and goes on with the text
    of that day.  The start date is the one given, or the one derived. *)
Theorem story_document_layout w initial_prompt num_days output_file
        story_start_date st st' :
  write_multi_day_story w initial_prompt num_days output_file story_start_date
    st = (Returned tt, st') ->
  0 <= num_days ->
  exists start path document cfg generated storyboard_text texts,
    match story_start_date with
    | Some text => PyDate.strptime_ymd text
    | None =>
        PyDate.add_days (clock w (clock_reads st))
          (offset_days w initial_prompt)
    end = Returned start
    /\ writes (issued st st') = [WriteText path document]
    /\ String.prefix ("# " +:+ initial_prompt +:+ PyStr.nl +:+ PyStr.nl)
         document = true
    /\ document
       = PyStr.concat
           ([ "# " +:+ initial_prompt +:+ PyStr.nl +:+ PyStr.nl;
              "*Generated on " +:+ PyDate.strftime_iso generated +:+ "*  "
                +:+ PyStr.nl;
              "*Story Duration: " +:+ PyStr.show num_days +:+ " days*  "
                +:+ PyStr.nl;
              "*Story Start Date: " +:+ PyDate.strftime_long start +:+ "*  "
                +:+ PyStr.nl;
              "*Provider: " +:+ Config.provider cfg +:+ " | Model: "
                +:+ Config.model cfg +:+ "*" +:+ PyStr.nl +:+ PyStr.nl;
              "---" +:+ PyStr.nl +:+ PyStr.nl;
              "## Story Planning" +:+ PyStr.nl +:+ PyStr.nl;
              storyboard_text +:+ PyStr.nl +:+ PyStr.nl;
              "---" +:+ PyStr.nl +:+ PyStr.nl;
              "## The Story" +:+ PyStr.nl +:+ PyStr.nl ]
            ++ flat_map
                 (fun day : Z * string =>
                    [ "### Day " +:+ PyStr.show (fst day) +:+ ": "
                        +:+ PyDate.strftime_day (story_date start (fst day))
                        +:+ PyStr.nl +:+ PyStr.nl;
                      snd day +:+ PyStr.nl +:+ PyStr.nl ])
                 (combine (map Z.of_nat (seq 1 (Z.to_nat num_days))) texts))
    /\ length texts = Z.to_nat num_days
    /\ forall k, 1 <= k <= num_days ->
         PyDate.add_days start (k - 1) = Returned (story_date start k).
Proof.
  intros Hrun HN. apply write_multi_day_story_run in Hrun. cbv zeta in Hrun.
  destruct Hrun as [(e & calls & He & _) | Hrun]; [discriminate He |].
  destruct Hrun as (cfg & start & generated & path & text0 & texts & Hrun).
  destruct Hrun as (_ & _ & Hstart & Hlen & Hdates & Htr & _).
  rewrite py_range_days in * by exact HN.
  exists start, path. eexists. exists cfg, generated, text0, texts.
  split; [exact Hstart |]. split; [| split; [| split; [reflexivity |]]].
  - rewrite (issued_app _ _ _ Htr), writes_app, writes_of_calls
      by (apply requests_are_model_calls; intros; apply request_is_model_call).
    reflexivity.
  - cbn [document_head app PyStr.concat fold_right]. apply prefix_append.
  - split; [rewrite Hlen, length_map, length_seq; reflexivity |].
    intros k Hk. rewrite List.Forall_forall in Hdates.
    apply add_days_in_range. apply (Hdates k).
    apply in_map_iff. exists (Z.to_nat k). split; [lia |].
    apply in_seq. lia.
Qed.

Lemma story_document_layout_witness :
  exists st' path document texts,
    write_multi_day_story (sample_world secret_seed_0) "A cat" 2
      (Some "cat.md") (Some "2025-07-21") (sample_state "gpt-4o" [])
    = (Returned tt, st')
    /\ writes (issued (sample_state "gpt-4o" []) st')
       = [WriteText path document]
    /\ String.prefix ("# A cat" +:+ PyStr.nl +:+ PyStr.nl) document = true
    /\ length texts = 2%nat
    /\ exists head,
         length head = 10%nat
         /\ document
            = PyStr.concat
                (head
                 ++ flat_map
                      (fun day : Z * string =>
                         [ "### Day " +:+ PyStr.show (fst day) +:+ ": "
                             +:+ PyDate.strftime_day
                                   (story_date
                                      (PyDate.Datetime 739453 0 0 0 0)
                                      (fst day))
                             +:+ PyStr.nl +:+ PyStr.nl;
                           snd day +:+ PyStr.nl +:+ PyStr.nl ])
                      (combine [1; 2] texts)).
Proof.
  pose (run := write_multi_day_story (sample_world secret_seed_0) "A cat" 2
                 (Some "cat.md") (Some "2025-07-21")
                 (sample_state "gpt-4o" [])).
  assert (Hrun : run = (Returned tt, snd run)) by (vm_compute; reflexivity).
  destruct (story_document_layout _ _ _ _ _ _ _ Hrun ltac:(lia))
    as (start & path & document & cfg & generated & text0 & texts
        & Hstart & Hw & Hp & Hdoc & Hlen & _).
  assert (Hs : start = PyDate.Datetime 739453 0 0 0 0).
  { assert (Hd : PyDate.strptime_ymd "2025-07-21"
                 = Returned (PyDate.Datetime 739453 0 0 0 0))
      by (vm_compute; reflexivity).
    rewrite Hd in Hstart. injection Hstart as <-. reflexivity. }
  exists (snd run), path, document, texts.
  split; [exact Hrun |]. split; [exact Hw |]. split; [exact Hp |].
  split; [exact Hlen |].
  eexists. split; [| rewrite <- Hs; exact Hdoc]. reflexivity.
Defined.
Example sample_document :
  writes (trace (snd (write_multi_day_story (sample_world secret_seed_0)
                        "A cat" 2 (Some "cat.md") (Some "2025-07-21")
                        (sample_state "gpt-4o" []))))
  = [WriteText "cat.md"
       (PyStr.join PyStr.nl
          [ "# A cat"; EmptyString;
            "*Generated on 2025-07-21 12:00:00*  ";
            "*Story Duration: 2 days*  ";
            "*Story Start Date: July 21, 2025*  ";
            "*Provider: OpenAI | Model: gpt-4o*"; EmptyString;
            "---"; EmptyString;
            "## Story Planning"; EmptyString;
            "reply 0"; EmptyString;
            "---"; EmptyString;
            "## The Story"; EmptyString;
            "### Day 1: July 21, 2025 (Monday)"; EmptyString;
            "reply 1"; EmptyString;
            "### Day 2: July 22, 2025 (Tuesday)"; EmptyString;
            "reply 2"; EmptyString; EmptyString ])].
Proof. vm_compute. reflexivity. Qed.

(** A run that leaves the calendar is cut short: started on the last day
    of year 9999, a two-day story stops after the request of day 1, and
    no file is written. *)
Example run_cut_short_by_the_calendar :
  let run := write_multi_day_story (sample_world secret_seed_0) "A cat" 2
               (Some "cat.md") (Some "9999-12-31")
               (sample_state "gpt-4o" []) in
  fst run = Raised OverflowError
  /\ length (model_calls (trace (snd run))) = 2%nat
  /\ writes (trace (snd run)) = [].
Proof. cbv zeta. repeat split; vm_compute; reflexivity. Qed.

(** ** The derived start date *)

(** C6, as amended: the derived day offset [(hash(premise) % 365) - 180]
    lies in the interval [-180, 184], so the derived start date is at most
    180 days before and at most 184 days after the current date. *)
Theorem derived_offset_window w initial_prompt :
  -180 <= offset_days w initial_prompt <= 184
  /\ forall st start st',
       determine_start_date w initial_prompt None st = (Returned start, st') ->
       -180
       <= PyDate.ordinal start - PyDate.ordinal (clock w (clock_reads st))
       <= 184.
Proof.
  assert (H : -180 <= offset_days w initial_prompt <= 184).
  { unfold offset_days.
    pose proof (Z.mod_pos_bound
                  (PyHash.hash (hash_secret w) initial_prompt) 365).
    lia. }
  split; [exact H |]. intros st start st' Hrun.
  unfold determine_start_date, bind, now, lift in Hrun.
  inversion Hrun as [[Hdate Hst]]. apply add_days_returned in Hdate.
  destruct Hdate as [_ ->]. simpl. lia.
Qed.

Lemma derived_offset_window_witness :
  exists start st',
    determine_start_date (sample_world secret_seed_0) "A dog finds a letter"
      None bare_state = (Returned start, st')
    /\ -180 <= PyDate.ordinal start - PyDate.ordinal noon_2025_07_21 <= 184.
Proof.
  exists (PyDate.Datetime (739453 + 184) 12 0 0 0),
         (State (environ bare_state) 1 (stdin bare_state) (trace bare_state)).
  assert (Hrun : determine_start_date (sample_world secret_seed_0)
                   "A dog finds a letter" None bare_state
                 = (Returned (PyDate.Datetime (739453 + 184) 12 0 0 0),
                    State (environ bare_state) 1 (stdin bare_state)
                          (trace bare_state)))
    by (vm_compute; reflexivity).
  split; [exact Hrun |].
  exact (proj2 (derived_offset_window (sample_world secret_seed_0)
                  "A dog finds a letter") _ _ _ Hrun).
Defined.

(** C6, the claim as stated fails: in a process with the zero hash key
    this premise gets the offset 184. *)
Lemma derived_offset_above_180 :
  ~ (-180
     <= offset_days (sample_world secret_seed_0) "A dog finds a letter"
     <= 180).
Proof.
  assert (H : offset_days (sample_world secret_seed_0) "A dog finds a letter"
              = 184) by (vm_compute; reflexivity).
  rewrite H. lia.
Qed.

(** C4: the same premise on the same day, in two processes that drew
    different hash keys (here those of [PYTHONHASHSEED=1] and [=2]), gets
    two different start dates. *)
Theorem start_date_differs_between_processes :
  let premise := "A detective solving a mysterious case in Tokyo" in
  offset_days (sample_world secret_seed_1) premise = 71
  /\ offset_days (sample_world secret_seed_2) premise = -80
  /\ (exists d1 d2,
        fst (determine_start_date (sample_world secret_seed_1) premise None
               bare_state) = Returned d1
        /\ fst (determine_start_date (sample_world secret_seed_2) premise None
                  bare_state) = Returned d2
        /\ PyDate.strftime_long d1 = "September 30, 2025"
        /\ PyDate.strftime_long d2 = "May 02, 2025").
Proof.
  cbv zeta. split; [vm_compute; reflexivity |].
  split; [vm_compute; reflexivity |].
  exists (PyDate.Datetime 739524 12 0 0 0), (PyDate.Datetime 739373 12 0 0 0).
  split; [vm_compute; reflexivity |]. split; [vm_compute; reflexivity |].
  split; vm_compute; reflexivity.
Qed.

(** Within one process the derivation only depends on the premise and on
    the day the clock shows. *)
Lemma start_date_same_process w initial_prompt st1 st2 d1 d2 st1' st2' :
  PyDate.ordinal (clock w (clock_reads st1))
  = PyDate.ordinal (clock w (clock_reads st2)) ->
  determine_start_date w initial_prompt None st1 = (Returned d1, st1') ->
  determine_start_date w initial_prompt None st2 = (Returned d2, st2') ->
  PyDate.strftime_long d1 = PyDate.strftime_long d2.
Proof.
  intros Hday H1 H2.
  unfold determine_start_date, bind, now, lift in H1, H2.
  inversion H1 as [[Hd1 Hs1]]. inversion H2 as [[Hd2 Hs2]].
  apply add_days_returned in Hd1. apply add_days_returned in Hd2.
  destruct Hd1 as [_ ->]. destruct Hd2 as [_ ->].
  unfold PyDate.strftime_long. simpl. rewrite Hday. reflexivity.
Qed.

(** ** A missing API key *)

(** C5: when the API key is neither in the environment nor in the [.env]
    file, [write_multi_day_story] ends with the [ValueError] of
    [load_openai_config] and has issued nothing, in particular no model
    call; and [load_openai_config] raises nothing but this error, which it
    raises only for a key that is missing or empty. *)
Theorem missing_api_key_aborts w initial_prompt num_days output_file
        story_start_date st :
  environ st !! "OPENAI_API_KEY" = None ->
  (forall file, dotenv_file w = Some file -> file !! "OPENAI_API_KEY" = None) ->
  (exists st',
      write_multi_day_story w initial_prompt num_days output_file
        story_start_date st
      = (Raised (ValueError (Some key_missing_message)), st')
      /\ issued st st' = []
      /\ model_calls (trace st') = model_calls (trace st))
  /\ forall st0 e st1,
       load_openai_config w st0 = (Raised e, st1) ->
       e = ValueError (Some key_missing_message)
       /\ (environ st1 !! "OPENAI_API_KEY" = None
           \/ environ st1 !! "OPENAI_API_KEY" = Some EmptyString).
Proof.
  intros Henv Hfile. split.
  - destruct (load_openai_config_run w st) as (st1 & Htr & _ & _ & Henv1 & Hcfg).
    assert (Hkey : environ st1 !! "OPENAI_API_KEY" = None).
    { rewrite Henv1. destruct (dotenv_file w) as [file |]; [| exact Henv].
      apply lookup_union_None. split; [exact Henv | apply Hfile; reflexivity]. }
    rewrite Hkey in Hcfg. exists st1.
    unfold write_multi_day_story, story_setup, bind. rewrite Hcfg.
    split; [reflexivity |]. rewrite Htr. split; [| reflexivity].
    apply (issued_app st st1 []). rewrite app_nil_r. exact Htr.
  - intros st0 e st1 Hraise.
    destruct (load_openai_config_run w st0) as (st2 & _ & _ & _ & _ & Hcfg).
    rewrite Hcfg in Hraise. clear Hcfg.
    destruct (environ st2 !! "OPENAI_API_KEY") as [key |] eqn:Hkey.
    + destruct key as [| c key]; simpl in Hraise; [| discriminate Hraise].
      inversion Hraise; subst. auto.
    + inversion Hraise; subst. auto.
Qed.

Lemma missing_api_key_aborts_witness :
  exists st',
    write_multi_day_story (sample_world secret_seed_0) "A cat" 2 None None
      bare_state
    = (Raised (ValueError (Some key_missing_message)), st')
    /\ issued bare_state st' = [].
Proof.
  assert (Henv : environ bare_state !! "OPENAI_API_KEY" = None)
    by reflexivity.
  assert (Hfile : forall file,
             dotenv_file (sample_world secret_seed_0) = Some file ->
             file !! "OPENAI_API_KEY" = None)
    by (intros file H; discriminate H).
  destruct (missing_api_key_aborts (sample_world secret_seed_0) "A cat" 2
              None None bare_state Henv Hfile)
    as [(st' & Hrun & Hnone & _) _].
  exists st'. split; assumption.
Defined.

(** ** The dispatcher: what is sent and what is taken back *)

Lemma append_cons (x : ascii) (a b : string) :
  String x a +:+ b = String x (a +:+ b).
Proof. reflexivity. Qed.

Lemma append_nil_l (a : string) : EmptyString +:+ a = a.
Proof. reflexivity. Qed.

Lemma append_assoc (a b c : string) : (a +:+ b) +:+ c = a +:+ (b +:+ c).
Proof.
  induction a as [| x a IH]; [reflexivity |].
  rewrite !append_cons, IH. reflexivity.
Qed.

Lemma append_nil_r (a : string) : a +:+ EmptyString = a.
Proof.
  induction a as [| x a IH]; [reflexivity |].
  rewrite append_cons, IH. reflexivity.
Qed.

Lemma concat_app (l1 l2 : list string) :
  PyStr.concat (l1 ++ l2) = PyStr.concat l1 +:+ PyStr.concat l2.
Proof.
  induction l1 as [| x l1 IH]; simpl; [reflexivity |].
  unfold PyStr.concat in *. simpl. rewrite IH, append_assoc. reflexivity.
Qed.

Lemma add_parts_concat parts : forall output_text,
  add_parts output_text parts
  = output_text +:+ PyStr.concat (part_texts parts).
Proof.
  unfold add_parts, part_texts.
  induction parts as [| part parts IH]; intros output_text; simpl.
  - symmetry. apply append_nil_r.
  - rewrite IH. destruct (Part.text part) as [t |]; simpl.
    + apply append_assoc.
    + reflexivity.
Qed.

Lemma add_item_concat output_text item :
  add_item output_text item
  = output_text +:+ PyStr.concat (item_texts item).
Proof.
  unfold add_item, item_texts. destruct (is_message item).
  - destruct (Item.content item) as [parts |];
      [apply add_parts_concat | symmetry; apply append_nil_r].
  - destruct (Item.text item) as [t |]; simpl.
    + rewrite append_nil_r. reflexivity.
    + symmetry. apply append_nil_r.
Qed.

Lemma output_loop_concat items : forall output_text,
  fold_left add_item items output_text
  = output_text +:+ PyStr.concat (flat_map item_texts items).
Proof.
  induction items as [| item items IH]; intros output_text; simpl.
  - symmetry. apply append_nil_r.
  - rewrite IH, add_item_concat, concat_app, append_assoc. reflexivity.
Qed.

(** The loop of the script computes the three-step extraction in which
    every item contributes [item_texts]. *)
Lemma extract_text_three_step response :
  extract_text response = three_step item_texts response.
Proof.
  unfold extract_text, three_step. cbn [first_nonempty].
  assert (Hloop : match Response.output response with
                  | Some (item :: items) =>
                      fold_left add_item (item :: items) EmptyString
                  | _ => EmptyString
                  end
                  = PyStr.concat
                      (flat_map item_texts
                         match Response.output response with
                         | Some items => items
                         | None => []
                         end)).
  { destruct (Response.output response) as [[| item items] |];
      try reflexivity.
    rewrite output_loop_concat. reflexivity. }
  rewrite Hloop.
  destruct (Response.output_text response) as [t |]; simpl;
    destruct (PyStr.truthy (PyStr.concat _)); reflexivity.
Qed.

(** C7, as amended: under the reasoning convention [call_llm] returns the
    first of these that is not empty: (1) the [output_text] field, if
    there is one, (2) the concatenation, over the output items in order,
    of the text parts of each message-type item and of the own text of
    each other item that has one, (3) the stringified response. *)
Theorem reasoning_text_extraction w model messages config st response :
  is_gpt5 model = true ->
  responses_create w (calls_so_far st) model (input_text messages)
    (Config.reasoning_effort config) (Config.verbosity config)
  = Returned response ->
  fst (call_llm w model messages config st)
  = Returned (three_step item_texts response).
Proof.
  intros Hgpt5 Hresponse. rewrite call_llm_run. unfold answer. simpl.
  rewrite Hgpt5, Hresponse, extract_text_three_step. reflexivity.
Qed.

Lemma reasoning_text_extraction_witness :
  fst (call_llm reasoning_world "gpt-5" [Message.Make "user" "hi"]
         sample_config bare_state)
  = Returned "thinking aloud".
Proof.
  exact (reasoning_text_extraction reasoning_world "gpt-5"
           [Message.Make "user" "hi"] sample_config bare_state reasoning_only
           eq_refl eq_refl).
Defined.

(** C7, the claim as stated fails: for a response whose only item is not
    a message but has a text, the three steps of the claim end in the
    stringified response, while [call_llm] returns the text of the item. *)
Lemma reasoning_text_not_only_messages :
  extract_text_claimed reasoning_only = "<Response>"
  /\ fst (call_llm reasoning_world "gpt-5" [Message.Make "user" "hi"]
            sample_config bare_state)
     <> Returned (extract_text_claimed reasoning_only).
Proof. split; [reflexivity |]. vm_compute. discriminate. Qed.

(** Where no item other than a message has a text of its own, the claim
    and the script agree. *)
Lemma extract_text_claimed_agrees response :
  (forall items item,
      Response.output response = Some items -> In item items ->
      is_message item = false -> Item.text item = None) ->
  extract_text response = extract_text_claimed response.
Proof.
  intros Hno. rewrite extract_text_three_step.
  unfold extract_text_claimed, three_step.
  destruct (Response.output response) as [items |]; [| reflexivity].
  specialize (Hno items).
  assert (Hsame : flat_map item_texts items
                  = flat_map message_item_texts items).
  { induction items as [| item items IH]; [reflexivity |].
    cbn [flat_map]. f_equal.
    - unfold item_texts, message_item_texts.
      destruct (is_message item) eqn:E; [reflexivity |].
      rewrite (Hno item eq_refl (or_introl eq_refl) E). reflexivity.
    - apply IH. intros item' _ Hin.
      apply Hno; [reflexivity | right; exact Hin]. }
  rewrite Hsame. reflexivity.
Qed.

(** C8, as amended: under the reasoning convention a transcript of one
    entry is sent as the bare content of that entry, without its role;
    any other transcript is sent as one string, its entries written
    [role: content] and joined by blank lines. *)
Theorem reasoning_input_flattening w model messages config st :
  is_gpt5 model = true ->
  issued st (snd (call_llm w model messages config st))
  = [ResponsesCreate model
       (match messages with
        | [msg] => Message.content msg
        | _ => input_text_claimed messages
        end)
       (Config.reasoning_effort config) (Config.verbosity config)].
Proof.
  intros Hgpt5. rewrite call_llm_run. simpl snd.
  rewrite (issued_app st _ [request model messages config]) by reflexivity.
  unfold request. rewrite Hgpt5. reflexivity.
Qed.

Lemma reasoning_input_flattening_witness :
  issued bare_state
    (snd (call_llm (sample_world secret_seed_0) "gpt-5"
            [Message.Make "user" "hi"; Message.Make "assistant" "ho"]
            sample_config bare_state))
  = [ResponsesCreate "gpt-5"
       ("user: hi" +:+ PyStr.nl +:+ PyStr.nl +:+ "assistant: ho")
       "medium" "medium"].
Proof.
  exact (reasoning_input_flattening (sample_world secret_seed_0) "gpt-5"
           [Message.Make "user" "hi"; Message.Make "assistant" "ho"]
           sample_config bare_state eq_refl).
Defined.

(** C8, the claim as stated fails: the transcript of one entry, which is
    what the storyboard call of every run sends, goes out without the
    role prefix. *)
Lemma single_entry_sent_bare :
  input_text_claimed [Message.Make "user" "hi"] = "user: hi"
  /\ issued bare_state
       (snd (call_llm (sample_world secret_seed_0) "gpt-5"
               [Message.Make "user" "hi"] sample_config bare_state))
     = [ResponsesCreate "gpt-5" "hi" "medium" "medium"]
  /\ issued bare_state
       (snd (call_llm (sample_world secret_seed_0) "gpt-5"
               [Message.Make "user" "hi"] sample_config bare_state))
     <> [ResponsesCreate "gpt-5"
           (input_text_claimed [Message.Make "user" "hi"])
           "medium" "medium"].
Proof.
  split; [reflexivity |]. split; [reflexivity |]. vm_compute. discriminate.
Qed.

(** ** Interactive mode *)

Lemma truthy_rev_app s : forall acc,
  PyStr.truthy (String.rev_app s acc) = PyStr.truthy s || PyStr.truthy acc.
Proof.
  induction s as [| c s IH]; intros acc; simpl; [reflexivity |].
  rewrite IH. simpl. apply orb_true_r.
Qed.

Lemma whitespace_only_rev_app s : forall acc,
  whitespace_only (String.rev_app s acc)
  = whitespace_only s && whitespace_only acc.
Proof.
  induction s as [| c s IH]; intros acc; simpl; [reflexivity |].
  rewrite IH. simpl. destruct (PyStr.isspace c), (whitespace_only s);
    reflexivity.
Qed.

Lemma lstrip_truthy s :
  PyStr.truthy (PyStr.lstrip s) = negb (whitespace_only s).
Proof.
  induction s as [| c s IH]; simpl; [reflexivity |].
  destruct (PyStr.isspace c); [exact IH | reflexivity].
Qed.

Lemma whitespace_only_lstrip s :
  whitespace_only (PyStr.lstrip s) = whitespace_only s.
Proof.
  induction s as [| c s IH]; simpl; [reflexivity |].
  destruct (PyStr.isspace c) eqn:E; [exact IH |].
  simpl. rewrite E. reflexivity.
Qed.

(** [strip] leaves nothing exactly of the texts made of white space. *)
Lemma strip_truthy s :
  PyStr.truthy (PyStr.strip s) = negb (whitespace_only s).
Proof.
  unfold PyStr.strip, PyStr.rev, String.rev.
  rewrite truthy_rev_app, orb_false_r, lstrip_truthy.
  rewrite whitespace_only_rev_app, andb_true_r, whitespace_only_lstrip.
  reflexivity.
Qed.

(** C10: in interactive mode, with two lines typed, the story is written
    for the stripped first line, or, when that line is empty or white
    space only, for the default premise, which is the sentence about the
    software developer and the bug, and for the number of days the second
    line reads as, or for 3 days when [int] rejects it; the run goes on
    into [write_multi_day_story] in every case. *)
Theorem interactive_defaults w st line1 line2 rest :
  stdin st = line1 :: line2 :: rest ->
  interactive_story_writer w st
  = write_multi_day_story w
      (if whitespace_only line1
       then "A software developer discovers a mysterious bug that seems to change reality"
       else PyStr.strip line1)
      (match PyInt.parse (PyStr.strip line2) with
       | Some n => n
       | None => 3
       end)
      None None
      (State (environ st) (clock_reads st) rest (trace st)).
Proof.
  intros Hin. unfold interactive_story_writer.
  unfold bind at 1. unfold input at 1. rewrite Hin.
  rewrite strip_truthy, negb_involutive.
  unfold bind at 1. unfold except_ValueError, bind at 1, input, lift, ret.
  cbn [stdin]. unfold PyInt.int.
  destruct (PyInt.parse (PyStr.strip line2)) as [n |]; reflexivity.
Qed.

Lemma interactive_defaults_witness :
  interactive_story_writer (sample_world secret_seed_0)
    (sample_state "gpt-4o" ["   "; "three"])
  = write_multi_day_story (sample_world secret_seed_0)
      "A software developer discovers a mysterious bug that seems to change reality"
      3 None None (sample_state "gpt-4o" []).
Proof.
  exact (interactive_defaults (sample_world secret_seed_0)
           (sample_state "gpt-4o" ["   "; "three"]) "   " "three" []
           eq_refl).
Defined.

(** ** Runs that come to their end

    With an API key, a start date, dates that stay in the calendar and
    endpoints that answer, [write_multi_day_story] returns. *)

Lemma story_setup_returns w initial_prompt num_days output_file
      story_start_date st cfg st1 start :
  load_openai_config w st = (Returned cfg, st1) ->
  match story_start_date with
  | Some text => PyDate.strptime_ymd text
  | None =>
      PyDate.add_days (clock w (clock_reads st))
        (offset_days w initial_prompt)
  end = Returned start ->
  (forall i h, exists text,
      answer w i (Config.model cfg) h cfg = Returned text) ->
  exists l st',
    story_setup w initial_prompt num_days output_file story_start_date st
    = (Returned l, st')
    /\ config l = cfg /\ model l = Config.model cfg /\ start_date l = start.
Proof.
  intros Hcfg Hstart Hanswer. unfold story_setup.
  destruct (load_openai_config_run w st) as (st1' & _ & Hck1 & _ & _ & Hcfg').
  rewrite Hcfg in Hcfg'. inversion Hcfg' as [[Hc Hst]]. subst st1'.
  unfold bind at 1. rewrite Hcfg.
  destruct (setup_litellm_run cfg st1) as (st2 & Hsetup & _ & Hck2 & _).
  unfold bind at 1. rewrite Hsetup.
  destruct (determine_start_date_run w initial_prompt story_start_date st2)
    as (st3 & Hdate & _).
  unfold bind at 1. rewrite Hdate, Hck2, Hck1, Hstart.
  unfold bind at 1.
  destruct ((match output_file with
             | Some name => ret name
             | None =>
                 timestamp <- now w ;;
                 ret ("story_openai_" +:+ PyDate.strftime_stamp timestamp
                      +:+ ".md")
             end) st3) as [[path | e] st4] eqn:Hout.
  2: { destruct output_file; unfold bind, now, ret in Hout; discriminate Hout. }
  unfold bind at 1. rewrite call_llm_run.
  destruct (Hanswer (calls_so_far st4)
              (append [] (Message.Make "user"
                            (storyboard_prompt initial_prompt num_days
                               (PyDate.strftime_long start)))))
    as [text Htext].
  rewrite Htext. unfold bind, now, ret. eexists. eexists.
  split; [reflexivity |]. repeat split.
Qed.

Lemma day_loop_returns w days :
  forall l st,
    Forall (fun d =>
              PyDate.min_ordinal
              <= PyDate.ordinal (start_date l) + (d - 1)
              <= PyDate.max_ordinal) days ->
    (forall i h, exists text, answer w i (model l) h (config l) = Returned text) ->
    exists l' st',
      for_each days (story_day w) l st = (Returned l', st')
      /\ start_date l' = start_date l /\ output_path l' = output_path l.
Proof.
  induction days as [| d rest IH]; intros l st Hdates Hanswer.
  - exists l, st. repeat split.
  - inversion Hdates as [| ? ? Hd Hrest]; subst.
    cbn [for_each]. unfold bind at 1. unfold story_day at 1.
    unfold bind at 1, lift. rewrite (add_days_in_range _ _ Hd).
    unfold bind at 1. rewrite call_llm_run.
    destruct (Hanswer (calls_so_far st)
                (append (conversation_history l)
                   (Message.Make "user"
                      (day_prompt d
                         (PyDate.strftime_day
                            (PyDate.Datetime
                               (PyDate.ordinal (start_date l) + (d - 1))
                               (PyDate.hour (start_date l))
                               (PyDate.minute (start_date l))
                               (PyDate.second (start_date l))
                               (PyDate.microsecond (start_date l))))))))
      as [text Htext].
    rewrite Htext. unfold ret at 1.
    match goal with
    | |- context [for_each rest (story_day w) ?l1 ?st1] =>
        destruct (IH l1 st1) as (l' & st' & Hrun & Hs & Hp)
    end; [exact Hrest | exact Hanswer |].
    exists l', st'. rewrite Hrun. repeat split; assumption.
Qed.

Lemma write_multi_day_story_returns w initial_prompt num_days output_file
        story_start_date st cfg st1 start :
  load_openai_config w st = (Returned cfg, st1) ->
  match story_start_date with
  | Some text => PyDate.strptime_ymd text
  | None =>
      PyDate.add_days (clock w (clock_reads st))
        (offset_days w initial_prompt)
  end = Returned start ->
  PyDate.min_ordinal <= PyDate.ordinal start ->
  PyDate.min_ordinal
  <= PyDate.ordinal start + (num_days - 1)
  <= PyDate.max_ordinal ->
  (forall i h, exists text,
      answer w i (Config.model cfg) h cfg = Returned text) ->
  exists st',
    write_multi_day_story w initial_prompt num_days output_file
      story_start_date st = (Returned tt, st').
Proof.
  intros Hcfg Hstart Hmin Hend Hanswer. unfold write_multi_day_story.
  destruct (story_setup_returns w initial_prompt num_days output_file
              story_start_date st cfg st1 start Hcfg Hstart Hanswer)
    as (l & st2 & Hsetup & Hc & Hm & Hs).
  unfold bind at 1. rewrite Hsetup.
  destruct (day_loop_returns w (py_range 1 (num_days + 1)) l st2)
    as (l' & st3 & Hloop & Hs' & _).
  { rewrite Hs. apply List.Forall_forall. intros d Hd.
    unfold py_range in Hd. apply in_map_iff in Hd.
    destruct Hd as (i & <- & Hi). apply in_seq in Hi. lia. }
  { rewrite Hc, Hm. exact Hanswer. }
  unfold bind at 1. rewrite Hloop, story_finish_run, Hs', Hs.
  rewrite (add_days_in_range _ _ Hend). eexists. reflexivity.
Qed.

(** * Further properties of the story writer *)

(** ** Configuration *)

Lemma effective_environ w st st1 name :
  environ st1 = match dotenv_file w with
                | Some file => environ st ∪ file
                | None => environ st
                end ->
  environ st1 !! name = setting w st name.
Proof.
  intros ->. unfold setting. destruct (dotenv_file w) as [file |].
  - rewrite lookup_union.
    destruct (environ st !! name), (file !! name); reflexivity.
  - destruct (environ st !! name); reflexivity.
Qed.

(** X1: the configuration [load_openai_config] returns takes every
    setting from the process environment, else from the [.env] file, else
    (for model, effort and verbosity) from the default; its key is never
    empty and its provider is always OpenAI. *)
Theorem config_environment_then_file_then_default w st cfg st1 :
  load_openai_config w st = (Returned cfg, st1) ->
  setting w st "OPENAI_API_KEY" = Some (Config.api_key cfg)
  /\ Config.api_key cfg <> EmptyString
  /\ Config.model cfg = default "gpt-4o" (setting w st "OPENAI_MODEL")
  /\ Config.reasoning_effort cfg
     = default "medium" (setting w st "OPENAI_REASONING_EFFORT")
  /\ Config.verbosity cfg = default "medium" (setting w st "OPENAI_VERBOSITY")
  /\ Config.provider cfg = "OpenAI".
Proof.
  intros Hrun.
  destruct (load_openai_config_run w st) as (st2 & _ & _ & _ & Henv & Hcfg).
  rewrite Hcfg in Hrun. clear Hcfg.
  rewrite !(effective_environ w st st2 _ Henv) in Hrun.
  destruct (setting w st "OPENAI_API_KEY") as [key |]; [| discriminate Hrun].
  destruct key as [| c key]; simpl in Hrun; [discriminate Hrun |].
  inversion Hrun; subst. simpl. repeat split. discriminate.
Qed.

Lemma config_environment_then_file_then_default_witness :
  exists cfg st1,
    load_openai_config dotenv_world
      (State {["OPENAI_MODEL" := "gpt-4o-mini"]} 0 [] [])
    = (Returned cfg, st1)
    /\ Config.api_key cfg = "sk-file"
    /\ Config.model cfg = "gpt-4o-mini"
    /\ Config.verbosity cfg = "medium".
Proof.
  pose (run := load_openai_config dotenv_world
                 (State {["OPENAI_MODEL" := "gpt-4o-mini"]} 0 [] [])).
  assert (Hrun : run
                 = (Returned (Config.Make "sk-file" "gpt-4o-mini" "OpenAI"
                                "medium" "medium"), snd run))
    by (vm_compute; reflexivity).
  destruct (config_environment_then_file_then_default _ _ _ _ Hrun)
    as (_ & _ & Hmodel & _ & Hverb & _).
  eexists. exists (snd run). split; [exact Hrun |]. repeat split.
Defined.

(** X2: [load_openai_config] returns exactly when the API key, looked up
    in the environment and then in the [.env] file, is a non-empty text;
    in every other case, that is exactly when the key is missing or
    empty, it raises the [ValueError] with the message that
    OPENAI_API_KEY was not found in the environment variables, and it
    raises nothing else. *)
Theorem config_loads_iff_key_set w st :
  ((exists cfg st1, load_openai_config w st = (Returned cfg, st1))
   <-> (exists key, setting w st "OPENAI_API_KEY" = Some key
                    /\ key <> EmptyString))
  /\ ((exists st1,
         load_openai_config w st
         = (Raised (ValueError
                      (Some "OPENAI_API_KEY not found in environment variables")),
            st1))
      <-> (setting w st "OPENAI_API_KEY" = None
           \/ setting w st "OPENAI_API_KEY" = Some EmptyString))
  /\ (forall e st1,
        load_openai_config w st = (Raised e, st1) ->
        e = ValueError
              (Some "OPENAI_API_KEY not found in environment variables")).
Proof.
  destruct (load_openai_config_run w st) as (st2 & _ & _ & _ & Henv & Hcfg).
  rewrite Hcfg. clear Hcfg.
  rewrite !(effective_environ w st st2 _ Henv).
  destruct (setting w st "OPENAI_API_KEY") as [[| c key] |]; simpl;
    (split; [split | split; [split |]]).
  - intros (cfg & st1 & H). discriminate H.
  - intros (key & H & Hne). inversion H; subst. destruct (Hne eq_refl).
  - intros _. right. reflexivity.
  - intros _. eexists. reflexivity.
  - intros e st1 H. injection H as <- _. reflexivity.
  - intros _. eexists. split; [reflexivity | discriminate].
  - intros _. eexists. eexists. reflexivity.
  - intros (st1 & H). discriminate H.
  - intros [H | H]; discriminate H.
  - intros e st1 H. discriminate H.
  - intros (cfg & st1 & H). discriminate H.
  - intros (key & H & _). discriminate H.
  - intros _. left. reflexivity.
  - intros _. eexists. reflexivity.
  - intros e st1 H. injection H as <- _. reflexivity.
Qed.

(** X3: an API key that is set to the empty text in the process
    environment counts as missing, even when the [.env] file holds a key:
    the run ends with the [ValueError] of [load_openai_config] and nothing
    is sent or written. *)
Theorem empty_environment_key_hides_dotenv_key w initial_prompt num_days
        output_file story_start_date st :
  environ st !! "OPENAI_API_KEY" = Some EmptyString ->
  exists st',
    write_multi_day_story w initial_prompt num_days output_file
      story_start_date st
    = (Raised (ValueError (Some key_missing_message)), st')
    /\ issued st st' = [].
Proof.
  intros Hkey.
  destruct (load_openai_config_run w st) as (st1 & Htr & _ & _ & Henv & Hcfg).
  rewrite (effective_environ w st st1 _ Henv) in Hcfg.
  unfold setting in Hcfg. rewrite Hkey in Hcfg. simpl in Hcfg.
  exists st1. unfold write_multi_day_story, story_setup, bind. rewrite Hcfg.
  split; [reflexivity |].
  apply (issued_app st st1 []). rewrite app_nil_r. exact Htr.
Qed.

Lemma empty_environment_key_hides_dotenv_key_witness :
  exists st',
    write_multi_day_story dotenv_world "A cat" 2 None None empty_key_state
    = (Raised (ValueError (Some key_missing_message)), st')
    /\ issued empty_key_state st' = [].
Proof.
  exact (empty_environment_key_hides_dotenv_key dotenv_world "A cat" 2 None
           None empty_key_state eq_refl).
Defined.

(** ** The environment of the process *)

Lemma env_stable_bind {A B} (m : M A) (k : A -> M B) :
  env_stable m -> (forall a, env_stable (k a)) -> env_stable (bind m k).
Proof.
  intros Hm Hk st. unfold bind. specialize (Hm st).
  destruct (m st) as [[a | e] st1]; simpl in *.
  - rewrite (Hk a st1). exact Hm.
  - exact Hm.
Qed.

Lemma env_stable_ret {A} (a : A) : env_stable (ret a).
Proof. intros st. reflexivity. Qed.

Lemma env_stable_lift {A} (o : outcome A) : env_stable (lift o).
Proof. intros st. reflexivity. Qed.

Lemma env_stable_now w : env_stable (now w).
Proof. intros st. reflexivity. Qed.

Lemma env_stable_call_llm w model messages cfg :
  env_stable (call_llm w model messages cfg).
Proof. intros st. rewrite call_llm_run. reflexivity. Qed.

Lemma env_stable_determine_start_date w initial_prompt story_start_date :
  env_stable (determine_start_date w initial_prompt story_start_date).
Proof.
  unfold determine_start_date. destruct story_start_date.
  - apply env_stable_lift.
  - apply env_stable_bind; [apply env_stable_now | intros; apply env_stable_lift].
Qed.

Lemma env_stable_story_day w day_num l : env_stable (story_day w day_num l).
Proof.
  unfold story_day.
  apply env_stable_bind; [apply env_stable_lift | intros current].
  apply env_stable_bind; [apply env_stable_call_llm | intros text].
  apply env_stable_ret.
Qed.

Lemma env_stable_for_each {S : Type} (body : Z -> S -> M S) items :
  (forall x s, env_stable (body x s)) ->
  forall s, env_stable (for_each items body s).
Proof.
  intros Hbody. induction items as [| x items IH]; intros s; simpl.
  - apply env_stable_ret.
  - apply env_stable_bind; [apply Hbody | exact IH].
Qed.

Lemma env_stable_story_finish num_days l : env_stable (story_finish num_days l).
Proof. intros st. rewrite story_finish_run. reflexivity. Qed.

Lemma story_setup_environ w initial_prompt num_days output_file
      story_start_date st :
  environ (snd (story_setup w initial_prompt num_days output_file
                  story_start_date st))
  = match dotenv_file w with
    | Some file => environ st ∪ file
    | None => environ st
    end.
Proof.
  destruct (load_openai_config_run w st) as (st1 & _ & _ & _ & Henv & Hcfg).
  rewrite <- Henv. unfold story_setup. unfold bind at 1. rewrite Hcfg.
  destruct (environ st1 !! "OPENAI_API_KEY") as [key |] eqn:Hkey;
    [| reflexivity].
  destruct (PyStr.truthy key); [| reflexivity].
  unfold bind at 1, setup_litellm. unfold bind at 1, setenv, ret. cbv beta.
  match goal with
  | |- environ (snd (bind ?m ?k ?st2)) = _ =>
      transitivity (environ st2);
        [apply (env_stable_bind m k) | simpl; apply insert_id; exact Hkey]
  end.
  - apply env_stable_determine_start_date.
  - intros start. apply env_stable_bind.
    + destruct output_file; [apply env_stable_ret |].
      apply env_stable_bind; [apply env_stable_now | intros; apply env_stable_ret].
    + intros path. apply env_stable_bind; [apply env_stable_call_llm |].
      intros text. apply env_stable_bind; [apply env_stable_now |].
      intros generated. apply env_stable_ret.
Qed.

(** X4: whatever its outcome, a run of [write_multi_day_story] leaves the
    environment of the process as it found it, merged with the [.env]
    file; no variable that was set changes its value (writing the API key
    back in [setup_litellm] changes nothing). *)
Theorem run_keeps_environment w initial_prompt num_days output_file
        story_start_date st :
  let st' := snd (write_multi_day_story w initial_prompt num_days output_file
                    story_start_date st) in
  environ st' = match dotenv_file w with
                | Some file => environ st ∪ file
                | None => environ st
                end
  /\ forall name value,
       environ st !! name = Some value -> environ st' !! name = Some value.
Proof.
  cbv zeta.
  assert (H : environ (snd (write_multi_day_story w initial_prompt num_days
                              output_file story_start_date st))
              = match dotenv_file w with
                | Some file => environ st ∪ file
                | None => environ st
                end).
  { rewrite <- story_setup_environ with (initial_prompt := initial_prompt)
      (num_days := num_days) (output_file := output_file)
      (story_start_date := story_start_date).
    unfold write_multi_day_story. unfold bind at 1.
    destruct (story_setup _ _ _ _ _ _) as [[l | e] st1]; [| reflexivity].
    simpl snd at 2.
    apply (env_stable_bind
             (for_each (py_range 1 (num_days + 1)) (story_day w) l)
             (story_finish num_days)).
    - apply env_stable_for_each. intros. apply env_stable_story_day.
    - intros. apply env_stable_story_finish. }
  split; [exact H |]. intros name value Hset. rewrite H.
  destruct (dotenv_file w) as [file |]; [| exact Hset].
  apply lookup_union_Some_l. exact Hset.
Qed.

(** ** More on the dispatcher *)

(** X5: for a model name without [gpt-5] in it, [call_llm] hands the
    transcript over as it is, in one chat-completion request, and returns
    the content of the first choice; the reasoning settings play no part. *)
Theorem standard_convention_first_choice w model messages cfg st first rest :
  is_gpt5 model = false ->
  completion w (calls_so_far st) model messages = Returned (first :: rest) ->
  call_llm w model messages cfg st
  = (Returned first, push st (Completion model messages)).
Proof.
  intros Hstd Hanswer. rewrite call_llm_run. unfold answer, request.
  rewrite Hstd, Hanswer. reflexivity.
Qed.

Lemma standard_convention_first_choice_witness :
  call_llm (sample_world secret_seed_0) "gpt-4o"
    [Message.Make "user" "hi"; Message.Make "assistant" "ho"]
    sample_config bare_state
  = (Returned "reply 0",
     push bare_state
       (Completion "gpt-4o"
          [Message.Make "user" "hi"; Message.Make "assistant" "ho"])).
Proof.
  exact (standard_convention_first_choice (sample_world secret_seed_0)
           "gpt-4o" [Message.Make "user" "hi"; Message.Make "assistant" "ho"]
           sample_config bare_state "reply 0" [] eq_refl eq_refl).
Defined.

(** X6: [call_llm] sends exactly one request, whether it returns or
    raises, and what an endpoint raises comes out of [call_llm] unchanged:
    there is no retry and no falling back on the other convention. *)
Theorem call_llm_single_request_no_retry w model messages cfg st :
  (exists ev,
      is_model_call ev = true
      /\ issued st (snd (call_llm w model messages cfg st)) = [ev])
  /\ (forall e,
        is_gpt5 model = true ->
        responses_create w (calls_so_far st) model (input_text messages)
          (Config.reasoning_effort cfg) (Config.verbosity cfg) = Raised e ->
        fst (call_llm w model messages cfg st) = Raised e)
  /\ (forall e,
        is_gpt5 model = false ->
        completion w (calls_so_far st) model messages = Raised e ->
        fst (call_llm w model messages cfg st) = Raised e).
Proof.
  rewrite call_llm_run. simpl fst. simpl snd. split; [| split].
  - exists (request model messages cfg).
    split; [apply request_is_model_call |].
    apply issued_app. reflexivity.
  - intros e Hgpt5 Hraise. unfold answer. rewrite Hgpt5, Hraise. reflexivity.
  - intros e Hstd Hraise. unfold answer. rewrite Hstd, Hraise. reflexivity.
Qed.

(** X7: under the standard convention an answer without any choice makes
    [call_llm] raise [IndexError], after the request has gone out. *)
Theorem standard_convention_no_choice w model messages cfg st :
  is_gpt5 model = false ->
  completion w (calls_so_far st) model messages = Returned [] ->
  call_llm w model messages cfg st
  = (Raised IndexError, push st (Completion model messages)).
Proof.
  intros Hstd Hanswer. rewrite call_llm_run. unfold answer, request.
  rewrite Hstd, Hanswer. reflexivity.
Qed.

Lemma standard_convention_no_choice_witness :
  call_llm reasoning_world "gpt-4o" [Message.Make "user" "hi"] sample_config
    bare_state
  = (Raised IndexError,
     push bare_state (Completion "gpt-4o" [Message.Make "user" "hi"])).
Proof.
  exact (standard_convention_no_choice reasoning_world "gpt-4o"
           [Message.Make "user" "hi"] sample_config bare_state
           eq_refl eq_refl).
Defined.

Lemma lower_app (a b : string) :
  PyStr.lower (a +:+ b) = PyStr.lower a +:+ PyStr.lower b.
Proof.
  induction a as [| c a IH]; [reflexivity |].
  rewrite append_cons. simpl PyStr.lower. rewrite IH. reflexivity.
Qed.

Lemma lower_app_inv (m x y : string) :
  PyStr.lower m = x +:+ y ->
  exists m1 m2, m = m1 +:+ m2 /\ PyStr.lower m1 = x /\ PyStr.lower m2 = y.
Proof.
  revert m. induction x as [| c x IH]; intros m H.
  - exists EmptyString, m. repeat split. exact H.
  - destruct m as [| d m]; [discriminate H |].
    simpl in H. rewrite append_cons in H. inversion H as [[Hc Hrest]].
    destruct (IH m Hrest) as (m1 & m2 & -> & H1 & H2).
    exists (String d m1), m2. repeat split; [| exact H2].
    simpl. rewrite H1. reflexivity.
Qed.

Lemma contains_prefix (sub s : string) :
  String.prefix sub s = true -> PyStr.contains sub s = true.
Proof.
  intros H. destruct s; cbn [PyStr.contains]; rewrite H; reflexivity.
Qed.

Lemma contains_app (sub a b : string) :
  PyStr.contains sub (a +:+ sub +:+ b) = true.
Proof.
  induction a as [| c a IH].
  - rewrite append_nil_l. apply contains_prefix, prefix_append.
  - rewrite append_cons. cbn [PyStr.contains]. rewrite IH. apply orb_true_r.
Qed.

Lemma prefix_split (sub s : string) :
  String.prefix sub s = true -> exists b, s = sub +:+ b.
Proof.
  revert s. induction sub as [| c sub IH]; intros s H.
  - exists s. reflexivity.
  - destruct s as [| d s]; [discriminate H |]. simpl in H.
    destruct (ascii_dec c d) as [-> | _]; [| discriminate H].
    destruct (IH s H) as [b ->]. exists b. reflexivity.
Qed.

Lemma contains_split (sub s : string) :
  PyStr.contains sub s = true -> exists a b, s = a +:+ sub +:+ b.
Proof.
  induction s as [| c s IH]; intros H.
  - cbn [PyStr.contains] in H. rewrite orb_false_r in H.
    apply prefix_split in H. destruct H as [b H].
    exists EmptyString, b. exact H.
  - cbn [PyStr.contains] in H. apply orb_true_iff in H. destruct H as [H | H].
    + apply prefix_split in H. destruct H as [b H].
      exists EmptyString, b. exact H.
    + destruct (IH H) as (a & b & ->). exists (String c a), b. reflexivity.
Qed.

(** X8: the reasoning convention is chosen exactly for the model names
    that hold [gpt-5] somewhere, in any mix of upper and lower case, with
    anything before and after it (a provider prefix, a size suffix). *)
Theorem reasoning_convention_iff_gpt5_inside model :
  is_gpt5 model = true
  <-> exists before name after,
        model = before +:+ name +:+ after /\ PyStr.lower name = "gpt-5".
Proof.
  unfold is_gpt5. split.
  - intros H. apply contains_split in H. destruct H as (a & b & H).
    apply lower_app_inv in H. destruct H as (m1 & m2 & -> & _ & H).
    apply lower_app_inv in H. destruct H as (m3 & m4 & -> & H & _).
    exists m1, m3, m4. split; [reflexivity | exact H].
  - intros (a & s & b & -> & Hs).
    rewrite !lower_app, Hs. apply contains_app.
Qed.

Lemma first_nonempty_not_empty candidates fallback :
  fallback <> EmptyString -> first_nonempty candidates fallback <> EmptyString.
Proof.
  intros Hne. induction candidates as [| c rest IH]; simpl; [exact Hne |].
  destruct c; simpl; [exact IH | discriminate].
Qed.

(** X9: under the reasoning convention [call_llm] never returns an empty
    text for a response whose stringified form is not empty. *)
Theorem reasoning_text_never_empty w model messages cfg st response :
  is_gpt5 model = true ->
  responses_create w (calls_so_far st) model (input_text messages)
    (Config.reasoning_effort cfg) (Config.verbosity cfg) = Returned response ->
  Response.str response <> EmptyString ->
  exists text,
    fst (call_llm w model messages cfg st) = Returned text
    /\ text <> EmptyString.
Proof.
  intros Hgpt5 Hresponse Hstr. rewrite call_llm_run. unfold answer. simpl.
  rewrite Hgpt5, Hresponse. eexists. split; [reflexivity |].
  rewrite extract_text_three_step. unfold three_step.
  apply first_nonempty_not_empty. exact Hstr.
Qed.

Lemma reasoning_text_never_empty_witness :
  exists text,
    fst (call_llm reasoning_world "gpt-5" [Message.Make "user" "hi"]
           sample_config bare_state) = Returned text
    /\ text <> EmptyString.
Proof.
  apply (reasoning_text_never_empty reasoning_world "gpt-5"
           [Message.Make "user" "hi"] sample_config bare_state reasoning_only
           eq_refl eq_refl).
  discriminate.
Defined.

(** ** More on the run of a story *)

(** X10: a start date that [strptime] does not read stops the run with an
    exception before anything is asked of the model or written. *)
Theorem unreadable_start_date_stops_run w initial_prompt num_days output_file
        text st e :
  PyDate.strptime_ymd text = Raised e ->
  exists e' st',
    write_multi_day_story w initial_prompt num_days output_file (Some text) st
    = (Raised e', st')
    /\ issued st st' = [].
Proof.
  intros Hdate. unfold write_multi_day_story. unfold bind at 1.
  destruct (story_setup w initial_prompt num_days output_file (Some text) st)
    as [r st1] eqn:Hsetup.
  apply story_setup_run in Hsetup.
  destruct Hsetup as [[Htr [e' ->]] | (cfg & start & _ & Hstart & _)].
  - exists e', st1. split; [reflexivity |].
    apply (issued_app st st1 []). rewrite app_nil_r. exact Htr.
  - rewrite Hdate in Hstart. discriminate Hstart.
Qed.

Lemma unreadable_start_date_stops_run_witness :
  exists e' st',
    write_multi_day_story (sample_world secret_seed_0) "A cat" 2 None
      (Some "21/07/2025") (sample_state "gpt-4o" [])
    = (Raised e', st')
    /\ issued (sample_state "gpt-4o" []) st' = [].
Proof.
  exact (unreadable_start_date_stops_run (sample_world secret_seed_0) "A cat"
           2 None "21/07/2025" (sample_state "gpt-4o" []) (ValueError None)
           eq_refl).
Defined.

Lemma determine_start_date_clock w initial_prompt story_start_date st :
  clock_reads (snd (determine_start_date w initial_prompt story_start_date st))
  = match story_start_date with
    | Some _ => clock_reads st
    | None => S (clock_reads st)
    end.
Proof.
  unfold determine_start_date, bind, now, lift.
  destruct story_start_date; reflexivity.
Qed.

(** The path the setup settles on. *)
Lemma story_setup_output_path w initial_prompt num_days output_file
      story_start_date st l st' :
  story_setup w initial_prompt num_days output_file story_start_date st
  = (Returned l, st') ->
  output_path l
  = match output_file with
    | Some name => name
    | None =>
        "story_openai_"
        +:+ PyDate.strftime_stamp
              (clock w (match story_start_date with
                        | Some _ => clock_reads st
                        | None => S (clock_reads st)
                        end))
        +:+ ".md"
    end.
Proof.
  unfold story_setup. intros H.
  apply bind_returned in H. destruct H as (cfg & st1 & Hcfg & H).
  destruct (load_openai_config_run w st) as (st1' & _ & Hck1 & _ & _ & Hcfg').
  rewrite Hcfg in Hcfg'. inversion Hcfg' as [[Hc Hst]]. subst st1'.
  apply bind_returned in H. destruct H as (model0 & st2 & Hsetup & H).
  destruct (setup_litellm_run cfg st1) as (st2' & Hsetup' & _ & Hck2 & _).
  rewrite Hsetup in Hsetup'. inversion Hsetup'; subst.
  apply bind_returned in H. destruct H as (start & st3 & Hdate & H).
  pose proof (determine_start_date_clock w initial_prompt story_start_date st2')
    as Hck3.
  rewrite Hdate in Hck3. simpl snd in Hck3. rewrite Hck2, Hck1 in Hck3.
  apply bind_returned in H. destruct H as (path & st4 & Hpath & H).
  apply bind_returned in H. destruct H as (text & st5 & _ & H).
  apply bind_returned in H. destruct H as (generated & st6 & _ & H).
  unfold ret in H. inversion H; subst. cbn [output_path].
  destruct output_file as [name |].
  - unfold ret in Hpath. inversion Hpath. reflexivity.
  - unfold bind, now, ret in Hpath. inversion Hpath.
    destruct story_start_date; rewrite Hck3; reflexivity.
Qed.

(** X11: a run that returns has written to the file it was given; when
    it was given none, to [story_openai_<YYYYmmdd_HHMMSS>.md], stamped
    with the clock as read just after the start date was settled. *)
Theorem story_written_to_the_given_file w initial_prompt num_days output_file
        story_start_date st st' :
  write_multi_day_story w initial_prompt num_days output_file story_start_date
    st = (Returned tt, st') ->
  exists document,
    writes (issued st st')
    = [WriteText
         (match output_file with
          | Some name => name
          | None =>
              "story_openai_"
              +:+ PyDate.strftime_stamp
                    (clock w (match story_start_date with
                              | Some _ => clock_reads st
                              | None => S (clock_reads st)
                              end))
              +:+ ".md"
          end)
         document].
Proof.
  intros Hrun. pose proof Hrun as Hshape.
  apply write_multi_day_story_run in Hshape. cbv zeta in Hshape.
  destruct Hshape as [(e & calls & He & _) | Hshape]; [discriminate He |].
  destruct Hshape as (cfg & start & generated & path & text0 & texts & Hshape).
  destruct Hshape as (_ & _ & _ & _ & _ & Htr & _).
  unfold write_multi_day_story in Hrun.
  apply bind_returned in Hrun. destruct Hrun as (l & st1 & Hsetup & Hrun).
  apply bind_returned in Hrun. destruct Hrun as (l' & st2 & Hloop & Hrun).
  apply story_setup_output_path in Hsetup.
  apply day_loop_returned in Hloop. destruct Hloop as (texts' & _ & -> & Htr2 & _).
  rewrite story_finish_run in Hrun. cbn [output_path] in Hrun.
  injection Hrun as _ Hst. pose proof Htr as Hlast.
  rewrite <- Hst in Hlast. unfold push in Hlast. cbn [trace] in Hlast.
  rewrite app_assoc in Hlast. apply app_inj_tail in Hlast.
  destruct Hlast as [_ Hlast]. injection Hlast as Hpath _.
  eexists. rewrite (issued_app _ _ _ Htr), writes_app, writes_of_calls
    by (apply requests_are_model_calls; intros; apply request_is_model_call).
  cbn [app writes List.filter is_write]. rewrite <- Hpath, Hsetup. reflexivity.
Qed.

Lemma story_written_to_the_given_file_witness :
  exists st' document,
    write_multi_day_story (sample_world secret_seed_0) "A cat" 1 None
      (Some "2025-07-21") (sample_state "gpt-4o" [])
    = (Returned tt, st')
    /\ writes (issued (sample_state "gpt-4o" []) st')
       = [WriteText "story_openai_20250721_120000.md" document].
Proof.
  pose (run := write_multi_day_story (sample_world secret_seed_0) "A cat" 1
                 None (Some "2025-07-21") (sample_state "gpt-4o" [])).
  assert (Hrun : run = (Returned tt, snd run)) by (vm_compute; reflexivity).
  destruct (story_written_to_the_given_file _ _ _ _ _ _ _ Hrun)
    as [document Hw].
  exists (snd run), document. split; [exact Hrun | exact Hw].
Defined.

(** X12: a run that has written the file has either returned or failed
    with [OverflowError] on the end date of its closing message; for a
    story of at least one day the second cannot happen, so there a written
    file means a run that returned. *)
Theorem written_file_means_finished_run w initial_prompt num_days output_file
        story_start_date st r st' :
  write_multi_day_story w initial_prompt num_days output_file story_start_date
    st = (r, st') ->
  writes (issued st st') <> [] ->
  (r = Returned tt \/ r = Raised OverflowError)
  /\ (1 <= num_days -> r = Returned tt).
Proof.
  intros Hrun Hwritten.
  unfold write_multi_day_story in Hrun. unfold bind at 1 in Hrun.
  destruct (story_setup _ _ _ _ _ _) as [[l | e] st1] eqn:Hsetup;
    apply story_setup_run in Hsetup.
  2: { exfalso. apply Hwritten. injection Hrun as _ <-.
       destruct Hsetup as [[Htr _] | (cfg & start & _ & _ & Htr & _)].
       - rewrite (issued_app st st1 []); [reflexivity |].
         rewrite app_nil_r. exact Htr.
       - rewrite (issued_app _ _ _ Htr). apply writes_of_calls.
         repeat constructor. apply request_is_model_call. }
  destruct Hsetup as [[_ [e He]] | (cfg & start & _ & _ & Htr1 & _)];
    [discriminate He |].
  unfold bind at 1 in Hrun.
  destruct (for_each _ _ _ _) as [[l' | e] st2] eqn:Hloop.
  2: { exfalso. apply Hwritten. injection Hrun as _ <-.
       apply day_loop_raised in Hloop.
       destruct Hloop as (calls & Hall & _ & Htr2).
       rewrite Htr1, <- app_assoc in Htr2.
       rewrite (issued_app _ _ _ Htr2). apply writes_of_calls.
       constructor; [apply request_is_model_call | exact Hall]. }
  apply day_loop_returned in Hloop.
  destruct Hloop as (texts' & _ & -> & _ & _ & Hdates).
  rewrite story_finish_run in Hrun. cbn [start_date] in Hrun.
  injection Hrun as <- _. split.
  - unfold PyDate.add_days. destruct (_ && _); auto.
  - intros HN. rewrite List.Forall_forall in Hdates.
    assert (Hin : In num_days (py_range 1 (num_days + 1))).
    { unfold py_range. apply in_map_iff. exists (Z.to_nat (num_days - 1)).
      split; [lia | apply in_seq; lia]. }
    apply Hdates in Hin. unfold story_date in Hin.
    cbn [PyDate.ordinal] in Hin.
    rewrite (add_days_in_range _ _ Hin). reflexivity.
Qed.

Lemma written_file_means_finished_run_witness :
  fst (write_multi_day_story (sample_world secret_seed_0) "A cat" 1
         (Some "cat.md") (Some "2025-07-21") (sample_state "gpt-4o" []))
  = Returned tt.
Proof.
  pose (run := write_multi_day_story (sample_world secret_seed_0) "A cat" 1
                 (Some "cat.md") (Some "2025-07-21")
                 (sample_state "gpt-4o" [])).
  assert (Hrun : run = (fst run, snd run)) by (destruct run; reflexivity).
  assert (Hw : writes (issued (sample_state "gpt-4o" []) (snd run)) <> [])
    by (vm_compute; discriminate).
  exact (proj2 (written_file_means_finished_run _ _ _ _ _ _ _ _ Hrun Hw)
           ltac:(lia)).
Defined.

(** The edge X12 leaves open: a story of no day that starts on the first
    day of the calendar writes its file and then fails on its end date. *)
Example file_written_then_overflow :
  let run := write_multi_day_story (sample_world secret_seed_0) "A cat" 0
               (Some "cat.md") (Some "0001-01-01")
               (sample_state "gpt-4o" []) in
  fst run = Raised OverflowError
  /\ length (writes (trace (snd run))) = 1%nat.
Proof. cbv zeta. split; vm_compute; reflexivity. Qed.

Lemma day_exchange_roles start (days : list (Z * string)) :
  map Message.role (flat_map (day_exchange start) days)
  = List.concat (repeat ["user"; "assistant"] (length days)).
Proof.
  induction days as [| d days IH]; [reflexivity |].
  cbn [flat_map length repeat List.concat]. rewrite map_app, IH. reflexivity.
Qed.

(** X13: at the end of the setup and of every day the transcript
    alternates strictly between the two roles, starting with [user]:
    after day k it is k+1 pairs of a [user] entry and an [assistant]
    entry. *)
Theorem transcript_roles_alternate w initial_prompt num_days output_file
        story_start_date k st l st' :
  0 <= k ->
  story_after_day w initial_prompt num_days output_file story_start_date k st
  = (Returned l, st') ->
  map Message.role (conversation_history l)
  = List.concat (repeat ["user"; "assistant"] (Z.to_nat (k + 1))).
Proof.
  intros Hk Hrun. unfold story_after_day in Hrun.
  apply bind_returned in Hrun. destruct Hrun as (l0 & st1 & Hsetup & Hloop).
  apply story_setup_run in Hsetup.
  destruct Hsetup as [[_ [e He]] | (cfg & start & _ & _ & Hsetup)];
    [discriminate He |].
  cbv zeta in Hsetup.
  destruct Hsetup as (_ & text0 & generated & path & _ & ->).
  apply day_loop_returned in Hloop.
  destruct Hloop as (texts & Hlen & -> & _).
  cbn [conversation_history start_date].
  rewrite map_app, day_exchange_roles, length_combine, Hlen, Nat.min_id.
  rewrite py_range_days_length by exact Hk.
  replace (Z.to_nat (k + 1)) with (S (Z.to_nat k)) by lia. reflexivity.
Qed.

Lemma transcript_roles_alternate_witness :
  exists l st',
    story_after_day (sample_world secret_seed_0) "A cat" 3 None None 1
      (sample_state "gpt-5" []) = (Returned l, st')
    /\ map Message.role (conversation_history l)
       = ["user"; "assistant"; "user"; "assistant"].
Proof.
  pose (run := story_after_day (sample_world secret_seed_0) "A cat" 3 None
                 None 1 (sample_state "gpt-5" [])).
  assert (Hrun : exists l, run = (Returned l, snd run)).
  { destruct run as [[l | e] st'] eqn:E.
    - exists l. reflexivity.
    - exfalso.
      assert (H : match fst run with Returned _ => False | Raised _ => True end)
        by (rewrite E; exact I).
      vm_compute in H. exact H. }
  destruct Hrun as [l Hrun]. exists l, (snd run). split; [exact Hrun |].
  exact (transcript_roles_alternate _ _ 3 _ _ 1 _ _ _ ltac:(lia) Hrun).
Defined.

(** X14: the day loop only ever appends: whatever days it runs through,
    the transcript and the document it started from are prefixes of those
    it ends with, two entries and two fragments longer per day, and the
    configuration, model, start date and output path are untouched. *)
Theorem day_loop_only_appends w days l st l' st' :
  for_each days (story_day w) l st = (Returned l', st') ->
  conversation_history l `prefix_of` conversation_history l'
  /\ story_content l `prefix_of` story_content l'
  /\ length (conversation_history l')
     = (length (conversation_history l) + 2 * length days)%nat
  /\ length (story_content l')
     = (length (story_content l) + 2 * length days)%nat
  /\ config l' = config l /\ model l' = model l
  /\ start_date l' = start_date l /\ output_path l' = output_path l.
Proof.
  intros Hloop. apply day_loop_returned in Hloop.
  destruct Hloop as (texts & Hlen & -> & _).
  cbn [conversation_history story_content config model start_date output_path].
  rewrite !length_app, !flat_map_pairs_length by reflexivity.
  rewrite length_combine, Hlen, Nat.min_id.
  repeat split; try reflexivity; eexists; reflexivity.
Qed.

Lemma day_loop_only_appends_witness :
  exists l' st',
    for_each [1; 2] (story_day (sample_world secret_seed_0)) sample_locals
      bare_state = (Returned l', st')
    /\ conversation_history sample_locals `prefix_of` conversation_history l'
    /\ length (conversation_history l') = 6%nat
    /\ output_path l' = "cat.md".
Proof.
  pose (run := for_each [1; 2] (story_day (sample_world secret_seed_0))
                 sample_locals bare_state).
  assert (Hrun : exists l', run = (Returned l', snd run)).
  { destruct run as [[l' | e] st'] eqn:E.
    - exists l'. reflexivity.
    - exfalso.
      assert (H : match fst run with Returned _ => False | Raised _ => True end)
        by (rewrite E; exact I).
      vm_compute in H. exact H. }
  destruct Hrun as [l' Hrun]. exists l', (snd run).
  destruct (day_loop_only_appends _ _ _ _ _ _ Hrun)
    as (Hpre & _ & Hlen & _ & _ & _ & _ & Hpath).
  split; [exact Hrun |]. split; [exact Hpre |]. split; [exact Hlen |].
  exact Hpath.
Defined.

Lemma take_snoc_lookup {A} (l : list A) (n : nat) (x : A) :
  take (S n) l = take n l ++ [x] -> l !! n = Some x.
Proof.
  revert l. induction n as [| n IH]; intros l H.
  - destruct l as [| y l]; [discriminate H |].
    simpl in H. injection H as ->. reflexivity.
  - destruct l as [| y l]; [discriminate H |].
    simpl in H. injection H as H. simpl. apply IH. exact H.
Qed.

Lemma exchange_lookup start days : forall texts i text,
  length texts = length days ->
  texts !! i = Some text ->
  flat_map (day_exchange start) (combine days texts) !! (2 * i + 1)%nat
  = Some (Message.Make "assistant" text).
Proof.
  induction days as [| d days IH]; intros texts i text Hlen Hi.
  - destruct texts; [destruct i |]; discriminate.
  - destruct texts as [| t texts]; [discriminate Hlen |].
    destruct i as [| i].
    + injection Hi as ->. reflexivity.
    + replace (2 * S i + 1)%nat with (S (S (2 * i + 1))) by lia.
      cbn [combine flat_map day_exchange app lookup list_lookup].
      apply IH; [simpl in Hlen; lia | exact Hi].
Qed.

(** X15: the document of a run that returns records what the model
    answered, in order: the planning section holds the answer to the
    storyboard request and the section of day k the answer to the request
    of day k, each request having carried the transcript so far. *)
Theorem document_records_the_answers w initial_prompt num_days output_file
        story_start_date st st' :
  write_multi_day_story w initial_prompt num_days output_file story_start_date
    st = (Returned tt, st') ->
  exists cfg history start generated path storyboard_text texts,
    model_calls (issued st st')
    = map (fun j => request (Config.model cfg) (sent_in 0 history j) cfg)
          (seq 0 (S (length texts)))
    /\ writes (issued st st')
       = [WriteText path
            (PyStr.concat
               (document_head initial_prompt num_days generated
                  (PyDate.strftime_long start) cfg storyboard_text
                ++ flat_map (day_section start)
                     (combine (py_range 1 (num_days + 1)) texts)))]
    /\ length texts = length (py_range 1 (num_days + 1))
    /\ answer w (calls_so_far st) (Config.model cfg) (sent_in 0 history 0) cfg
       = Returned storyboard_text
    /\ forall j text,
         texts !! j = Some text ->
         answer w (calls_so_far st + S j) (Config.model cfg)
           (sent_in 0 history (S j)) cfg
         = Returned text.
Proof.
  intros Hrun. apply write_multi_day_story_run in Hrun. cbv zeta in Hrun.
  destruct Hrun as [(e & calls & He & _) | Hrun]; [discriminate He |].
  destruct Hrun as (cfg & start & generated & path & text0 & texts & Hrun).
  destruct Hrun as (_ & _ & _ & Hlen & _ & Htr & Hreplies).
  rewrite <- Hlen in Htr, Hreplies.
  eexists cfg, _, start, generated, path, text0, texts.
  assert (Hreqs : Forall (fun ev => is_model_call ev = true)
                    (map (fun j =>
                            request (Config.model cfg)
                              (sent_in 0
                                 ([Message.Make "user"
                                     (storyboard_prompt initial_prompt num_days
                                        (PyDate.strftime_long start));
                                   Message.Make "assistant" text0]
                                  ++ flat_map (day_exchange start)
                                       (combine (py_range 1 (num_days + 1))
                                          texts)) j) cfg)
                         (seq 0 (S (length texts)))))
    by (apply requests_are_model_calls; intros; apply request_is_model_call).
  split; [| split; [| split; [exact Hlen | split]]].
  - rewrite (issued_app _ _ _ Htr), model_calls_app.
    rewrite (model_calls_all _ Hreqs). apply app_nil_r.
  - rewrite (issued_app _ _ _ Htr), writes_app, (writes_of_calls _ Hreqs).
    reflexivity.
  - destruct (Hreplies 0%nat) as (reply & Hreply & Htake); [lia |].
    rewrite Nat.add_0_r in Hreply. rewrite Hreply. f_equal.
    cbv [sent_in] in Htake. simpl in Htake. congruence.
  - intros j text Hj.
    destruct (Hreplies (S j)) as (reply & Hreply & Htake).
    { apply lookup_lt_Some in Hj. lia. }
    rewrite Hreply. f_equal.
    unfold sent_in in Htake.
    replace (2 * S j + 2)%nat with (S (0 + 2 * S j + 1)) in Htake by lia.
    apply take_snoc_lookup in Htake.
    replace (0 + 2 * S j + 1)%nat with (S (S (2 * j + 1))) in Htake by lia.
    pose proof (exchange_lookup start _ texts j text Hlen Hj) as Hx.
    assert (Heq : Some (Message.Make "assistant" reply)
                  = Some (Message.Make "assistant" text))
      by (rewrite <- Htake; exact Hx).
    congruence.
Qed.

Lemma document_records_the_answers_witness :
  exists st' path document,
    write_multi_day_story (sample_world secret_seed_0) "A cat" 1
      (Some "cat.md") (Some "2025-07-21") (sample_state "gpt-4o" [])
    = (Returned tt, st')
    /\ writes (issued (sample_state "gpt-4o" []) st')
       = [WriteText path document].
Proof.
  pose (run := write_multi_day_story (sample_world secret_seed_0) "A cat" 1
                 (Some "cat.md") (Some "2025-07-21")
                 (sample_state "gpt-4o" [])).
  assert (Hrun : run = (Returned tt, snd run)) by (vm_compute; reflexivity).
  destruct (document_records_the_answers _ _ _ _ _ _ _ Hrun)
    as (cfg & history & start & generated & path & text0 & texts & _ & Hw & _).
  exists (snd run), path. eexists. split; [exact Hrun | exact Hw].
Defined.

(** ** Failures of the model endpoint *)

(** The setup with a configuration and a start date, when the storyboard
    request is answered by an exception. *)
Lemma story_setup_fails w initial_prompt num_days output_file
      story_start_date st cfg st1 start e :
  load_openai_config w st = (Returned cfg, st1) ->
  match story_start_date with
  | Some text => PyDate.strptime_ymd text
  | None =>
      PyDate.add_days (clock w (clock_reads st))
        (offset_days w initial_prompt)
  end = Returned start ->
  answer w (calls_so_far st) (Config.model cfg)
    [Message.Make "user"
       (storyboard_prompt initial_prompt num_days (PyDate.strftime_long start))]
    cfg = Raised e ->
  exists st3,
    story_setup w initial_prompt num_days output_file story_start_date st
    = (Raised e,
       push st3
         (request (Config.model cfg)
            [Message.Make "user"
               (storyboard_prompt initial_prompt num_days
                  (PyDate.strftime_long start))] cfg))
    /\ trace st3 = trace st.
Proof.
  intros Hcfg Hstart Hanswer. unfold story_setup.
  destruct (load_openai_config_run w st) as (st1' & Htr1 & Hck1 & _ & _ & Hcfg').
  rewrite Hcfg in Hcfg'. inversion Hcfg' as [[Hc Hst]]. subst st1'.
  unfold bind at 1. rewrite Hcfg.
  destruct (setup_litellm_run cfg st1) as (st2 & Hsetup & Htr2 & Hck2 & _).
  unfold bind at 1. rewrite Hsetup.
  destruct (determine_start_date_run w initial_prompt story_start_date st2)
    as (st3 & Hdate & Htr3).
  unfold bind at 1. rewrite Hdate, Hck2, Hck1, Hstart.
  unfold bind at 1.
  destruct ((match output_file with
             | Some name => ret name
             | None =>
                 timestamp <- now w ;;
                 ret ("story_openai_" +:+ PyDate.strftime_stamp timestamp
                      +:+ ".md")
             end) st3) as [[path | e'] st4] eqn:Hout.
  2: { destruct output_file; unfold bind, now, ret in Hout; discriminate Hout. }
  assert (Htr4 : trace st4 = trace st3).
  { destruct output_file; unfold bind, now, ret in Hout;
      injection Hout as _ <-; reflexivity. }
  unfold bind at 1. rewrite call_llm_run.
  assert (Hcalls : calls_so_far st4 = calls_so_far st)
    by (unfold calls_so_far; congruence).
  rewrite Hcalls. unfold append. simpl app. rewrite Hanswer.
  exists st4. split; [reflexivity | congruence].
Qed.

(** X16: when the storyboard request fails, the run ends with the very
    exception of the endpoint, having sent that one request and nothing
    else. *)
Theorem failed_storyboard_stops_run w initial_prompt num_days output_file
        story_start_date st cfg st1 start e :
  load_openai_config w st = (Returned cfg, st1) ->
  match story_start_date with
  | Some text => PyDate.strptime_ymd text
  | None =>
      PyDate.add_days (clock w (clock_reads st))
        (offset_days w initial_prompt)
  end = Returned start ->
  answer w (calls_so_far st) (Config.model cfg)
    [Message.Make "user"
       (storyboard_prompt initial_prompt num_days (PyDate.strftime_long start))]
    cfg = Raised e ->
  exists st',
    write_multi_day_story w initial_prompt num_days output_file
      story_start_date st = (Raised e, st')
    /\ issued st st'
       = [request (Config.model cfg)
            [Message.Make "user"
               (storyboard_prompt initial_prompt num_days
                  (PyDate.strftime_long start))]
            cfg].
Proof.
  intros Hcfg Hstart Hanswer.
  destruct (story_setup_fails w initial_prompt num_days output_file
              story_start_date st cfg st1 start e Hcfg Hstart Hanswer)
    as (st3 & Hsetup & Htr).
  eexists. unfold write_multi_day_story, bind. rewrite Hsetup.
  split; [reflexivity |]. apply issued_app.
  unfold push. cbn [trace]. rewrite Htr. reflexivity.
Qed.

Lemma failed_storyboard_stops_run_witness :
  exists st',
    write_multi_day_story reasoning_world "A cat" 2 (Some "cat.md")
      (Some "2025-07-21") (sample_state "gpt-4o" [])
    = (Raised IndexError, st')
    /\ length (issued (sample_state "gpt-4o" []) st') = 1%nat.
Proof.
  destruct (failed_storyboard_stops_run reasoning_world "A cat" 2
              (Some "cat.md") (Some "2025-07-21") (sample_state "gpt-4o" [])
              (Config.Make "sk-sample" "gpt-4o" "OpenAI" "medium" "medium")
              (snd (load_openai_config reasoning_world
                      (sample_state "gpt-4o" [])))
              (PyDate.Datetime 739453 0 0 0 0) IndexError)
    as (st' & Hrun & Hissued);
    [vm_compute; reflexivity | vm_compute; reflexivity | reflexivity |].
  exists st'. split; [exact Hrun |]. rewrite Hissued. reflexivity.
Defined.

(** The run is the run up to the end of day [k], then the days left, then
    the end, also for [k] = 0 (the setup alone). *)
Lemma write_multi_day_story_after_day w initial_prompt num_days output_file
      story_start_date k st :
  0 <= k <= num_days ->
  write_multi_day_story w initial_prompt num_days output_file story_start_date
    st
  = bind (story_after_day w initial_prompt num_days output_file
            story_start_date k)
         (fun l =>
            bind (for_each (py_range (k + 1) (num_days + 1)) (story_day w) l)
                 (story_finish num_days))
         st.
Proof.
  intros Hk. unfold write_multi_day_story, story_after_day.
  rewrite (py_range_split 1 (k + 1) (num_days + 1)) by lia.
  unfold bind at 1 3 4.
  destruct (story_setup _ _ _ _ _ _) as [[l | e] st1]; [| reflexivity].
  unfold bind at 1. rewrite for_each_app. unfold bind.
  destruct (for_each (py_range 1 (k + 1)) _ _ _) as [[l' | e] st2];
    reflexivity.
Qed.

Lemma py_range_first a b : a < b -> py_range a b = a :: py_range (a + 1) b.
Proof.
  intros H. rewrite (py_range_split a (a + 1) b) by lia.
  unfold py_range at 1. replace (Z.to_nat (a + 1 - a)) with 1%nat by lia.
  simpl. f_equal. lia.
Qed.

(** X17: a failure of the endpoint on the request of a day stops the run
    at once: when day k is done and the request of day k+1 is answered by
    an exception, the run ends with that exception, one request after the
    end of day k; no later day is asked for and no file is written. *)
Theorem failed_day_stops_run w initial_prompt num_days output_file
        story_start_date k st l st1 e :
  0 <= k < num_days ->
  story_after_day w initial_prompt num_days output_file story_start_date k st
  = (Returned l, st1) ->
  PyDate.min_ordinal
  <= PyDate.ordinal (start_date l) + (k + 1 - 1)
  <= PyDate.max_ordinal ->
  answer w (calls_so_far st1) (model l)
    (conversation_history l
     ++ [Message.Make "user"
           (day_prompt (k + 1)
              (PyDate.strftime_day (story_date (start_date l) (k + 1))))])
    (config l) = Raised e ->
  write_multi_day_story w initial_prompt num_days output_file story_start_date
    st
  = (Raised e,
     push st1
       (request (model l)
          (conversation_history l
           ++ [Message.Make "user"
                 (day_prompt (k + 1)
                    (PyDate.strftime_day (story_date (start_date l) (k + 1))))])
          (config l))).
Proof.
  intros Hk Hafter Hdate Hanswer.
  rewrite (write_multi_day_story_after_day _ _ _ _ _ k) by lia.
  unfold bind at 1. rewrite Hafter.
  rewrite (py_range_first (k + 1) (num_days + 1)) by lia.
  cbn [for_each]. unfold bind at 1 2.
  destruct (story_day w (k + 1) l st1) as [r st2] eqn:Hday.
  apply story_day_run in Hday.
  rewrite (add_days_in_range _ _ Hdate) in Hday. cbv zeta in Hday.
  rewrite Hanswer in Hday. destruct Hday as [-> ->]. reflexivity.
Qed.

Lemma failed_day_stops_run_witness :
  exists st1 ev,
    write_multi_day_story flaky_world "A cat" 2 (Some "cat.md")
      (Some "2025-07-21") (sample_state "gpt-4o" [])
    = (Raised (ProviderError "overloaded"), push st1 ev)
    /\ is_model_call ev = true
    /\ length (trace st1) = 1%nat.
Proof.
  pose (run := story_after_day flaky_world "A cat" 2 (Some "cat.md")
                 (Some "2025-07-21") 0 (sample_state "gpt-4o" [])).
  pose (l := match fst run with
             | Returned l => l
             | Raised _ => sample_locals
             end).
  assert (Hafter : run = (Returned l, snd run)) by (vm_compute; reflexivity).
  assert (Hdate : PyDate.min_ordinal
                  <= PyDate.ordinal (start_date l) + (0 + 1 - 1)
                  <= PyDate.max_ordinal)
    by (vm_compute; split; intros H; discriminate H).
  eexists (snd run), _. split; [| split].
  - apply (failed_day_stops_run flaky_world "A cat" 2 (Some "cat.md")
             (Some "2025-07-21") 0 (sample_state "gpt-4o" []) l (snd run)
             (ProviderError "overloaded") ltac:(lia) Hafter Hdate).
    vm_compute. reflexivity.
  - apply request_is_model_call.
  - vm_compute. reflexivity.
Defined.

(** ** Interactive mode at the end of the input *)

(** X18: in interactive mode, when fewer than two lines can be read the
    run ends with [EOFError] and nothing is asked of the model or written:
    the [try] around the day count only catches [ValueError]. *)
Theorem interactive_end_of_input w st :
  (length (stdin st) < 2)%nat ->
  exists st',
    interactive_story_writer w st = (Raised EOFError, st')
    /\ issued st st' = [].
Proof.
  intros Hlen. unfold interactive_story_writer.
  destruct (stdin st) as [| line1 [| line2 rest]] eqn:Hin;
    [| | simpl in Hlen; lia].
  - exists st. unfold bind at 1. unfold input at 1. rewrite Hin.
    split; [reflexivity |].
    apply (issued_app st st []). rewrite app_nil_r. reflexivity.
  - eexists. unfold bind at 1. unfold input at 1. rewrite Hin.
    unfold bind at 1. unfold except_ValueError, bind at 1, input. cbn [stdin].
    split; [reflexivity |].
    apply (issued_app st _ []). rewrite app_nil_r. reflexivity.
Qed.

Lemma interactive_end_of_input_witness :
  exists st',
    interactive_story_writer (sample_world secret_seed_0)
      (sample_state "gpt-4o" ["A cat"])
    = (Raised EOFError, st')
    /\ issued (sample_state "gpt-4o" ["A cat"]) st' = [].
Proof.
  apply (interactive_end_of_input (sample_world secret_seed_0)
           (sample_state "gpt-4o" ["A cat"])).
  simpl. lia.
Defined.

(** * Properties of the security hook *)

Lemma first_found_some patterns command output :
  Hooks.first_found patterns command = Some output ->
  exists before pattern after,
    patterns = before ++ pattern :: after
    /\ PyStr.contains pattern command = true
    /\ Forall (fun p => PyStr.contains p command = false) before
    /\ output = Hooks.Output "PreToolUse" "deny"
                  ("Dangerous command blocked: contains " +:+ PyStr.dquote
                   +:+ pattern +:+ PyStr.dquote).
Proof.
  induction patterns as [| p rest IH]; intros H; [discriminate H |].
  cbn [Hooks.first_found] in H.
  destruct (PyStr.contains p command) eqn:E.
  - injection H as <-. exists [], p, rest. repeat split; [exact E | constructor].
  - destruct (IH H) as (before & pattern & after & -> & Hp & Hb & ->).
    exists (p :: before), pattern, after.
    repeat split; [exact Hp | constructor; assumption].
Qed.

Lemma first_found_none patterns command :
  Hooks.first_found patterns command = None
  <-> Forall (fun p => PyStr.contains p command = false) patterns.
Proof.
  induction patterns as [| p rest IH]; cbn [Hooks.first_found].
  - split; [constructor | reflexivity].
  - destruct (PyStr.contains p command) eqn:E; split; intros H.
    + discriminate H.
    + inversion H; congruence.
    + constructor; [exact E | apply IH, H].
    + apply IH. inversion H; assumption.
Qed.

(** X19: [security_validator] refuses a call exactly when the tool is
    Bash and one of the four patterns occurs, as written, somewhere in the
    command; the reason it gives names the first such pattern in the
    order of the list.  Calls of other tools are always let through. *)
Theorem security_validator_refuses_iff input :
  (Hooks.security_validator input = None
   <-> (Hooks.tool_name input <> Some "Bash"
        \/ Forall (fun p => PyStr.contains p (Hooks.command_of input) = false)
             Hooks.dangerous_patterns))
  /\ forall output,
       Hooks.security_validator input = Some output ->
       exists before pattern after,
         Hooks.dangerous_patterns = before ++ pattern :: after
         /\ PyStr.contains pattern (Hooks.command_of input) = true
         /\ Forall (fun p => PyStr.contains p (Hooks.command_of input) = false)
              before
         /\ Hooks.permissionDecision output = "deny"
         /\ Hooks.permissionDecisionReason output
            = "Dangerous command blocked: contains " +:+ PyStr.dquote
              +:+ pattern +:+ PyStr.dquote.
Proof.
  unfold Hooks.security_validator. split.
  - destruct (Hooks.tool_name input) as [name |];
      [| split; [left; discriminate | reflexivity]].
    destruct (String.eqb name "Bash") eqn:E.
    + apply String.eqb_eq in E. subst name. rewrite first_found_none.
      split; [auto | intros [H | H]; [destruct (H eq_refl) | exact H]].
    + split; [| reflexivity]. intros _. left. intros H. injection H as ->.
      discriminate E.
  - intros output H.
    destruct (Hooks.tool_name input) as [name |]; [| discriminate H].
    destruct (String.eqb name "Bash"); [| discriminate H].
    apply first_found_some in H.
    destruct H as (before & pattern & after & Hl & Hp & Hb & ->).
    exists before, pattern, after. repeat split; assumption.
Qed.

Lemma contains_inside (sub a s b : string) :
  PyStr.contains sub s = true -> PyStr.contains sub (a +:+ s +:+ b) = true.
Proof.
  intros H. apply contains_split in H. destruct H as (x & y & ->).
  replace (a +:+ (x +:+ sub +:+ y) +:+ b) with ((a +:+ x) +:+ sub +:+ (y +:+ b))
    by (rewrite !append_assoc; reflexivity).
  apply contains_app.
Qed.

(** X20: wrapping a refused command never gets it through: when a Bash
    command is refused, so is every Bash command that contains it, with
    whatever is put before or after (a [cd] first, a pipe behind). *)
Theorem refused_command_stays_refused_inside command before after :
  Hooks.security_validator (Hooks.bash command) <> None ->
  Hooks.security_validator (Hooks.bash (before +:+ command +:+ after)) <> None.
Proof.
  assert (Hcmd : forall c, Hooks.command_of (Hooks.bash c) = c).
  { intros c. unfold Hooks.command_of, Hooks.bash. cbn [Hooks.tool_input].
    rewrite lookup_singleton_eq. reflexivity. }
  unfold Hooks.security_validator. cbn [Hooks.bash Hooks.tool_name].
  change (String.eqb "Bash" "Bash") with true. cbv iota.
  fold (Hooks.bash command). fold (Hooks.bash (before +:+ command +:+ after)).
  rewrite !Hcmd. intros Hrefused Hnone. apply Hrefused.
  apply first_found_none. apply first_found_none in Hnone.
  rewrite List.Forall_forall in *. intros p Hp. specialize (Hnone p Hp).
  destruct (PyStr.contains p command) eqn:E; [| reflexivity].
  rewrite (contains_inside p before command after E) in Hnone.
  discriminate Hnone.
Qed.

Lemma refused_command_stays_refused_inside_witness :
  Hooks.security_validator
    (Hooks.bash ("cd /tmp && " +:+ "rm -rf /" +:+ " | tee log")) <> None.
Proof.
  apply (refused_command_stays_refused_inside "rm -rf /" "cd /tmp && "
           " | tee log").
  vm_compute. discriminate.
Defined.

(** What the validator refuses and what it lets through, on commands a
    user could meet. *)
Example security_validator_samples :
  Hooks.security_validator (Hooks.bash "git format-patch -1") <> None
  /\ Hooks.security_validator (Hooks.bash "rm -rf /tmp/build") <> None
  /\ Hooks.security_validator (Hooks.bash "RM -RF /") = None
  /\ Hooks.security_validator (Hooks.bash "rm -fr /") = None
  /\ Hooks.security_validator
       (Hooks.Input (Some "Write") (Some {["command" := "rm -rf /"]})) = None.
Proof.
  repeat split; vm_compute; try discriminate; reflexivity.
Qed.

(** * Properties of the provider selection *)

(** X21: the providers that [run_comparison_test] and [interactive_mode]
    offer are exactly those of the three for which
    [get_provider_config] does not raise, so a provider that is offered
    can always be configured. *)
Theorem offered_providers_can_be_configured env provider :
  In provider (Providers.available_providers env)
  <-> exists vars model,
        Providers.get_provider_config env provider = Returned (vars, model).
Proof.
  unfold Providers.available_providers, Providers.get_provider_config,
    Providers.key_set.
  split.
  - intros Hin. apply in_app_or in Hin. destruct Hin as [Hin | Hin];
      [| apply in_app_or in Hin; destruct Hin as [Hin | Hin]].
    + destruct (env !! "ANTHROPIC_API_KEY") as [k |]; [| destruct Hin].
      destruct (PyStr.truthy k); [| destruct Hin].
      destruct Hin as [<- | []]. eexists. eexists. reflexivity.
    + destruct (env !! "GLM_API_KEY") as [k |]; [| destruct Hin].
      destruct (PyStr.truthy k); [| destruct Hin].
      destruct Hin as [<- | []]. eexists. eexists. reflexivity.
    + destruct (env !! "DEEPSEEK_API_KEY") as [k |]; [| destruct Hin].
      destruct (PyStr.truthy k); [| destruct Hin].
      destruct Hin as [<- | []]. eexists. eexists. reflexivity.
  - intros (vars & model & H).
    destruct (String.eqb provider "claude") eqn:E1.
    { apply String.eqb_eq in E1. subst.
      destruct (env !! "ANTHROPIC_API_KEY") as [k |]; [| discriminate H].
      destruct (PyStr.truthy k); [| discriminate H]. left. reflexivity. }
    destruct (String.eqb provider "glm") eqn:E2.
    { apply String.eqb_eq in E2. subst. apply in_or_app. right.
      destruct (env !! "GLM_API_KEY") as [k |]; [| discriminate H].
      destruct (PyStr.truthy k); [| discriminate H]. left. reflexivity. }
    destruct (String.eqb provider "deepseek") eqn:E3; [| discriminate H].
    apply String.eqb_eq in E3. subst. apply in_or_app. right.
    apply in_or_app. right.
    destruct (env !! "DEEPSEEK_API_KEY") as [k |]; [| discriminate H].
    destruct (PyStr.truthy k); [| discriminate H]. left. reflexivity.
Qed.

(** X22: what [get_provider_config] hands to the client never mixes
    providers: the variables it returns are none for Claude, and for GLM
    and Deepseek the endpoint of that provider together with a token that
    is that provider's own, non-empty key from the environment. *)
Theorem provider_token_is_its_own_key env provider vars model :
  Providers.get_provider_config env provider = Returned (vars, model) ->
  (provider = "claude" /\ vars = ∅ /\ model = "claude-sonnet-4-5-20250929")
  \/ (provider = "glm" /\ model = "glm-4.6"
      /\ vars !! "ANTHROPIC_BASE_URL" = Some "https://api.z.ai/api/anthropic"
      /\ exists key, env !! "GLM_API_KEY" = Some key /\ key <> EmptyString
                     /\ vars !! "ANTHROPIC_AUTH_TOKEN" = Some key)
  \/ (provider = "deepseek" /\ model = "deepseek-chat"
      /\ vars !! "ANTHROPIC_BASE_URL" = Some "https://api.deepseek.com"
      /\ exists key, env !! "DEEPSEEK_API_KEY" = Some key /\ key <> EmptyString
                     /\ vars !! "ANTHROPIC_AUTH_TOKEN" = Some key).
Proof.
  unfold Providers.get_provider_config. intros H.
  assert (Hne : forall k, PyStr.truthy k = true -> k <> EmptyString)
    by (intros k Hk ->; discriminate Hk).
  destruct (String.eqb provider "claude") eqn:E1.
  { apply String.eqb_eq in E1. subst. left.
    destruct (env !! "ANTHROPIC_API_KEY") as [k |]; [| discriminate H].
    destruct (PyStr.truthy k); [| discriminate H].
    injection H as <- <-. repeat split. }
  destruct (String.eqb provider "glm") eqn:E2.
  { apply String.eqb_eq in E2. subst. right. left.
    destruct (env !! "GLM_API_KEY") as [k |]; [| discriminate H].
    destruct (PyStr.truthy k) eqn:Ek; [| discriminate H].
    injection H as <- <-. split; [reflexivity |]. split; [reflexivity |].
    split; [rewrite lookup_insert_ne by discriminate;
            apply lookup_singleton_eq |].
    exists k. split; [reflexivity |].
    split; [apply Hne, Ek | apply lookup_insert_eq]. }
  destruct (String.eqb provider "deepseek") eqn:E3; [| discriminate H].
  apply String.eqb_eq in E3. subst. right. right.
  destruct (env !! "DEEPSEEK_API_KEY") as [k |]; [| discriminate H].
  destruct (PyStr.truthy k) eqn:Ek; [| discriminate H].
  injection H as <- <-. split; [reflexivity |]. split; [reflexivity |].
  split; [rewrite lookup_insert_ne by discriminate;
          apply lookup_singleton_eq |].
  exists k. split; [reflexivity |].
  split; [apply Hne, Ek | apply lookup_insert_eq].
Qed.

Lemma provider_token_is_its_own_key_witness :
  exists vars,
    Providers.get_provider_config Providers.two_keys "deepseek"
    = Returned (vars, "deepseek-chat")
    /\ vars !! "ANTHROPIC_AUTH_TOKEN" = Some "ds-key".
Proof.
  pose (run := Providers.get_provider_config Providers.two_keys "deepseek").
  assert (Hrun : exists vars, run = Returned (vars, "deepseek-chat")).
  { unfold run, Providers.get_provider_config.
    change (String.eqb "deepseek" "claude") with false.
    change (String.eqb "deepseek" "glm") with false.
    change (String.eqb "deepseek" "deepseek") with true. cbv iota.
    assert (Hk : Providers.two_keys !! "DEEPSEEK_API_KEY" = Some "ds-key")
      by apply lookup_insert_eq.
    rewrite Hk. eexists. reflexivity. }
  destruct Hrun as [vars Hrun]. exists vars. split; [exact Hrun |].
  destruct (provider_token_is_its_own_key _ _ _ _ Hrun)
    as [(H & _) | [(H & _) | (_ & _ & _ & key & Hkey & _ & Htoken)]];
    try discriminate H.
  assert (Hk : Providers.two_keys !! "DEEPSEEK_API_KEY" = Some "ds-key")
    by apply lookup_insert_eq.
  rewrite Hk in Hkey. injection Hkey as <-. exact Htoken.
Defined.

(** ** The test runner *)

Lemma run_tests_results import todo : forall results,
  RunAll.run_tests import todo = Some results ->
  results
  = map (fun t => (t.1, match RunAll.run_test import t.2 with
                        | RunAll.Passed => true
                        | _ => false
                        end)) todo
  /\ Forall (fun t => RunAll.run_test import t.2 <> RunAll.Interrupted) todo.
Proof.
  induction todo as [| [name module] todo IH]; intros results H; simpl in H.
  { injection H as <-. split; [reflexivity | constructor]. }
  destruct (RunAll.run_test import module) eqn:E; [| | discriminate H];
    destruct (RunAll.run_tests import todo) as [rest |]; try discriminate H;
    injection H as <-; destruct (IH rest eq_refl) as [-> Hall];
    (split; [simpl; rewrite E; reflexivity |]);
    constructor; try exact Hall; simpl; rewrite E; discriminate.
Qed.

Lemma all_counted (results : list (string * bool)) :
  length (List.filter snd results) = length results
  <-> Forall (fun r => r.2 = true) results.
Proof.
  induction results as [| [n b] results IH]; simpl.
  { split; [constructor | reflexivity]. }
  pose proof (List.filter_length_le snd results) as Hle.
  destruct b; simpl.
  - split.
    + intros H. constructor; [reflexivity |]. apply IH. lia.
    + intros H. inversion H; subst. f_equal. apply IH. assumption.
  - split; [lia |]. intros H. inversion H; subst. discriminate.
Qed.

(** X23: when [main] of the test runner comes to its end, its exit code
    is 0 exactly if each of the six modules passed, and 1 exactly if one
    of them failed; no other code is returned. *)
Theorem exit_code_counts_failures import code :
  RunAll.main import = Some code ->
  (code = 0
   /\ forall name module, (name, module) ∈ RunAll.tests ->
        RunAll.run_test import module = RunAll.Passed)
  \/ (code = 1
      /\ exists name module, (name, module) ∈ RunAll.tests
           /\ RunAll.run_test import module = RunAll.Failed).
Proof.
  unfold RunAll.main. intros H.
  destruct (RunAll.run_tests import RunAll.tests) as [results |] eqn:E;
    [| discriminate H].
  destruct (run_tests_results _ _ _ E) as [Hres Hall].
  rewrite Forall_forall in Hall.
  destruct (Nat.eqb _ _) eqn:Eq; injection H as <-.
  - left. split; [reflexivity |]. intros name module Hin.
    apply Nat.eqb_eq, all_counted in Eq. rewrite Forall_forall in Eq.
    specialize (Eq (name, match RunAll.run_test import module with
                          | RunAll.Passed => true
                          | _ => false
                          end)).
    simpl in Eq.
    destruct (RunAll.run_test import module) eqn:Ev; [reflexivity | |];
      exfalso; (assert (false = true) as Hf; [| discriminate Hf]);
      apply Eq; rewrite Hres;
      apply (list_elem_of_fmap_2'
               (fun t : string * string =>
                  (t.1, match RunAll.run_test import t.2 with
                        | RunAll.Passed => true
                        | _ => false
                        end)) _ (name, module)); try exact Hin;
      simpl; rewrite Ev; reflexivity.
  - right. split; [reflexivity |].
    apply Nat.eqb_neq in Eq.
    assert (Hnot : ~ Forall (fun r : string * bool => r.2 = true) results)
      by (intros Hf; apply Eq, all_counted, Hf).
    apply not_Forall_Exists in Hnot; [| intros [n b]; simpl; solve_decision].
    apply Exists_exists in Hnot. destruct Hnot as [[n b] [Hin Hb]].
    rewrite Hres in Hin. apply list_elem_of_fmap in Hin.
    destruct Hin as [[name module] [Heq Hin]]. simpl in Heq.
    exists name, module. split; [exact Hin |].
    specialize (Hall _ Hin). simpl in Hall, Hb.
    injection Heq as -> ->.
    destruct (RunAll.run_test import module);
      [exfalso; apply Hb; reflexivity | reflexivity
      | exfalso; apply Hall; reflexivity].
Qed.

Lemma exit_code_counts_failures_witness :
  RunAll.main (RunAll.one_broken "hooks_agent") = Some 1
  /\ exists name module, (name, module) ∈ RunAll.tests
       /\ RunAll.run_test (RunAll.one_broken "hooks_agent") module
          = RunAll.Failed.
Proof.
  assert (H : RunAll.main (RunAll.one_broken "hooks_agent") = Some 1)
    by (vm_compute; reflexivity).
  split; [exact H |].
  destruct (exit_code_counts_failures _ _ H) as [[Hc _] | [_ Hex]];
    [discriminate Hc | exact Hex].
Defined.

Lemma attribute_named_absent name attributes :
  (forall n a, (n, a) ∈ attributes -> n <> name) ->
  RunAll.attribute_named name attributes = None.
Proof.
  induction attributes as [| [n a] attributes IH]; intros H; simpl;
    [reflexivity |].
  destruct (String.eqb n name) eqn:E.
  - apply String.eqb_eq in E. exfalso. apply (H n a); [left | exact E].
  - apply IH. intros n' a' Hin. apply (H n' a'). right. exact Hin.
Qed.

Lemma first_test_skips before : forall rest,
  (forall n b, (n, RunAll.Callable b) ∈ before ->
     String.prefix "test_" n = false) ->
  RunAll.first_test (before ++ rest) = RunAll.first_test rest.
Proof.
  induction before as [| [n a] before IH]; intros rest H; simpl;
    [reflexivity |].
  assert (Hrest : RunAll.first_test (before ++ rest) = RunAll.first_test rest).
  { apply IH. intros n' b' Hin. apply (H n' b'). right. exact Hin. }
  destruct a as [b |]; [| exact Hrest].
  rewrite (H n b) by left. exact Hrest.
Qed.

(** X24: in a module without [main], only the first function whose name
    starts with [test_] is run: the verdict on the module is the outcome of
    that one function, whatever comes after it, other test functions
    included. *)
Theorem only_first_test_function_runs import module before name b after :
  import module = RunAll.Imported (before ++ (name, RunAll.Callable b) :: after) ->
  (forall n a, (n, a) ∈ before ++ (name, RunAll.Callable b) :: after ->
     n <> "main") ->
  (forall n b', (n, RunAll.Callable b') ∈ before ->
     String.prefix "test_" n = false) ->
  String.prefix "test_" name = true ->
  RunAll.run_test import module = RunAll.of_behaviour b.
Proof.
  intros Himp Hmain Hbefore Hname. unfold RunAll.run_test. rewrite Himp.
  rewrite (attribute_named_absent _ _ Hmain).
  rewrite (first_test_skips _ _ Hbefore). simpl. rewrite Hname.
  reflexivity.
Qed.

Lemma only_first_test_function_runs_witness :
  RunAll.run_test
    (fun _ => RunAll.Imported [ ("asyncio", RunAll.Plain);
                              ("test_a", RunAll.Callable RunAll.Completes);
                              ("test_b", RunAll.Callable RunAll.Fails) ])
    "two_tests"
  = RunAll.Passed.
Proof.
  apply (only_first_test_function_runs _ "two_tests"
           [("asyncio", RunAll.Plain)] "test_a" RunAll.Completes
           [("test_b", RunAll.Callable RunAll.Fails)]).
  - reflexivity.
  - intros n a Hin.
    repeat (apply elem_of_cons in Hin; destruct Hin as [Hin | Hin];
            [injection Hin as -> _; discriminate |]).
    apply elem_of_nil in Hin. destruct Hin.
  - intros n b' Hin. apply elem_of_cons in Hin. destruct Hin as [Hin | Hin];
      [discriminate Hin | apply elem_of_nil in Hin; destruct Hin].
  - reflexivity.
Defined.

(** X25: a module that can be imported and has neither [main] nor any
    attribute whose name starts with [test_] is reported as passed,
    although nothing of it was run. *)
Theorem nothing_to_run_passes import module attributes :
  import module = RunAll.Imported attributes ->
  (forall n a, (n, a) ∈ attributes ->
     n <> "main" /\ String.prefix "test_" n = false) ->
  RunAll.run_test import module = RunAll.Passed.
Proof.
  intros Himp H. unfold RunAll.run_test. rewrite Himp.
  rewrite attribute_named_absent by (intros n a Hin; apply (H n a Hin)).
  rewrite <- (app_nil_r attributes).
  rewrite first_test_skips by (intros n b Hin; apply (H _ _ Hin)).
  reflexivity.
Qed.

Lemma nothing_to_run_passes_witness :
  RunAll.run_test
    (fun _ => RunAll.Imported [ ("asyncio", RunAll.Plain);
                              ("helper", RunAll.Callable RunAll.Fails) ])
    "no_tests"
  = RunAll.Passed.
Proof.
  apply (nothing_to_run_passes _ "no_tests"
           [("asyncio", RunAll.Plain);
            ("helper", RunAll.Callable RunAll.Fails)]).
  - reflexivity.
  - intros n a Hin.
    repeat (apply elem_of_cons in Hin; destruct Hin as [Hin | Hin];
            [injection Hin as -> _; split; [discriminate | reflexivity] |]).
    apply elem_of_nil in Hin. destruct Hin.
Defined.

(** ** The query tool *)

Lemma rev_app_app (a : string) : forall b acc,
  String.rev_app (a +:+ b) acc = String.rev_app b (String.rev_app a acc).
Proof.
  induction a as [| c a IH]; intros b acc; [reflexivity |].
  rewrite append_cons. simpl. apply IH.
Qed.

Lemma rev_app_acc (a : string) : forall acc,
  String.rev_app a acc = String.rev_app a EmptyString +:+ acc.
Proof.
  induction a as [| c a IH]; intros acc; simpl; [reflexivity |].
  rewrite IH, (IH (String c EmptyString)), append_assoc. reflexivity.
Qed.

Lemma lstrip_app (x : string) c y :
  PyStr.isspace c = false ->
  PyStr.lstrip (x +:+ String c y) = PyStr.lstrip x +:+ String c y.
Proof.
  intros Hc. induction x as [| d x IH].
  - rewrite append_nil_l. simpl. rewrite Hc. reflexivity.
  - rewrite append_cons. simpl. destruct (PyStr.isspace d); [exact IH |].
    rewrite append_cons. reflexivity.
Qed.

(** [strip] keeps a leading [SELECT]. *)
Lemma strip_select rest :
  exists tail, PyStr.strip ("SELECT" +:+ rest) = "SELECT" +:+ tail.
Proof.
  unfold PyStr.strip, PyStr.rev, String.rev.
  change (PyStr.lstrip ("SELECT" +:+ rest)) with ("SELECT" +:+ rest).
  rewrite rev_app_app.
  change (String.rev_app "SELECT" EmptyString) with "TCELES".
  rewrite (rev_app_acc rest).
  rewrite (lstrip_app _ "T" "CELES") by reflexivity.
  rewrite rev_app_app.
  exists (String.rev_app
            (PyStr.lstrip (String.rev_app rest EmptyString)) EmptyString).
  rewrite (rev_app_acc (String "T" "CELES")). reflexivity.
Qed.

Lemma is_select_prefix rest : Sql.is_select ("SELECT" +:+ rest) = true.
Proof.
  unfold Sql.is_select. destruct (strip_select rest) as [tail ->].
  reflexivity.
Qed.

Lemma prefix_app (a b : string) : String.prefix a (a +:+ b) = true.
Proof.
  induction a as [| c a IH]; [destruct b; reflexivity |].
  rewrite append_cons. simpl.
  destruct (ascii_dec c c) as [_ | Hn]; [exact IH | destruct Hn; reflexivity].
Qed.

Lemma replace_first_absent old new s :
  PyStr.contains old s = false -> Sql.replace_first old new s = s.
Proof.
  induction s as [| c s IH]; cbn [PyStr.contains Sql.replace_first];
    intros H; apply orb_false_elim in H; destruct H as [Hp Hc]; rewrite Hp;
    [reflexivity |].
  rewrite (IH Hc). reflexivity.
Qed.

Lemma arguments_lookup query :
  Sql.arguments query !! "query" = Some query
  /\ Sql.arguments query !! "database" = Some "shop"
  /\ Sql.arguments query !! "server" = None.
Proof.
  unfold Sql.arguments. split; [apply lookup_insert_eq |].
  split.
  - rewrite lookup_insert_ne by discriminate. apply lookup_singleton_eq.
  - rewrite lookup_insert_ne by discriminate.
    apply lookup_singleton_ne. discriminate.
Qed.

(** X26: whatever the database and the arguments, [query_table] gives at
    most one statement to the database, and only for a query whose
    stripped, upper-cased text starts with [SELECT]: every other call ends
    before a statement is executed. *)
Theorem only_select_statements_reach_database db args conn statement :
  (conn, statement) ∈ (Sql.query_table db args).2 ->
  exists database query,
    args !! "database" = Some database
    /\ args !! "query" = Some query
    /\ Sql.is_select query = true
    /\ conn = Sql.connection_string
                (default "localhost" (args !! "server")) database
    /\ statement = Sql.with_row_limit query
    /\ (Sql.query_table db args).2 = [(conn, statement)].
Proof.
  unfold Sql.query_table.
  destruct (Sql.installed db); simpl;
    [| intros H; apply elem_of_nil in H; destruct H].
  destruct (args !! "database") as [database |]; simpl;
    [| intros H; apply elem_of_nil in H; destruct H].
  destruct (args !! "query") as [query |]; simpl;
    [| intros H; apply elem_of_nil in H; destruct H].
  destruct (Sql.is_select query) eqn:Eg; simpl;
    [| intros H; apply elem_of_nil in H; destruct H].
  destruct (Sql.connect_error db _) as [e |]; simpl;
    [intros H; apply elem_of_nil in H; destruct H |].
  destruct (Sql.execute db _ _) as [e | [columns rows]]; simpl; intros H;
    apply list_elem_of_singleton in H; injection H as -> ->;
    exists database, query; repeat split; try reflexivity; exact Eg.
Qed.

Lemma only_select_statements_reach_database_witness :
  exists database query,
    Sql.arguments "SELECT name FROM items" !! "database" = Some database
    /\ Sql.arguments "SELECT name FROM items" !! "query" = Some query
    /\ Sql.is_select query = true
    /\ Sql.connection_string "localhost" "shop"
       = Sql.connection_string
           (default "localhost"
              (Sql.arguments "SELECT name FROM items" !! "server")) database
    /\ "SELECT TOP 100 name FROM items" = Sql.with_row_limit query
    /\ (Sql.query_table Sql.obliging
          (Sql.arguments "SELECT name FROM items")).2
       = [(Sql.connection_string "localhost" "shop",
           "SELECT TOP 100 name FROM items")].
Proof.
  apply (only_select_statements_reach_database Sql.obliging
           (Sql.arguments "SELECT name FROM items")).
  destruct (arguments_lookup "SELECT name FROM items") as (Hq & Hd & Hs).
  unfold Sql.query_table. rewrite Hq, Hd, Hs.
  apply list_elem_of_singleton. reflexivity.
Defined.

(** X27: the check for [SELECT] looks at the beginning of the query only:
    whatever follows the word, a second statement included, the query is
    given to the database, unchanged when its upper-cased text contains
    [TOP] and with [TOP 100] put after the leading [SELECT] otherwise. *)
Theorem text_after_select_is_not_examined db args database rest :
  Sql.installed db = true ->
  args !! "database" = Some database ->
  args !! "query" = Some ("SELECT" +:+ rest) ->
  Sql.connect_error db
    (Sql.connection_string (default "localhost" (args !! "server")) database)
  = None ->
  (Sql.query_table db args).2
  = [(Sql.connection_string (default "localhost" (args !! "server")) database,
      if Sql.occurs (Sql.points "TOP") (Sql.upper ("SELECT" +:+ rest))
      then "SELECT" +:+ rest
      else "SELECT TOP 100" +:+ rest)].
Proof.
  intros Hi Hd Hq Hc. unfold Sql.query_table.
  rewrite Hi, Hd, Hq, is_select_prefix. simpl. rewrite Hc.
  assert (Hl : Sql.with_row_limit ("SELECT" +:+ rest)
               = if Sql.occurs (Sql.points "TOP")
                      (Sql.upper ("SELECT" +:+ rest))
                 then "SELECT" +:+ rest
                 else "SELECT TOP 100" +:+ rest).
  { unfold Sql.with_row_limit.
    destruct (Sql.occurs _ _); [reflexivity |].
    change (negb false) with true. cbv iota.
    change ("SELECT" +:+ rest)
      with (String "S" (String "E" (String "L" ("ECT" +:+ rest)))).
    cbn [Sql.replace_first].
    change (String "S" (String "E" (String "L" ("ECT" +:+ rest))))
      with ("SELECT" +:+ rest).
    rewrite prefix_app. reflexivity. }
  rewrite Hl.
  destruct (Sql.execute db _ _) as [e | [columns rows]]; reflexivity.
Qed.

Lemma text_after_select_is_not_examined_witness :
  (Sql.query_table Sql.obliging
     (Sql.arguments "SELECT 1; DROP TABLE orders")).2
  = [(Sql.connection_string
        (default "localhost"
           (Sql.arguments "SELECT 1; DROP TABLE orders" !! "server")) "shop",
      "SELECT TOP 100 1; DROP TABLE orders")].
Proof.
  destruct (arguments_lookup "SELECT 1; DROP TABLE orders") as (Hq & Hd & Hs).
  apply (text_after_select_is_not_examined Sql.obliging
           (Sql.arguments "SELECT 1; DROP TABLE orders") "shop"
           " 1; DROP TABLE orders").
  - reflexivity.
  - exact Hd.
  - exact Hq.
  - reflexivity.
Defined.

(** X28: the row limit is put in only after a [SELECT] written in capital
    letters: a query that passes the check but does not contain the word in
    capitals (as [select ...] does) is executed as it is, with no limit on
    the rows fetched. *)
Theorem no_row_limit_without_capital_select db args database query :
  Sql.installed db = true ->
  args !! "database" = Some database ->
  args !! "query" = Some query ->
  Sql.is_select query = true ->
  PyStr.contains "SELECT" query = false ->
  Sql.connect_error db
    (Sql.connection_string (default "localhost" (args !! "server")) database)
  = None ->
  (Sql.query_table db args).2
  = [(Sql.connection_string (default "localhost" (args !! "server")) database,
      query)].
Proof.
  intros Hi Hd Hq Hg Habs Hc. unfold Sql.query_table.
  rewrite Hi, Hd, Hq, Hg. simpl. rewrite Hc.
  assert (Hl : Sql.with_row_limit query = query).
  { unfold Sql.with_row_limit. destruct (negb _); [| reflexivity].
    apply replace_first_absent, Habs. }
  rewrite Hl.
  destruct (Sql.execute db _ _) as [e | [columns rows]]; reflexivity.
Qed.

Lemma no_row_limit_without_capital_select_witness :
  (Sql.query_table Sql.obliging
     (Sql.arguments "select * from orders")).2
  = [(Sql.connection_string
        (default "localhost"
           (Sql.arguments "select * from orders" !! "server")) "shop",
      "select * from orders")].
Proof.
  destruct (arguments_lookup "select * from orders") as (Hq & Hd & Hs).
  apply (no_row_limit_without_capital_select Sql.obliging
           (Sql.arguments "select * from orders") "shop"
           "select * from orders").
  - reflexivity.
  - exact Hd.
  - exact Hq.
  - vm_compute. reflexivity.
  - vm_compute. reflexivity.
  - reflexivity.
Defined.

(** ** The interactive mode of the provider script *)

Lemma available_provider_configured env provider :
  In provider (Providers.available_providers env) ->
  exists vars model,
    Providers.get_provider_config env provider = Returned (vars, model).
Proof.
  unfold Providers.available_providers, Providers.get_provider_config,
    Providers.key_set.
  intros Hin. apply in_app_or in Hin. destruct Hin as [Hin | Hin];
    [| apply in_app_or in Hin; destruct Hin as [Hin | Hin]].
  - destruct (env !! "ANTHROPIC_API_KEY") as [k |]; [| destruct Hin].
    destruct (PyStr.truthy k); [| destruct Hin].
    destruct Hin as [<- | []]. eexists. eexists. reflexivity.
  - destruct (env !! "GLM_API_KEY") as [k |]; [| destruct Hin].
    destruct (PyStr.truthy k); [| destruct Hin].
    destruct Hin as [<- | []]. eexists. eexists. reflexivity.
  - destruct (env !! "DEEPSEEK_API_KEY") as [k |]; [| destruct Hin].
    destruct (PyStr.truthy k); [| destruct Hin].
    destruct Hin as [<- | []]. eexists. eexists. reflexivity.
Qed.

Lemma member_In x l : Interactive.member x l = true -> In x l.
Proof.
  unfold Interactive.member. intros H. apply existsb_exists in H.
  destruct H as [y [Hin Heq]]. apply String.eqb_eq in Heq. subst. exact Hin.
Qed.

Lemma round_providers available current line sent prompt provider :
  Interactive.interactive_mode_round available current line
  = Interactive.Queries sent ->
  In (prompt, provider) sent ->
  In provider available \/ provider = current.
Proof.
  unfold Interactive.interactive_mode_round.
  destruct (negb (PyStr.truthy _)); [discriminate |].
  destruct (String.eqb (PyStr.strip line) "/quit"); [discriminate |].
  destruct (String.prefix "/" _).
  2:{ intros H Hin. injection H as <-. destruct Hin as [Hin | []].
      injection Hin as _ <-. right. reflexivity. }
  destruct (_ && _); [discriminate |].
  destruct (String.eqb _ "/claude" && _) eqn:E1.
  { intros H Hin. injection H as <-. destruct Hin as [Hin | []].
    injection Hin as _ <-. left. apply andb_prop in E1. apply member_In, E1. }
  destruct (String.eqb _ "/glm" && _) eqn:E2.
  { intros H Hin. injection H as <-. destruct Hin as [Hin | []].
    injection Hin as _ <-. left. apply andb_prop in E2. apply member_In, E2. }
  destruct (String.eqb _ "/deepseek" && _) eqn:E3.
  { intros H Hin. injection H as <-. destruct Hin as [Hin | []].
    injection Hin as _ <-. left. apply andb_prop in E3. apply member_In, E3. }
  destruct (String.eqb _ "/all"); [| discriminate].
  intros H Hin. injection H as <-. apply in_map_iff in Hin.
  destruct Hin as [p [Heq Hin]]. injection Heq as _ <-. left. exact Hin.
Qed.

Lemma rounds_providers available current lines prompt provider :
  In (prompt, provider) (Interactive.rounds available current lines) ->
  In provider available \/ provider = current.
Proof.
  induction lines as [| line lines IH]; simpl; [intros [] |].
  destruct (Interactive.interactive_mode_round available current line)
    as [| | text | sent] eqn:E; try exact IH; [intros [] |].
  intros Hin. apply in_app_or in Hin. destruct Hin as [Hin | Hin];
    [exact (round_providers _ _ _ _ _ _ E Hin) | exact (IH Hin)].
Qed.

(** X29: in interactive mode every call of [query_with_provider], typed
    with a command, with [/all] or with no command at all, names a provider
    whose key is set, so its configuration can be built. *)
Theorem interactive_queries_reach_configured_providers
        env lines prompt provider :
  In (prompt, provider) (Interactive.interactive_mode env lines) ->
  exists vars model,
    Providers.get_provider_config env provider = Returned (vars, model).
Proof.
  unfold Interactive.interactive_mode. intros Hin.
  apply available_provider_configured.
  destruct (Providers.available_providers env) as [| current others] eqn:E;
    [destruct Hin |].
  destruct (rounds_providers _ _ _ _ _ Hin) as [H | ->];
    [exact H | left; reflexivity].
Qed.

Lemma available_two_keys :
  Providers.available_providers Providers.two_keys = ["claude"; "deepseek"].
Proof.
  unfold Providers.available_providers, Providers.key_set, Providers.two_keys.
  rewrite (lookup_insert_ne _ "DEEPSEEK_API_KEY" "ANTHROPIC_API_KEY")
    by discriminate.
  rewrite lookup_singleton_eq.
  rewrite (lookup_insert_ne _ "DEEPSEEK_API_KEY" "GLM_API_KEY")
    by discriminate.
  rewrite lookup_singleton_ne by discriminate.
  rewrite lookup_insert_eq. reflexivity.
Qed.

Lemma interactive_queries_reach_configured_providers_witness :
  In ("hi", "deepseek")
     (Interactive.interactive_mode Providers.two_keys ["/all hi"; "/quit"])
  /\ exists vars model,
       Providers.get_provider_config Providers.two_keys "deepseek"
       = Returned (vars, model).
Proof.
  assert (Hin : In ("hi", "deepseek")
                  (Interactive.interactive_mode Providers.two_keys
                     ["/all hi"; "/quit"])).
  { unfold Interactive.interactive_mode. rewrite available_two_keys.
    right. left. reflexivity. }
  split; [exact Hin |].
  exact (interactive_queries_reach_configured_providers _ _ _ _ Hin).
Defined.

Lemma after_word_no_space s :
  (forall c, In c (list_ascii_of_string s) -> PyStr.isspace c = false) ->
  Interactive.after_word s = EmptyString.
Proof.
  induction s as [| c s IH]; intros H; simpl; [reflexivity |].
  rewrite (H c) by (left; reflexivity).
  apply IH. intros d Hd. apply H. right. exact Hd.
Qed.

(** X30: a command typed without a prompt (a line that, stripped, starts
    with a slash and holds no white space) never reaches a provider: it
    leaves the loop if it is exactly [/quit], and is answered with a
    complaint otherwise, [/QUIT] and [/all] included. *)
Theorem command_without_prompt_asks_nobody available current line :
  String.prefix "/" (PyStr.strip line) = true ->
  (forall c, In c (list_ascii_of_string (PyStr.strip line)) ->
     PyStr.isspace c = false) ->
  (PyStr.strip line = "/quit"
   /\ Interactive.interactive_mode_round available current line
      = Interactive.Goodbye)
  \/ (PyStr.strip line <> "/quit"
      /\ exists text,
           Interactive.interactive_mode_round available current line
           = Interactive.Complaint text).
Proof.
  intros Hslash Hword. unfold Interactive.interactive_mode_round.
  rewrite (after_word_no_space _ Hword).
  destruct (PyStr.strip line) as [| c r] eqn:Es; [discriminate Hslash |].
  cbn [PyStr.truthy negb]. rewrite Hslash.
  destruct (String.eqb (String c r) "/quit") eqn:Eq.
  { left. apply String.eqb_eq in Eq. split; [exact Eq | reflexivity]. }
  right. split; [intros H; rewrite H in Eq; discriminate Eq |].
  cbn [andb].
  destruct (String.eqb (PyStr.lower _) "/quit") eqn:Ec.
  - apply String.eqb_eq in Ec. rewrite Ec. eexists. reflexivity.
  - eexists. reflexivity.
Qed.

Lemma command_without_prompt_asks_nobody_witness :
  Interactive.interactive_mode_round ["claude"] "claude" "/QUIT"
  = Interactive.Complaint "Error: Unknown or unavailable command '/quit'".
Proof.
  destruct (command_without_prompt_asks_nobody ["claude"] "claude" "/QUIT")
    as [[Hq _] | [_ [text Ht]]].
  - reflexivity.
  - intros c Hin.
    repeat (destruct Hin as [<- | Hin]; [reflexivity |]). destruct Hin.
  - discriminate Hq.
  - reflexivity.
Defined.
